(** * hobuilder/api.py: the HasOffers client, its retry loop and its mapper

    A shallow embedding of [hobuilder/api.py].  The program is Python: the
    decoded JSON body is a graph of mutable objects, and the mapper updates
    dictionaries of that graph in place.  The embedding therefore keeps an
    explicit store of objects, and every function of the source is a
    computation over that store which either returns or raises.

    Scope of the data model: JSON numbers are Python [int]s (floating point
    numbers are left out), and strings are ASCII text.  The server and the
    package [http_build_query] are parameters.  The text and the timing of
    the log lines are not part of the embedding. *)

From Stdlib Require Import ZArith Ascii String List Bool Lia.
From stdpp Require Import base tactics option list strings pretty.

Set Warnings "-register-all".
Local Open Scope string_scope.
Local Open Scope list_scope.
Local Open Scope Z_scope.

(** ** Values and objects *)

Abbreviation loc := nat (only parsing).

(** A Python value as [json.loads] produces them: immediates, or a
    reference to a list or dictionary object. *)
Inductive val :=
  | VNone
  | VBool (b : bool)
  | VInt (n : Z)
  | VStr (s : string)
  | VRef (l : loc).

(** A Python dictionary with string keys: the entries in insertion order,
    every key once. *)
Abbreviation dict V := (list (string * V)) (only parsing).

Inductive obj :=
  | OList (items : list val)
  | ODict (items : dict val).

Abbreviation heap := (list obj) (only parsing).

(** The decoded body as a tree, before it is placed in the store. *)
Inductive json :=
  | JNull
  | JBool (b : bool)
  | JInt (n : Z)
  | JStr (s : string)
  | JList (items : list json)
  | JDict (items : list (string * json)).

(** ** Exceptions *)

Inductive exn :=
  | Error (arg : val)                      (* class Error(Exception) *)
  | APIUsageExceededRateLimit (arg : val)  (* class APIUsageExceededRateLimit(Error) *)
  | PyException (msg : string)             (* raise Exception('...') *)
  | KeyError (key : string)
  | TypeError
  | AttributeError
  | ValueError
  | RuntimeError
  | RecursionError
  | SystemError                            (* a reference to no object *)
  | TransportFailure (what : string).      (* whatever requests.get / .json() raise *)

(** [except APIUsageExceededRateLimit:] catches that class only. *)
Definition isinstance_APIUsageExceededRateLimit (e : exn) : bool :=
  match e with APIUsageExceededRateLimit _ => true | _ => false end.

(** [except Error:] would catch both classes of the module. *)
Definition isinstance_Error (e : exn) : bool :=
  match e with Error _ | APIUsageExceededRateLimit _ => true | _ => false end.

(** ** The world and the monad *)

Inductive log_msg :=
  | Executing (url : string)
  | Received (status_code : Z)
  | Retrying (attempts : Z).

Inductive event :=
  | EvLog (level : Z) (msg : log_msg)   (* logger.log(level, msg) *)
  | EvGet (url : string)                (* requests.get(url) *)
  | EvSleep (ms : Z).                   (* time.sleep(ms / 1000) *)

(** A [Request] object: the only object of the program, besides lists and
    dictionaries, that is changed after its construction. *)
Record request_obj := RequestObj {
  target : string;
  method : string;
  params : dict json;
  attempts : Z;
  url : string
}.

Record world := World {
  store : heap;                 (* lists and dictionaries *)
  requests : list request_obj;  (* Request objects *)
  sent : nat;                   (* GET requests issued so far *)
  trace : list event
}.

Inductive result (A : Type) :=
  | Ok (a : A)
  | Raise (e : exn).
Arguments Ok {A} a.
Arguments Raise {A} e.

Definition M (A : Type) : Type := world -> result A * world.

Definition ret {A} (a : A) : M A := fun w => (Ok a, w).
Definition raise {A} (e : exn) : M A := fun w => (Raise e, w).
Definition bind {A B} (m : M A) (k : A -> M B) : M B :=
  fun w => match m w with
           | (Ok a, w') => k a w'
           | (Raise e, w') => (Raise e, w')
           end.

Notation "x <- m ;; k" := (bind m (fun x => k))
  (at level 90, m at next level, right associativity).
Notation "m ;;; k" := (bind m (fun _ => k))
  (at level 90, right associativity).

Definition lift {A} (r : result A) : M A := fun w => (r, w).
Definition emit (e : event) : M unit :=
  fun w => (Ok tt, World (store w) (requests w) (sent w) (trace w ++ [e])).

(** [try: m except <class>: handler] *)
Definition try_except {A} (m : M A) (catches : exn -> bool) (handler : M A) : M A :=
  fun w => match m w with
           | (Raise e, w') => if catches e then handler w' else (Raise e, w')
           | r => r
           end.

(** [a or b] on conditions, [b] evaluated only when [a] is false. *)
Definition py_or (a b : M bool) : M bool :=
  x <- a ;; if x then ret true else b.

(** ** Dictionaries *)

Section Dict.
Context {V : Type}.

Fixpoint dict_get (k : string) (d : dict V) : option V :=
  match d with
  | [] => None
  | (k', v) :: d' => if String.eqb k k' then Some v else dict_get k d'
  end.

(** [d[k] = v]: an existing key keeps its position. *)
Fixpoint dict_set (k : string) (v : V) (d : dict V) : dict V :=
  match d with
  | [] => [(k, v)]
  | (k', v') :: d' =>
      if String.eqb k k' then (k', v) :: d' else (k', v') :: dict_set k v d'
  end.

(** [d.update(other)] *)
Definition dict_update (d other : dict V) : dict V :=
  fold_left (fun acc kv => dict_set (fst kv) (snd kv) acc) other d.

Definition dict_keys (d : dict V) : list string := map fst d.

Definition dict_has (k : string) (d : dict V) : bool :=
  match dict_get k d with Some _ => true | None => false end.
End Dict.

(** [dict(pairs)], as the JSON decoder builds an object: a repeated key
    keeps its first position and its last value. *)
Definition dict_of_pairs {V} (kvs : list (string * V)) : dict V :=
  dict_update [] kvs.

(** ** Strings *)

(** [needle in hay] on two strings. *)
Fixpoint str_contains (needle hay : string) : bool :=
  String.prefix needle hay ||
  match hay with
  | EmptyString => false
  | String _ hay' => str_contains needle hay'
  end.

(** The white space [int] skips around the digits of an ASCII string:
    tab, line feed, vertical tab, form feed, carriage return, space. *)
Definition is_space (c : ascii) : bool :=
  let n := N_of_ascii c in
  ((9 <=? n) && (n <=? 13) || (n =? 32))%N.

Definition digit_of (c : ascii) : option Z :=
  let n := N_of_ascii c in
  if ((48 <=? n) && (n <=? 57))%N then Some (Z.of_N n - 48) else None.

Fixpoint lstrip (s : list ascii) : list ascii :=
  match s with
  | c :: s' => if is_space c then lstrip s' else s
  | [] => []
  end.

Definition strip (s : list ascii) : list ascii :=
  rev (lstrip (rev (lstrip s))).

(** The digits of an integer literal, most significant first; a single
    underscore may separate two digits.  [prev] tells whether the previous
    character was a digit. *)
Fixpoint parse_digits (s : list ascii) (acc : Z) (prev : bool) : option Z :=
  match s with
  | [] => if prev then Some acc else None
  | c :: s' =>
      match digit_of c with
      | Some d => parse_digits s' (10 * acc + d) true
      | None =>
          if (Ascii.eqb c "_" && prev)%bool
          then match s' with
               | [] => None
               | _ => parse_digits s' acc false
               end
          else None
      end
  end.

(** [int(s)] on a string, base 10: white space around, a sign, digits.
    (The bound recent versions of Python put on the number of digits is
    left out.) *)
Definition parse_int (s : string) : option Z :=
  match strip (list_ascii_of_string s) with
  | "-"%char :: ds => Z.opp <$> parse_digits ds 0 false
  | "+"%char :: ds => parse_digits ds 0 false
  | ds => parse_digits ds 0 false
  end.

(** [int(v)] *)
Definition py_int (v : val) : result Z :=
  match v with
  | VInt n => Ok n
  | VBool b => Ok (if b then 1 else 0)
  | VStr s => match parse_int s with Some n => Ok n | None => Raise ValueError end
  | VNone | VRef _ => Raise TypeError
  end.

(** [v == n] for an integer literal [n]; [True == 1] holds in Python. *)
Definition py_eq_int (v : val) (n : Z) : bool :=
  match v with
  | VInt m => m =? n
  | VBool b => (if b then 1 else 0) =? n
  | _ => false
  end.

(** [repr(s)] of a string: single quotes unless the string holds a single
    quote and no double quote; backslash escapes for the quote, the
    backslash and the characters that do not print. *)
Definition hex_digit (n : N) : ascii :=
  ascii_of_N (if (n <? 10)%N then 48 + n else 87 + n)%N.

Definition repr_char (q c : ascii) : string :=
  let n := N_of_ascii c in
  if (Ascii.eqb c q || Ascii.eqb c "\")%bool then String "\" (String c EmptyString)
  else if (n =? 9)%N then "\t"
  else if (n =? 10)%N then "\n"
  else if (n =? 13)%N then "\r"
  else if ((n <? 32) || (127 <=? n))%N
       then String "\" (String "x" (String (hex_digit (n / 16))
                                       (String (hex_digit (n mod 16)) EmptyString)))
  else String c EmptyString.

Definition has_char (c : ascii) (s : string) : bool :=
  existsb (Ascii.eqb c) (list_ascii_of_string s).

Definition dquote : ascii := ascii_of_N 34.

Definition repr_str (s : string) : string :=
  let q := if (has_char "'" s && negb (has_char dquote s))%bool then dquote else "'"%char in
  String q (String.concat EmptyString (map (repr_char q) (list_ascii_of_string s)))
    +:+ String q EmptyString.

(** ** Built-in operations on values of the store *)

(** [repr(v)]; [stack] holds the containers being printed, where Python
    prints [[...]] or [{...}] instead of descending again.  A container is
    entered at most once on a path, so [length h] levels of descent are
    enough. *)
Fixpoint py_repr_aux (fuel : nat) (h : heap) (stack : list loc) (v : val) : string :=
  match v with
  | VNone => "None"
  | VBool b => if b then "True" else "False"
  | VInt n => pretty n
  | VStr s => repr_str s
  | VRef l =>
      match h !! l with
      | None => EmptyString
      | Some o =>
          if bool_decide (l ∈ stack)
          then match o with OList _ => "[...]" | ODict _ => "{...}" end
          else match fuel with
               | O => EmptyString
               | S fuel' =>
                   match o with
                   | OList vs =>
                       "[" +:+ String.concat ", "
                                 (map (py_repr_aux fuel' h (l :: stack)) vs) +:+ "]"
                   | ODict d =>
                       "{" +:+ String.concat ", "
                                 (map (fun kv => repr_str (fst kv) +:+ ": " +:+
                                                 py_repr_aux fuel' h (l :: stack) (snd kv)) d)
                           +:+ "}"
                   end
               end
      end
  end.

Definition py_repr (h : heap) (v : val) : string :=
  py_repr_aux (length h) h [] v.

(** [needle in v] for a string [needle]: key of a dictionary, element of
    a list, substring of a string; anything else is not iterable. *)
Definition py_contains (h : heap) (needle : string) (v : val) : result bool :=
  match v with
  | VStr s => Ok (str_contains needle s)
  | VRef l =>
      match h !! l with
      | Some (ODict d) => Ok (dict_has needle d)
      | Some (OList vs) =>
          Ok (existsb (fun x => match x with VStr s => String.eqb s needle | _ => false end) vs)
      | None => Raise SystemError
      end
  | VNone | VBool _ | VInt _ => Raise TypeError
  end.

(** [v[k]] for a string [k]. *)
Definition py_getitem (h : heap) (v : val) (k : string) : result val :=
  match v with
  | VRef l =>
      match h !! l with
      | Some (ODict d) =>
          match dict_get k d with
          | Some x => Ok x
          | None => Raise (KeyError k)
          end
      | Some (OList _) => Raise TypeError
      | None => Raise SystemError
      end
  | VNone | VBool _ | VInt _ | VStr _ => Raise TypeError
  end.

(** [len(v)] *)
Definition py_len (h : heap) (v : val) : result nat :=
  match v with
  | VStr s => Ok (String.length s)
  | VRef l =>
      match h !! l with
      | Some (ODict d) => Ok (length d)
      | Some (OList vs) => Ok (length vs)
      | None => Raise SystemError
      end
  | VNone | VBool _ | VInt _ => Raise TypeError
  end.

(** [type(v) == dict] *)
Definition py_is_dict (h : heap) (v : val) : bool :=
  match v with
  | VRef l => match h !! l with Some (ODict _) => true | _ => false end
  | _ => false
  end.

(** [list(v.items())]: only a dictionary has [items]. *)
Definition py_items (h : heap) (v : val) : result (dict val) :=
  match v with
  | VRef l =>
      match h !! l with
      | Some (ODict d) => Ok d
      | Some (OList _) => Raise AttributeError
      | None => Raise SystemError
      end
  | VNone | VBool _ | VInt _ | VStr _ => Raise AttributeError
  end.

(** [v.update(other)]: the dictionary object [v] is changed in place. *)
Definition py_update (h : heap) (v : val) (other : dict val) : result heap :=
  match v with
  | VRef l =>
      match h !! l with
      | Some (ODict d) => Ok (<[l := ODict (dict_update d other)]> h)
      | Some (OList _) => Raise AttributeError
      | None => Raise SystemError
      end
  | VNone | VBool _ | VInt _ | VStr _ => Raise AttributeError
  end.

Definition read {A} (f : heap -> result A) : M A :=
  fun w => (f (store w), w).

Definition write (f : heap -> result heap) : M unit :=
  fun w => match f (store w) with
           | Ok h' => (Ok tt, World h' (requests w) (sent w) (trace w))
           | Raise e => (Raise e, w)
           end.

(** ** Decoding a body into the store *)

(** [http_response.json()]: every array and object of the body becomes a
    fresh object of the store. *)
Fixpoint decode (j : json) (h : heap) : val * heap :=
  match j with
  | JNull => (VNone, h)
  | JBool b => (VBool b, h)
  | JInt n => (VInt n, h)
  | JStr s => (VStr s, h)
  | JList js =>
      let '(vs, h1) :=
        (fix decode_items (js : list json) (h : heap) : list val * heap :=
           match js with
           | [] => ([], h)
           | j :: js' =>
               let '(v, h1) := decode j h in
               let '(vs, h2) := decode_items js' h1 in
               (v :: vs, h2)
           end) js h in
      (VRef (length h1), (h1 ++ [OList vs])%list)
  | JDict kvs =>
      let '(d, h1) :=
        (fix decode_pairs (kvs : list (string * json)) (d : dict val) (h : heap)
           : dict val * heap :=
           match kvs with
           | [] => (d, h)
           | (k, j) :: kvs' =>
               let '(v, h1) := decode j h in
               decode_pairs kvs' (dict_set k v d) h1
           end) kvs [] h in
      (VRef (length h1), (h1 ++ [ODict d])%list)
  end.

(** ** What the program does not define *)

(** The answer to one GET. *)
Inductive reply :=
  | Reply (status_code : Z) (body : option json)  (* no body: the text is not JSON *)
  | NoReply (what : string).                      (* requests.get raised *)

(** The outside of the program: the server, asked for the [n]-th GET of
    the run at a URL, and [http_build_query] of the package of that name. *)
Record externals := Externals {
  net : nat -> string -> reply;
  http_build_query : dict json -> result string
}.

Definition ROOT : string := "http://api.hasoffers.com/v3/".

Definition INFO : Z := 20.
Definition DEBUG : Z := 10.

(** ** class Request *)

Module Request.

Definition t := nat.   (* a reference into [requests] *)

Definition get (request : t) : M request_obj :=
  fun w => match requests w !! request with
           | Some r => (Ok r, w)
           | None => (Raise SystemError, w)
           end.

Definition set_attempts (request : t) (n : Z) : M unit :=
  r <- get request ;;
  fun w => (Ok tt,
            World (store w)
                  (<[request := RequestObj (target r) (method r) (params r) n (url r)]>
                     (requests w))
                  (sent w) (trace w)).

Definition build_url (ext : externals) (target : string) (params : dict json)
  : M string :=
  let base_url := ROOT +:+ target +:+ ".json?" in
  q <- lift (http_build_query ext params) ;;
  ret (base_url +:+ q).

Definition __init__ (ext : externals) (target method : string) (params : dict json)
  : M t :=
  url <- build_url ext target params ;;
  fun w => (Ok (length (requests w)),
            World (store w)
                  (requests w ++ [RequestObj target method params 0 url])
                  (sent w) (trace w)).

End Request.

(** ** class Model *)

Module Model.

(** The instance dictionary of a [Model]. *)
Definition t := dict val.

(** [for k, v in d.items(): ...] *)
Fixpoint fill (items : dict val) (self : t) : result t :=
  match items with
  | [] => Ok self
  | (k, v) :: items' =>
      if String.eqb k "id"
      then match py_int v with
           | Ok n => fill items' (dict_set k (VInt n) self)
           | Raise e => Raise e
           end
      else fill items' (dict_set k v self)
  end.

Definition __init__ (d : val) : M t :=
  is_dict <- read (fun h => Ok (py_is_dict h d)) ;;
  if negb is_dict then raise (PyException "Неверный тип аругмента.")
  else
    items <- read (fun h => py_items h d) ;;
    lift (fill items []).

End Model.

(** ** class Mapper *)

Module Mapper.

Definition extract_one (data : val) (model_name : string) : M (option Model.t) :=
  n <- read (fun h => py_len h data) ;;
  if (n =? 0)%nat then ret None
  else
    items <- read (fun h => py_items h data) ;;
    let relative_scopes :=
      dict_of_pairs (List.filter (fun kv => negb (String.eqb (fst kv) model_name)) items) in
    model_scope <- read (fun h => py_getitem h data model_name) ;;
    write (fun h => py_update h model_scope relative_scopes) ;;;
    model <- Model.__init__ model_scope ;;
    ret (Some model).

(** One step of the iterator of [data.items()]: a dictionary whose size
    changed since the iterator was made raises; past the last entry the
    iteration stops. *)
Definition items_next (data : val) (size pos : nat) : M (option (string * val)) :=
  read (fun h =>
          match py_items h data with
          | Ok d => if (length d =? size)%nat then Ok (d !! pos) else Raise RuntimeError
          | Raise e => Raise e
          end).

(** The [for] loop of [extract_all]; [todo] counts the entries left. *)
Fixpoint extract_all_loop (todo : nat) (data : val) (model_name : string)
    (size pos : nat) (collection : list Model.t) : M (list Model.t) :=
  next <- items_next data size pos ;;
  match next, todo with
  | Some (object_id, object_scope), S todo' =>
      items <- read (fun h => py_items h object_scope) ;;
      let relative_scopes :=
        dict_of_pairs (List.filter (fun kv => negb (String.eqb (fst kv) model_name)) items) in
      model_scope <- read (fun h => py_getitem h object_scope model_name) ;;
      write (fun h => py_update h model_scope relative_scopes) ;;;
      model <- Model.__init__ model_scope ;;
      extract_all_loop todo' data model_name size (S pos) (collection ++ [model])
  | _, _ => ret collection
  end.

Definition extract_all (data : val) (model_name : string)
  : M (option (list Model.t)) :=
  n <- read (fun h => py_len h data) ;;
  if (n =? 0)%nat then ret None
  else
    items <- read (fun h => py_items h data) ;;
    collection <- extract_all_loop (length items) data model_name (length items) 0 [] ;;
    ret (Some collection).

End Mapper.

(** ** class Response *)

Module Response.

Record t := Build {
  request : Request.t;
  json_response : val;
  data : val;
  status : val;
  httpStatus : val;
  errors : val;
  errorMessage : val
}.

(** [json_response['response'][field]] *)
Definition field (json_response : val) (name : string) : M val :=
  response <- read (fun h => py_getitem h json_response "response") ;;
  read (fun h => py_getitem h response name).

Definition __init__ (request : Request.t) (json_response : val) : M t :=
  data <- field json_response "data" ;;
  status <- field json_response "status" ;;
  httpStatus <- field json_response "httpStatus" ;;
  errors <- field json_response "errors" ;;
  errorMessage <- field json_response "errorMessage" ;;
  ret (Build request json_response data status httpStatus errors errorMessage).

(** [model_name or self.request.target] *)
Definition model_name_or_target (self : t) (model_name : option string) : M string :=
  match model_name with
  | Some (String c s) => ret (String c s)
  | Some EmptyString | None => r <- Request.get (request self) ;; ret (target r)
  end.

Definition extract_all (self : t) (model_name : option string)
  : M (option (list Model.t)) :=
  model_name <- model_name_or_target self model_name ;;
  has_page <- read (fun h => py_contains h "page" (data self)) ;;
  data <- (if has_page then read (fun h => py_getitem h (data self) "data")
           else ret (data self)) ;;
  Mapper.extract_all data model_name.

Definition extract_one (self : t) (model_name : option string)
  : M (option Model.t) :=
  model_name <- model_name_or_target self model_name ;;
  Mapper.extract_one (data self) model_name.

End Response.

(** ** class Api *)

Module Api.

Record t := Build {
  network_token : json;
  network_id : json;
  level : Z;
  retry_count : Z
}.

Definition __init__ (network_token network_id : json) (debug : bool) (retry_count : Z)
  : t :=
  Build network_token network_id (if debug then INFO else DEBUG) retry_count.

Definition log (self : t) (msg : log_msg) : M unit :=
  emit (EvLog (level self) msg).

Definition create_request (ext : externals) (self : t) (target method : string)
    (params : option (dict json)) : M Request.t :=
  let _params :=
    dict_of_pairs [("NetworkId", network_id self);
                   ("NetworkToken", network_token self);
                   ("Method", JStr method)] in
  let _params :=
    dict_update _params (match params with Some p => p | None => [] end) in
  Request.__init__ ext target method _params.

(** [requests.get(url)] followed by [http_response.json()]. *)
Definition requests_get (ext : externals) (url : string) : M (Z * option json) :=
  fun w =>
    let w' := World (store w) (requests w) (S (sent w)) (trace w ++ [EvGet url]) in
    match net ext (sent w) url with
    | Reply status_code body => (Ok (status_code, body), w')
    | NoReply what => (Raise (TransportFailure what), w')
    end.

Definition response_json (body : option json) : M val :=
  match body with
  | Some j =>
      fun w => let '(v, h) := decode j (store w) in
               (Ok v, World h (requests w) (sent w) (trace w))
  | None => raise ValueError
  end.

(** The condition of the first [if] of [cast_error]:
    [not 'response' in response_body
     or not 'status' in response_body['response']] *)
Definition no_shape (response_body : val) : M bool :=
  py_or (has <- read (fun h => py_contains h "response" response_body) ;;
         ret (negb has))
        (response <- read (fun h => py_getitem h response_body "response") ;;
         has <- read (fun h => py_contains h "status" response) ;;
         ret (negb has)).

Definition cast_error (self : t) (response_body : val) : M exn :=
  no_shape <- no_shape response_body ;;
  if no_shape then
    read (fun h => Ok (Error (VStr ("Unexpected error: " +:+ py_repr h response_body))))
  else
    errorMessage <- Response.field response_body "errorMessage" ;;
    limited <- read (fun h => py_contains h "API usage exceeded rate limit" errorMessage) ;;
    if limited then
      errorMessage <- Response.field response_body "errorMessage" ;;
      ret (APIUsageExceededRateLimit errorMessage)
    else
      errorMessage <- Response.field response_body "errorMessage" ;;
      ret (Error errorMessage).

(** The condition of the [if] of [send_request]:
    ['response' not in json_response
     or 'status' not in json_response['response']
     or json_response['response']['status'] != 1] *)
Definition failed_envelope (json_response : val) : M bool :=
  py_or (has <- read (fun h => py_contains h "response" json_response) ;;
         ret (negb has))
    (py_or (response <- read (fun h => py_getitem h json_response "response") ;;
            has <- read (fun h => py_contains h "status" response) ;;
            ret (negb has))
           (status <- Response.field json_response "status" ;;
            ret (negb (py_eq_int status 1)))).

(** [send_request]; a retry is one more call of the function on the
    same request, and [fuel] bounds the calls still allowed. *)
Fixpoint send_request_aux (fuel : nat) (ext : externals) (self : t)
    (request : Request.t) : M Response.t :=
  r <- Request.get request ;;
  Request.set_attempts request (attempts r + 1) ;;;
  r <- Request.get request ;;
  log self (Executing (url r)) ;;;
  http_response <- requests_get ext (url r) ;;
  log self (Received (fst http_response)) ;;;
  json_response <- response_json (snd http_response) ;;
  failed <- failed_envelope json_response ;;
  if failed then
    try_except
      (e <- cast_error self json_response ;; raise e)
      isinstance_APIUsageExceededRateLimit
      (r <- Request.get request ;;
       if ((1 <? retry_count self) && (attempts r <? retry_count self))%bool then
         log self (Retrying (attempts r)) ;;;
         emit (EvSleep 250) ;;;
         match fuel with
         | S fuel' => send_request_aux fuel' ext self request
         | O => raise RecursionError
         end
       else
         e <- cast_error self json_response ;; raise e)
  else
    Response.__init__ request json_response.

(** The calls [send_request] can still make on a request: one for every
    attempt below [retry_count]. *)
Definition send_request (ext : externals) (self : t) (request : Request.t)
  : M Response.t :=
  r <- Request.get request ;;
  send_request_aux (Z.to_nat (retry_count self - attempts r - 1)) ext self request.

Definition call (ext : externals) (self : t) (target method : string)
    (params : option (dict json)) : M Response.t :=
  request <- create_request ext self target method params ;;
  send_request ext self request.

End Api.

(** ** The attribute proxy

    [client.Offer.findAll(limit=10)] is three steps: the attribute
    [Offer] of the client, the attribute [findAll] of what this gives, and
    the call of what that gives.  Python looks a name up in the object and
    in its class first, and calls [__getattr__] only when this finds
    nothing.  Normal lookup finds the names the program gives the object
    and its class, and the names every object has ([__class__],
    [__dict__], [__doc__], ...), which depend on the version of Python:
    these are the parameter [ambient] below.  What an attribute found by
    normal lookup is, and what a chain does with it, is not part of the
    embedding.  The proxy of a client is one object that is changed in
    place, so the proxies are objects of a store of their own. *)

(** What [object.name] gives. *)
Inductive access :=
  | Through (proxy : nat)   (* nothing found: [__getattr__] returned this proxy *)
  | Found (name : string)   (* normal lookup found an attribute of this name *)
  | Lost.                   (* a reference to no object *)

(** What a chain of accesses ending in a call gives. *)
Inductive outcome (R : Type) :=
  | Called (r : R)              (* what [master.call] returned *)
  | Unmodelled (name : string)  (* the chain went through the attribute [name] *)
  | NoObject.                   (* a reference to no object *)
Arguments Called {R} r.
Arguments Unmodelled {R} name.
Arguments NoObject {R}.

Module MethodProxy.

Record obj := Obj {
  master : Api.t;
  target : option string;   (* [None] until the first access *)
  method : option string
}.

Definition t := nat.   (* a reference into the proxies *)

Definition __init__ (master : Api.t) (proxies : list obj) : t * list obj :=
  (length proxies, proxies ++ [Obj master None None]).

(** [self.method = method; return self]; no result for a reference to no
    object. *)
Definition __getattr__ (self : t) (method : string) (proxies : list obj)
  : option t * list obj :=
  match proxies !! self with
  | Some p => (Some self, <[self := Obj (master p) (target p) (Some method)]> proxies)
  | None => (None, proxies)
  end.

(** [self.master.call(target=self.target, method=self.method,
    params=kwargs)]: the names may still be [None], so the method [call]
    of the master is a parameter that takes them as they are. *)
Definition __call__ {R} (call : Api.t -> option string -> option string -> dict json -> R)
    (self : t) (kwargs : dict json) (proxies : list obj) : option R :=
  match proxies !! self with
  | Some p => Some (call (master p) (target p) (method p) kwargs)
  | None => None
  end.

(** The names normal lookup finds on a proxy: what [__init__] sets and
    what the class defines, besides the ambient names. *)
Definition attributes (ambient : list string) : list string :=
  ["master"; "target"; "method"; "__init__"; "__call__"; "__getattr__"] ++ ambient.

(** [self.name] *)
Definition getattr (ambient : list string) (self : t) (name : string)
    (proxies : list obj) : access * list obj :=
  if existsb (String.eqb name) (attributes ambient) then (Found name, proxies)
  else match __getattr__ self name proxies with
       | (Some proxy, proxies') => (Through proxy, proxies')
       | (None, proxies') => (Lost, proxies')
       end.

End MethodProxy.

(** The client with the attribute [method_proxy] that [Api.__init__] gives
    it. *)
Module Client.

Record t := Build {
  api : Api.t;
  method_proxy : MethodProxy.t
}.

Definition __init__ (network_token network_id : json) (debug : bool) (retry_count : Z)
    (proxies : list MethodProxy.obj) : t * list MethodProxy.obj :=
  let api := Api.__init__ network_token network_id debug retry_count in
  let '(proxy, proxies) := MethodProxy.__init__ api proxies in
  (Build api proxy, proxies).

(** [self.method_proxy.target = target; return self.method_proxy] *)
Definition __getattr__ (self : t) (target : string) (proxies : list MethodProxy.obj)
  : option MethodProxy.t * list MethodProxy.obj :=
  match proxies !! method_proxy self with
  | Some p =>
      (Some (method_proxy self),
       <[method_proxy self :=
           MethodProxy.Obj (MethodProxy.master p) (Some target) (MethodProxy.method p)]>
         proxies)
  | None => (None, proxies)
  end.

(** The names normal lookup finds on a client: what [__init__] sets and
    what the class [Api] defines, besides the ambient names. *)
Definition attributes (ambient : list string) : list string :=
  ["network_token"; "network_id"; "level"; "retry_count"; "method_proxy";
   "MethodProxy"; "__init__"; "call"; "create_request"; "send_request";
   "cast_error"; "log"; "__getattr__"] ++ ambient.

(** [self.name] *)
Definition getattr (ambient : list string) (self : t) (name : string)
    (proxies : list MethodProxy.obj) : access * list MethodProxy.obj :=
  if existsb (String.eqb name) (attributes ambient) then (Found name, proxies)
  else match __getattr__ self name proxies with
       | (Some proxy, proxies') => (Through proxy, proxies')
       | (None, proxies') => (Lost, proxies')
       end.

End Client.

(** [proxy.method] called with keyword arguments, for a proxy at hand. *)
Definition call_method {R}
    (call : Api.t -> option string -> option string -> dict json -> R)
    (ambient : list string) (proxy : MethodProxy.t) (method : string)
    (kwargs : dict json) (proxies : list MethodProxy.obj)
  : outcome R * list MethodProxy.obj :=
  match MethodProxy.getattr ambient proxy method proxies with
  | (Through proxy', proxies') =>
      (match MethodProxy.__call__ call proxy' kwargs proxies' with
       | Some r => Called r
       | None => NoObject
       end, proxies')
  | (Found name, proxies') => (Unmodelled name, proxies')
  | (Lost, proxies') => (NoObject, proxies')
  end.

(** [client.target.method] called with keyword arguments. *)
Definition fluent {R}
    (call : Api.t -> option string -> option string -> dict json -> R)
    (ambient : list string) (client : Client.t) (target method : string)
    (kwargs : dict json) (proxies : list MethodProxy.obj)
  : outcome R * list MethodProxy.obj :=
  match Client.getattr ambient client target proxies with
  | (Through proxy, proxies') => call_method call ambient proxy method kwargs proxies'
  | (Found name, proxies') => (Unmodelled name, proxies')
  | (Lost, proxies') => (NoObject, proxies')
  end.

(** The arguments of a call, for a [call] that only records them. *)
Definition recorded (self : Api.t) (target method : option string) (kwargs : dict json)
  : Api.t * option string * option string * dict json :=
  (self, target, method, kwargs).

(** The names every object of Python 3.11 has. *)
Definition ambient_311 : list string :=
  ["__class__"; "__delattr__"; "__dict__"; "__dir__"; "__doc__"; "__eq__";
   "__format__"; "__ge__"; "__getattribute__"; "__getstate__"; "__gt__";
   "__hash__"; "__init_subclass__"; "__le__"; "__lt__"; "__module__";
   "__ne__"; "__new__"; "__reduce__"; "__reduce_ex__"; "__repr__";
   "__setattr__"; "__sizeof__"; "__str__"; "__subclasshook__"; "__weakref__"].

(** ** Bodies as trees

    The same built-in operations on a body that is not yet in the store;
    the statements about [send_request] describe the server's answers with
    them. *)

Definition json_contains (needle : string) (j : json) : result bool :=
  match j with
  | JStr s => Ok (str_contains needle s)
  | JDict kvs => Ok (dict_has needle (dict_of_pairs kvs))
  | JList js =>
      Ok (existsb (fun x => match x with JStr s => String.eqb s needle | _ => false end) js)
  | JNull | JBool _ | JInt _ => Raise TypeError
  end.

Definition json_getitem (j : json) (k : string) : result json :=
  match j with
  | JDict kvs =>
      match dict_get k (dict_of_pairs kvs) with
      | Some x => Ok x
      | None => Raise (KeyError k)
      end
  | _ => Raise TypeError
  end.

Definition json_eq_int (j : json) (n : Z) : bool :=
  match j with
  | JInt m => m =? n
  | JBool b => (if b then 1 else 0) =? n
  | _ => false
  end.

(** [body['response'][name]] *)
Definition json_field (body : json) (name : string) : result json :=
  match json_getitem body "response" with
  | Ok response => json_getitem response name
  | Raise e => Raise e
  end.

(** ['response' in body and 'status' in body['response']] *)
Definition has_shape (body : json) : Prop :=
  json_contains "response" body = Ok true /\
  exists response,
    json_getitem body "response" = Ok response /\
    json_contains "status" response = Ok true.

(** [not 'response' in body or not 'status' in body['response']] *)
Definition lacks_shape (body : json) : Prop :=
  json_contains "response" body = Ok false \/
  (json_contains "response" body = Ok true /\
   exists response,
     json_getitem body "response" = Ok response /\
     json_contains "status" response = Ok false).

(** A value of the store stands for a tree: the same immediates, and
    references to objects with the same entries. *)
Inductive represents (h : heap) : val -> json -> Prop :=
  | represents_null : represents h VNone JNull
  | represents_bool b : represents h (VBool b) (JBool b)
  | represents_int n : represents h (VInt n) (JInt n)
  | represents_str s : represents h (VStr s) (JStr s)
  | represents_list l vs js :
      h !! l = Some (OList vs) ->
      Forall2 (represents h) vs js ->
      represents h (VRef l) (JList js)
  | represents_dict l d kvs :
      h !! l = Some (ODict d) ->
      Forall2 (fun kv kj => fst kv = fst kj /\ represents h (snd kv) (snd kj))
              d (dict_of_pairs kvs) ->
      represents h (VRef l) (JDict kvs).

(** * The vocabulary of the statements *)

(** ** Dictionaries and decoding *)

(** Two dictionaries with the same keys in the same order and related
    values. *)
Definition dict_rel {V W} (Q : V -> W -> Prop) (d : dict V) (e : dict W) : Prop :=
  Forall2 (fun kv kj => fst kv = fst kj /\ Q (snd kv) (snd kj)) d e.

Fixpoint decode_items (js : list json) (h : heap) : list val * heap :=
  match js with
  | [] => ([], h)
  | j :: js' =>
      let '(v, h1) := decode j h in
      let '(vs, h2) := decode_items js' h1 in
      (v :: vs, h2)
  end.

Fixpoint decode_pairs (kvs : list (string * json)) (d : dict val) (h : heap)
  : dict val * heap :=
  match kvs with
  | [] => (d, h)
  | (k, j) :: kvs' =>
      let '(v, h1) := decode j h in
      decode_pairs kvs' (dict_set k v d) h1
  end.

(** ** The run of [send_request] *)

(** The events of a trace other than the log lines. *)
Definition wire (t : list event) : list event :=
  List.filter (fun e => match e with EvLog _ _ => false | _ => true end) t.

(** [send_request] from the point where the body is decoded. *)
Definition after_receipt (fuel : nat) (ext : externals) (self : Api.t)
    (request : Request.t) (json_response : val) : M Response.t :=
  failed <- Api.failed_envelope json_response ;;
  if failed then
    try_except
      (e <- Api.cast_error self json_response ;; raise e)
      isinstance_APIUsageExceededRateLimit
      (r <- Request.get request ;;
       if ((1 <? Api.retry_count self) && (attempts r <? Api.retry_count self))%bool then
         Api.log self (Retrying (attempts r)) ;;;
         emit (EvSleep 250) ;;;
         match fuel with
         | S fuel' => Api.send_request_aux fuel' ext self request
         | O => raise RecursionError
         end
       else
         e <- Api.cast_error self json_response ;; raise e)
  else
    Response.__init__ request json_response.

Definition attempted (r : request_obj) : request_obj :=
  RequestObj (target r) (method r) (params r) (attempts r + 1) (url r).

(** The world when the answer to an attempt has been logged and decoded. *)
Definition received (self : Api.t) (request : Request.t) (r : request_obj)
    (status_code : Z) (body : json) (w : world) : world :=
  World (snd (decode body (store w)))
        (<[request := attempted r]> (requests w))
        (S (sent w))
        (trace w ++ [EvLog (Api.level self) (Executing (url r)); EvGet (url r);
                     EvLog (Api.level self) (Received status_code)]).

(** The world when the GET of an attempt has been issued. *)
Definition asked (self : Api.t) (request : Request.t) (r : request_obj) (w : world)
  : world :=
  World (store w)
        (<[request := attempted r]> (requests w))
        (S (sent w))
        (trace w ++ [EvLog (Api.level self) (Executing (url r)); EvGet (url r)]).

(** The world when a retry has been announced and the delay has passed. *)
Definition slept (self : Api.t) (n : Z) (w : world) : world :=
  World (store w) (requests w) (sent w)
        (trace w ++ [EvLog (Api.level self) (Retrying n); EvSleep 250]).

(** ** Kinds of answers and the parameters of a call *)

Definition RATE_LIMIT : string := "API usage exceeded rate limit".

(** The envelope has a [status] and it is not 1. *)
Definition failed_status (body : json) : Prop :=
  exists status, json_field body "status" = Ok status /\ json_eq_int status 1 = false.

(** A failed envelope whose [errorMessage] contains the rate-limit text. *)
Definition rate_limited (body message : json) : Prop :=
  failed_status body /\
  json_field body "errorMessage" = Ok message /\
  json_contains RATE_LIMIT message = Ok true.

(** The parameters [create_request] sends. *)
Definition call_params (self : Api.t) (method : string) (params : option (dict json))
  : dict json :=
  dict_update
    (dict_of_pairs [("NetworkId", Api.network_id self);
                    ("NetworkToken", Api.network_token self);
                    ("Method", JStr method)])
    (match params with Some p => p | None => [] end).

Definition call_url (target q : string) : string :=
  (ROOT +:+ target +:+ ".json?") +:+ q.

(** ** Computations that only read *)

Definition readonly {A} (m : M A) : Prop := forall w, snd (m w) = w.

(** ** Sample inputs *)

Definition empty_world : world := World [] [] 0 [].

(** A server that gives the same answer to every GET. *)
Definition server_always (body : json) : externals :=
  Externals (fun _ _ => Reply 200 (Some body)) (fun _ => Ok "Method=findAll").

Definition client (retry_count : Z) : Api.t :=
  Api.__init__ (JStr "token") (JStr "id") false retry_count.

(** [cast_error] on a body decoded into an empty store. *)
Definition cast_error_of (body : json) : result exn :=
  let '(v, h) := decode body [] in
  fst (Api.cast_error (client 1) v (World h [] 0 [])).

Definition envelope (fields : list (string * json)) : json :=
  JDict [("response", JDict fields)].

Definition rate_limit_body : json :=
  envelope [("status", JInt (-1)); ("httpStatus", JInt 429); ("data", JStr "x");
            ("errors", JList []);
            ("errorMessage", JStr "API usage exceeded rate limit. Try again later.")].

Definition success_body : json :=
  envelope [("status", JInt 1); ("httpStatus", JInt 200);
            ("data", JDict [("Offer", JDict [("id", JStr "1")])]);
            ("errors", JList []); ("errorMessage", JNull)].

Definition malformed_body : json := JDict [].

Definition lookalike_body : json :=
  envelope [("status", JInt 0); ("errorMessage", JStr "Unexpected error: {}")].

Definition no_message_body : json := envelope [("status", JInt 0)].

Definition api_error_body : json :=
  envelope [("status", JInt (-1)); ("errorMessage", JStr "Invalid NetworkToken")].

(** ** The mapper *)

(** Every dictionary of the store has every key once. *)
Definition wf_store (h : heap) : Prop :=
  forall l d, h !! l = Some (ODict d) -> NoDup (dict_keys d).

(** [{model: scope for model, scope in items if model != model_name}] *)
Definition relative_scopes (model_name : string) (items : dict val) : dict val :=
  dict_of_pairs (List.filter (fun kv => negb (String.eqb (fst kv) model_name)) items).

(** The statements both [extract_one] and the loop of [extract_all] apply
    to one object scope. *)
Definition merge_scope (object_scope : val) (model_name : string) : M Model.t :=
  items <- read (fun h => py_items h object_scope) ;;
  model_scope <- read (fun h => py_getitem h object_scope model_name) ;;
  write (fun h => py_update h model_scope (relative_scopes model_name items)) ;;;
  Model.__init__ model_scope.

(** A record made from a dictionary: the same keys in the same order, the
    value of [id] turned into an integer, every other value as it is. *)
Definition coerced (d : dict val) (model : Model.t) : Prop :=
  dict_keys model = dict_keys d /\
  forall k v, dict_get k d = Some v ->
    if String.eqb k "id"
    then exists n, py_int v = Ok n /\ dict_get k model = Some (VInt n)
    else dict_get k model = Some v.

Definition set_store (h : heap) (w : world) : world :=
  World h (requests w) (sent w) (trace w).

(** What the loop reads for one entry of [data]: the dictionary of the
    object, and the dictionary it holds under [model_name]. *)
Record entry_info := EntryInfo {
  e_scope : loc;
  e_items : dict val;
  e_primary : loc;
  e_fields : dict val
}.

Definition entry_shape (model_name : string) (h : heap)
    (entry : string * val) (info : entry_info) : Prop :=
  snd entry = VRef (e_scope info) /\
  h !! e_scope info = Some (ODict (e_items info)) /\
  dict_get model_name (e_items info) = Some (VRef (e_primary info)) /\
  h !! e_primary info = Some (ODict (e_fields info)).

(** No primary scope is the dictionary [data] itself, the object or the
    primary scope of a later entry: what the body decodes to is a tree, and
    a tree has this property. *)
Fixpoint separated (l : loc) (infos : list entry_info) : Prop :=
  match infos with
  | [] => True
  | info :: rest =>
      l <> e_primary info /\
      Forall (fun i => e_scope i <> e_primary info /\ e_primary i <> e_primary info) rest /\
      separated l rest
  end.

Definition merged_of (model_name : string) (info : entry_info) : dict val :=
  dict_update (e_fields info) (relative_scopes model_name (e_items info)).

(** The loop as a function of what it reads. *)
Fixpoint run_entries (model_name : string) (infos : list entry_info) (h : heap)
    (collection : list Model.t) : result (list Model.t) * heap :=
  match infos with
  | [] => (Ok collection, h)
  | info :: rest =>
      let h1 := <[e_primary info := ODict (merged_of model_name info)]> h in
      match Model.fill (merged_of model_name info) [] with
      | Ok model => run_entries model_name rest h1 (collection ++ [model])
      | Raise e => (Raise e, h1)
      end
  end.

(** The primary scope and the object of every entry lie before those of
    the next entry, from [lo] on. *)
Fixpoint ordered (lo : nat) (infos : list entry_info) : Prop :=
  match infos with
  | [] => True
  | info :: rest =>
      (lo <= e_primary info < e_scope info)%nat /\ ordered (S (e_scope info)) rest
  end.

(** An entry of a JSON object of objects: its value is an object that has
    an object under [model_name]. *)
Definition object_json (model_name : string) (entry : string * json) : Prop :=
  exists scope fields,
    snd entry = JDict scope /\
    dict_get model_name (dict_of_pairs scope) = Some (JDict fields).

(** ** What extraction changes *)

(** [x] is stored under the key [model_name] of some dictionary. *)
Definition primary (model_name : string) (h : heap) (x : loc) : Prop :=
  exists p dp, h !! p = Some (ODict dp) /\ dict_get model_name dp = Some (VRef x).

(** From [h] to [h']: no object is added or removed, the objects that are
    not a primary scope are the same, a list stays the list it was, and a
    dictionary stays a dictionary which keeps its keys and its entry for
    [model_name]. *)
Definition frame (model_name : string) (h h' : heap) : Prop :=
  length h' = length h /\
  forall x,
    (~ primary model_name h x -> h' !! x = h !! x) /\
    (forall vs, h !! x = Some (OList vs) -> h' !! x = Some (OList vs)) /\
    (forall d, h !! x = Some (ODict d) ->
       exists d', h' !! x = Some (ODict d') /\
                  dict_get model_name d' = dict_get model_name d /\
                  forall k, k ∈ dict_keys d -> k ∈ dict_keys d').

Definition world_frame (model_name : string) (w w' : world) : Prop :=
  frame model_name (store w) (store w') /\
  requests w' = requests w /\ sent w' = sent w /\ trace w' = trace w.

(** The body decoded into an empty store. *)
Definition decoded (body : json) : val * world :=
  let '(v, h) := decode body [] in (v, World h [] 0 []).

Definition conversions : json :=
  JDict [("1", JDict [("Conversion", JDict [("id", JStr "5"); ("payout", JStr "10")]);
                      ("Offer", JDict [("id", JStr "2")])])].

Definition conversion_only : json := JDict [("Conversion", JDict [("id", JStr "7")])].

(** An object whose primary scope has a field named like its sibling. *)
Definition collision : json :=
  JDict [("Conversion", JDict [("id", JStr "5"); ("Offer", JStr "a field")]);
         ("Offer", JDict [("id", JStr "2")])].

Definition conversion_with_offer : json :=
  envelope [("status", JInt 1); ("httpStatus", JInt 200);
            ("data", JDict [("Conversion", JDict [("id", JStr "5")]);
                            ("Offer", JDict [("id", JStr "2")])]);
            ("errors", JList []); ("errorMessage", JNull)].

(** What the loop of [extract_all] reads on [conversions]. *)
Definition conversions_info : entry_info :=
  EntryInfo 2 [("Conversion", VRef 0%nat); ("Offer", VRef 1%nat)]
            0 [("id", VStr "5"); ("payout", VStr "10")].

Definition rate_limit_message : json :=
  JStr "API usage exceeded rate limit. Try again later.".

(** The response to a call answered by [conversion_with_offer], and the
    world after the call. *)
Definition sample_response : Response.t * world :=
  match Api.call (server_always conversion_with_offer) (client 1)
                 "Conversion" "findById" None empty_world with
  | (Ok resp, w) => (resp, w)
  | (Raise _, w) => (Response.Build 0%nat VNone VNone VNone VNone VNone VNone, w)
  end.

(** ** Any run of [send_request] *)

(** The GETs and the delays of [k] attempts at one URL. *)
Fixpoint attempts_wire (u : string) (k : nat) : list event :=
  match k with
  | O => []
  | S k' =>
      EvGet u :: match k' with
                 | O => []
                 | S _ => EvSleep 250 :: attempts_wire u k'
                 end
  end.

(** Every log line of a trace is at one level. *)
Definition logs_at (level : Z) (t : list event) : Prop :=
  Forall (fun e => match e with EvLog l _ => l = level | _ => True end) t.

Definition with_attempts (r : request_obj) (n : Z) : request_obj :=
  RequestObj (target r) (method r) (params r) n (url r).

(** A computation raises built-in exceptions only, none of the two
    classes of the module. *)
Definition raises_builtin {A} (m : M A) : Prop :=
  forall w e w', m w = (Raise e, w') -> isinstance_Error e = false.

(** What [k] attempts on a request leave behind, from [w] to [w']. *)
Definition run_of (self : Api.t) (request : Request.t) (r : request_obj) (k : nat)
    (w w' : world) : Prop :=
  sent w' = (sent w + k)%nat /\
  requests w' = <[request := with_attempts r (attempts r + Z.of_nat k)]> (requests w) /\
  (exists objs, store w' = store w ++ objs) /\
  (exists t, trace w' = trace w ++ t /\ logs_at (Api.level self) t /\
             wire t = attempts_wire (url r) k).

(** What the outcome of a run says about the last answer. *)
Definition outcome_of (ext : externals) (self : Api.t) (request : Request.t)
    (r : request_obj) (k : nat) (res : result Response.t) (w' : world) : Prop :=
  (forall resp, res = Ok resp ->
     Response.request resp = request /\
     exists status_code body status,
       net ext (sent w' - 1) (url r) = Reply status_code (Some body) /\
       json_field body "status" = Ok status /\ json_eq_int status 1 = true /\
       represents (store w') (Response.json_response resp) body) /\
  (forall x, res = Raise (APIUsageExceededRateLimit x) ->
     (Api.retry_count self <= 1 \/ Api.retry_count self <= attempts r + Z.of_nat k) /\
     exists status_code body message,
       net ext (sent w' - 1) (url r) = Reply status_code (Some body) /\
       rate_limited body message /\ represents (store w') x message).

(** Every attempt of a run of [k] attempts but the last was answered by a
    rate-limit envelope. *)
Definition retried_of (ext : externals) (r : request_obj) (k : nat) (w : world) : Prop :=
  forall i, (S i < k)%nat ->
    exists status_code body message,
      net ext (sent w + i) (url r) = Reply status_code (Some body) /\
      rate_limited body message.


(** [logger.setLevel(logging.INFO)]: the level the module sets on its
    logger; [logger.log(level, ...)] writes a line whose level is not
    below it. *)
Definition LOGGER_LEVEL : Z := INFO.

Definition log_lines (t : list event) : list event :=
  List.filter (fun e => match e with EvLog _ _ => true | _ => false end) t.

Definition written (t : list event) : list event :=
  List.filter (fun e => match e with EvLog l _ => LOGGER_LEVEL <=? l | _ => false end) t.

(** A request that has not been sent, alone in the world. *)
Definition fresh_request : request_obj :=
  RequestObj "Offer" "findAll" [("Method", JStr "findAll")] 0
             "http://api.hasoffers.com/v3/Offer.json?Method=findAll".

Definition one_request : world := World [] [fresh_request] 0 [].

(** A server whose first [n] answers are rate-limit envelopes and whose
    other answers are [body]. *)
Definition server_after (n : nat) (body : json) : externals :=
  Externals (fun i _ => if (i <? n)%nat then Reply 429 (Some rate_limit_body)
                        else Reply 200 (Some body))
            (fun _ => Ok "Method=findAll").

(** A server that cannot be reached. *)
Definition server_down : externals :=
  Externals (fun _ _ => NoReply "ConnectionError") (fun _ => Ok "Method=findAll").

(** A server that answers with a page that is not JSON. *)
Definition server_html : externals :=
  Externals (fun _ _ => Reply 502 None) (fun _ => Ok "Method=findAll").

(** The response a run returned. *)
Definition response_of (run : result Response.t * world) : Response.t :=
  match fst run with
  | Ok resp => resp
  | Raise _ => Response.Build 0%nat VNone VNone VNone VNone VNone VNone
  end.

(** A retry that is answered by a success. *)
Definition retried_run : result Response.t * world :=
  Api.send_request (server_after 1 success_body) (client 2) 0%nat one_request.

(** Rate-limit answers until the attempts are used up. *)
Definition exhausted_run : result Response.t * world :=
  Api.send_request (server_always rate_limit_body) (client 3) 0%nat one_request.

(** ** The parameters of a request and the fields of a response *)

(** [{'NetworkId': ..., 'NetworkToken': ..., 'Method': method}] *)
Definition default_params (self : Api.t) (method : string) : dict json :=
  [("NetworkId", Api.network_id self);
   ("NetworkToken", Api.network_token self);
   ("Method", JStr method)].

(** The keys of [o] that [d] does not have. *)
Definition new_keys {V W} (d : dict V) (o : dict W) : list string :=
  List.filter (fun k => negb (dict_has k d)) (dict_keys o).

(** The fields [Response.__init__] reads, in the order it reads them. *)
Definition RESPONSE_FIELDS : list string :=
  ["data"; "status"; "httpStatus"; "errors"; "errorMessage"].

(** A success envelope without [errors]. *)
Definition no_errors_body : json :=
  envelope [("status", JInt 1); ("httpStatus", JInt 200); ("data", JDict [])].

(** A server whose package for the query string rejects the parameters. *)
Definition server_bad_query : externals :=
  Externals (fun _ _ => Reply 200 (Some success_body)) (fun _ => Raise TypeError).

(** ** More about the mapper *)

(** The store when the primary scopes of [infos] have been merged. *)
Definition merge_all (model_name : string) (infos : list entry_info) (h : heap) : heap :=
  fold_left (fun h info => <[e_primary info := ODict (merged_of model_name info)]> h)
            infos h.

(** An object whose [id] is not a number. *)
Definition bad_id : json :=
  JDict [("Offer", JDict [("id", JStr "n/a"); ("name", JStr "x")]);
         ("Advertiser", JDict [("id", JStr "3")])].

(** Two objects, the second with an [id] that is not a number. *)
Definition second_bad : json :=
  JDict [("1", JDict [("Offer", JDict [("id", JStr "1")])]);
         ("2", JDict [("Offer", JDict [("id", JStr "n/a")])]);
         ("3", JDict [("Offer", JDict [("id", JStr "3")])])].

Definition second_bad_infos : list entry_info :=
  [EntryInfo 1 [("Offer", VRef 0%nat)] 0 [("id", VStr "1")];
   EntryInfo 3 [("Offer", VRef 2%nat)] 2 [("id", VStr "n/a")];
   EntryInfo 5 [("Offer", VRef 4%nat)] 4 [("id", VStr "3")]].

(** A page of results, as [findAll] answers. *)
Definition page_body : json :=
  envelope [("status", JInt 1); ("httpStatus", JInt 200);
            ("data", JDict [("page", JInt 1); ("count", JInt 1);
                            ("data", JDict [("7", JDict [("Offer", JDict [("id", JStr "7")])])])]);
            ("errors", JList []); ("errorMessage", JNull)].

(** The response to a call answered by [page_body], and the world after
    the call. *)
Definition page_response : Response.t * world :=
  match Api.call (server_always page_body) (client 1) "Offer" "findAll" None empty_world with
  | (Ok resp, w) => (resp, w)
  | (Raise _, w) => (Response.Build 0%nat VNone VNone VNone VNone VNone VNone, w)
  end.

(** ** What a record holds, said from the scopes before the call *)

(** The number a row of decimal digits stands for. *)
Fixpoint decimal (ds : list ascii) (acc : Z) : option Z :=
  match ds with
  | [] => Some acc
  | c :: ds' =>
      let n := N_of_ascii c in
      if ((48 <=? n) && (n <=? 57))%N
      then decimal ds' (10 * acc + (Z.of_N n - 48))
      else None
  end.

(** The integer of an [id] that is a number, or a string of decimal
    digits with or without a minus sign: what [int] has to give for it,
    said without [py_int]. *)
Inductive int_value : val -> Z -> Prop :=
  | int_value_int n : int_value (VInt n) n
  | int_value_digits ds n :
      ds <> [] -> decimal ds 0 = Some n ->
      int_value (VStr (string_of_list_ascii ds)) n
  | int_value_minus ds n :
      ds <> [] -> decimal ds 0 = Some n ->
      int_value (VStr (String "-" (string_of_list_ascii ds))) (- n).

(** The value the call finds for the key [k] of a record: the sibling
    scope of that name if the object has one, else the field of the
    primary scope.  [items] is the dictionary of the object and [fields]
    its primary scope, both as they are before the call. *)
Definition source_value (model_name : string) (items fields : dict val) (k : string)
  : option val :=
  match dict_get k items with
  | Some sibling => if String.eqb k model_name then dict_get k fields else Some sibling
  | None => dict_get k fields
  end.

(** The record made of an object: its keys are the fields of the primary
    scope, then the sibling scopes that are no field, in the order of the
    object; under every key but [id] it has the value found for the key;
    its [id], if a value is found for it, is an integer, the one [int]
    gives, which is the number the value stands for. *)
Definition record_of (model_name : string) (items fields : dict val) (model : Model.t)
  : Prop :=
  dict_keys model
  = dict_keys fields
    ++ List.filter (fun k => negb (dict_has k fields))
         (List.filter (fun k => negb (String.eqb k model_name)) (dict_keys items)) /\
  (forall k, k <> "id" -> dict_get k model = source_value model_name items fields k) /\
  (source_value model_name items fields "id" = None -> dict_get "id" model = None) /\
  (forall v, source_value model_name items fields "id" = Some v ->
     exists n,
       py_int v = Ok n /\ dict_get "id" model = Some (VInt n) /\
       forall m, int_value v m -> n = m).

(** The dictionary [Response.extract_all] hands to the mapper:
    [self.data['data'] if 'page' in self.data else self.data]. *)
Definition data_for_extract_all (self : Response.t) : M val :=
  has_page <- read (fun h => py_contains h "page" (Response.data self)) ;;
  if has_page then read (fun h => py_getitem h (Response.data self) "data")
  else ret (Response.data self).

(** What the loop of [extract_all] reads on the page of [page_response]. *)
Definition page_infos : list entry_info :=
  [EntryInfo 1 [("Offer", VRef 0%nat)] 0 [("id", VStr "7")]].

(** * Facts *)

(** ** The monad *)

Lemma bind_ok {A B} (m : M A) (k : A -> M B) w a w' :
  m w = (Ok a, w') -> bind m k w = k a w'.
Proof. intros H. unfold bind. now rewrite H. Qed.

Lemma bind_raise {A B} (m : M A) (k : A -> M B) w e w' :
  m w = (Raise e, w') -> bind m k w = (Raise e, w').
Proof. intros H. unfold bind. now rewrite H. Qed.

Lemma read_eq {A} (f : heap -> result A) w : read f w = (f (store w), w).
Proof. reflexivity. Qed.

(** ** Dictionaries *)

Section DictFacts.
Context {V : Type}.
Implicit Types (d o : dict V) (k : string) (v : V).

Lemma dict_get_set_eq k v d : dict_get k (dict_set k v d) = Some v.
Proof.
  induction d as [|[k' v'] d IH]; simpl.
  - now rewrite String.eqb_refl.
  - destruct (String.eqb_spec k k') as [->|Hne]; simpl.
    + now rewrite String.eqb_refl.
    + destruct (String.eqb_spec k k'); [congruence | exact IH].
Qed.

Lemma dict_get_set_ne k k' v d :
  k <> k' -> dict_get k' (dict_set k v d) = dict_get k' d.
Proof.
  intros Hne. induction d as [|[k1 v1] d IH]; simpl.
  - destruct (String.eqb_spec k' k); [congruence | reflexivity].
  - destruct (String.eqb_spec k k1) as [->|Hk]; simpl.
    + destruct (String.eqb_spec k' k1); [congruence | reflexivity].
    + destruct (String.eqb_spec k' k1); [reflexivity | exact IH].
Qed.

Lemma dict_get_set k k' v d :
  dict_get k' (dict_set k v d) =
  if String.eqb k' k then Some v else dict_get k' d.
Proof.
  destruct (String.eqb_spec k' k) as [->|Hne].
  - apply dict_get_set_eq.
  - apply dict_get_set_ne. congruence.
Qed.

Lemma dict_get_None_keys k d : dict_get k d = None <-> k ∉ dict_keys d.
Proof.
  induction d as [|[k' v'] d IH]; simpl.
  - split; [intros _; apply not_elem_of_nil | reflexivity].
  - rewrite not_elem_of_cons. destruct (String.eqb_spec k k') as [->|Hne].
    + split; [discriminate | intros [? _]; congruence].
    + rewrite IH. tauto.
Qed.

Lemma dict_get_Some_elem k v d : dict_get k d = Some v -> (k, v) ∈ d.
Proof.
  induction d as [|[k' v'] d IH]; simpl; [discriminate|].
  destruct (String.eqb_spec k k') as [->|Hne].
  - intros [= ->]. apply list_elem_of_here.
  - intros H. apply list_elem_of_further, IH, H.
Qed.

Lemma dict_set_keys_in k v d :
  k ∈ dict_keys d -> dict_keys (dict_set k v d) = dict_keys d.
Proof.
  induction d as [|[k' v'] d IH]; simpl.
  - intros H. now apply elem_of_nil in H.
  - intros H. destruct (String.eqb_spec k k') as [->|Hne]; simpl; [reflexivity|].
    f_equal. apply IH. apply elem_of_cons in H as [?|?]; [congruence | assumption].
Qed.

Lemma dict_set_fresh k v d :
  k ∉ dict_keys d -> dict_set k v d = d ++ [(k, v)].
Proof.
  induction d as [|[k' v'] d IH]; simpl; [reflexivity|].
  rewrite not_elem_of_cons. intros [Hne Hk].
  destruct (String.eqb_spec k k'); [congruence|]. now rewrite IH.
Qed.

Lemma dict_set_length k v d : (length d <= length (dict_set k v d))%nat.
Proof.
  induction d as [|[k' v'] d IH]; simpl; [lia|].
  destruct (String.eqb k k'); simpl; lia.
Qed.

Lemma dict_set_NoDup k v d :
  NoDup (dict_keys d) -> NoDup (dict_keys (dict_set k v d)).
Proof.
  intros Hd. destruct (decide (k ∈ dict_keys d)) as [Hin|Hout].
  - now rewrite dict_set_keys_in.
  - rewrite dict_set_fresh by assumption. unfold dict_keys.
    rewrite map_app. simpl. apply NoDup_app. split; [assumption|].
    split; [|apply NoDup_singleton].
    intros x Hx Hx'. apply list_elem_of_singleton in Hx'. subst. contradiction.
Qed.

Lemma dict_update_cons d k v o :
  dict_update d ((k, v) :: o) = dict_update (dict_set k v d) o.
Proof. reflexivity. Qed.

Lemma dict_update_NoDup d o :
  NoDup (dict_keys d) -> NoDup (dict_keys (dict_update d o)).
Proof.
  revert d. induction o as [|[k v] o IH]; intros d Hd; [exact Hd|].
  rewrite dict_update_cons. apply IH, dict_set_NoDup, Hd.
Qed.

Lemma dict_update_fresh d o :
  NoDup (dict_keys (d ++ o)) -> dict_update d o = d ++ o.
Proof.
  revert d. induction o as [|[k v] o IH]; intros d Hd.
  - simpl. now rewrite app_nil_r.
  - rewrite dict_update_cons.
    assert (Hk : k ∉ dict_keys d).
    { unfold dict_keys in *. rewrite map_app in Hd. simpl in Hd.
      apply NoDup_app in Hd as (_ & Hd & _). intros Hin.
      apply (Hd k Hin). apply list_elem_of_here. }
    rewrite dict_set_fresh by exact Hk.
    rewrite IH; rewrite <- app_assoc; [reflexivity | exact Hd].
Qed.

(** Keys that are not in [o] keep their value; the others take the
    value [o] has for them. *)
Lemma dict_get_update_out k d o :
  k ∉ dict_keys o -> dict_get k (dict_update d o) = dict_get k d.
Proof.
  revert d. induction o as [|[k' v'] o IH]; intros d Hk; [reflexivity|].
  simpl in Hk. rewrite not_elem_of_cons in Hk. destruct Hk as [Hne Hk].
  rewrite dict_update_cons, IH by exact Hk.
  apply dict_get_set_ne. congruence.
Qed.

Lemma dict_get_update_in k v d o :
  NoDup (dict_keys o) -> dict_get k o = Some v ->
  dict_get k (dict_update d o) = Some v.
Proof.
  revert d. induction o as [|[k' v'] o IH]; intros d Hnd Hk; [discriminate|].
  simpl in Hnd. apply NoDup_cons in Hnd as [Hk' Hnd].
  rewrite dict_update_cons. simpl in Hk.
  destruct (String.eqb_spec k k') as [->|Hne].
  - injection Hk as ->. rewrite dict_get_update_out by exact Hk'.
    apply dict_get_set_eq.
  - now apply IH.
Qed.

Lemma dict_update_keys_incl k d o :
  k ∈ dict_keys d -> k ∈ dict_keys (dict_update d o).
Proof.
  revert d. induction o as [|[k' v'] o IH]; intros d Hk; [exact Hk|].
  rewrite dict_update_cons. apply IH.
  destruct (decide (k' ∈ dict_keys d)) as [Hin|Hout].
  - now rewrite dict_set_keys_in.
  - rewrite dict_set_fresh by exact Hout. unfold dict_keys.
    rewrite map_app. apply elem_of_app. now left.
Qed.

Lemma dict_of_pairs_id d : NoDup (dict_keys d) -> dict_of_pairs d = d.
Proof. intros H. unfold dict_of_pairs. now rewrite dict_update_fresh. Qed.

Lemma dict_of_pairs_NoDup (o : list (string * V)) : NoDup (dict_keys (dict_of_pairs o)).
Proof. apply dict_update_NoDup. apply NoDup_nil_2. Qed.

Lemma dict_get_filter_ne (name k : string) d :
  dict_get k (List.filter (fun kv => negb (String.eqb (fst kv) name)) d) =
  if String.eqb k name then None else dict_get k d.
Proof.
  induction d as [|[k' v'] d IH]; simpl.
  - now destruct (String.eqb k name).
  - destruct (String.eqb_spec k' name) as [->|Hne]; simpl.
    + destruct (String.eqb_spec k name) as [->|Hk].
      * exact IH.
      * rewrite IH. destruct (String.eqb_spec k name); [congruence|]. reflexivity.
    + destruct (String.eqb_spec k k') as [->|Hk].
      * destruct (String.eqb_spec k' name); [congruence|reflexivity].
      * exact IH.
Qed.
End DictFacts.

Section DictRel.
Context {V W : Type} (Q : V -> W -> Prop).

Lemma dict_rel_get k (d : dict V) (e : dict W) :
  dict_rel Q d e ->
  match dict_get k e with
  | Some j => exists v, dict_get k d = Some v /\ Q v j
  | None => dict_get k d = None
  end.
Proof.
  induction 1 as [|[k1 v1] [k2 j2] d e [Hk Hq] _ IH]; simpl; [reflexivity|].
  simpl in Hk. subst k2. destruct (String.eqb k k1); [eauto | exact IH].
Qed.

Lemma dict_rel_has k (d : dict V) (e : dict W) :
  dict_rel Q d e -> dict_has k d = dict_has k e.
Proof.
  intros H. unfold dict_has. pose proof (dict_rel_get k d e H) as Hg.
  destruct (dict_get k e); [destruct Hg as (v & -> & _) | rewrite Hg]; reflexivity.
Qed.

Lemma dict_rel_set k v j (d : dict V) (e : dict W) :
  dict_rel Q d e -> Q v j -> dict_rel Q (dict_set k v d) (dict_set k j e).
Proof.
  induction 1 as [|[k1 v1] [k2 j2] d e [Hk Hq] Hrest IH]; intros Hvj; simpl.
  - constructor; [split; [reflexivity | exact Hvj] | constructor].
  - simpl in Hk. subst k2. destruct (String.eqb k k1).
    + constructor; [split; [reflexivity | exact Hvj] | exact Hrest].
    + constructor; [split; [reflexivity | exact Hq] | apply IH, Hvj].
Qed.

Lemma dict_rel_length (d : dict V) (e : dict W) :
  dict_rel Q d e -> length d = length e.
Proof. apply Forall2_length. Qed.
End DictRel.

Lemma dict_set_Forall {V} (P : V -> Prop) k v (d : dict V) :
  Forall (fun kv => P (snd kv)) d -> P v ->
  Forall (fun kv => P (snd kv)) (dict_set k v d).
Proof.
  induction 1 as [|[k1 v1] d Hx Hd IH]; intros Hv; simpl.
  - repeat constructor. exact Hv.
  - destruct (String.eqb k k1); constructor; auto.
Qed.

Lemma dict_update_Forall {V} (P : V -> Prop) (d o : dict V) :
  Forall (fun kv => P (snd kv)) d -> Forall (fun kv => P (snd kv)) o ->
  Forall (fun kv => P (snd kv)) (dict_update d o).
Proof.
  intros Hd Ho. revert d Hd.
  induction Ho as [|[k v] o Hx Ho IH]; intros d Hd; [exact Hd|].
  rewrite dict_update_cons. apply IH. now apply dict_set_Forall.
Qed.

(** ** Trees and their decoding *)

(** Induction on a tree with the hypothesis for every child. *)
Lemma json_ind' (P : json -> Prop) :
  P JNull ->
  (forall b, P (JBool b)) ->
  (forall n, P (JInt n)) ->
  (forall s, P (JStr s)) ->
  (forall js, Forall P js -> P (JList js)) ->
  (forall kvs, Forall (fun kv => P (snd kv)) kvs -> P (JDict kvs)) ->
  forall j, P j.
Proof.
  intros Hnull Hbool Hint Hstr Hlist Hdict.
  fix IH 1. intros [| b | n | s | js | kvs].
  - exact Hnull.
  - apply Hbool.
  - apply Hint.
  - apply Hstr.
  - apply Hlist. induction js as [|j js IHjs]; constructor; [apply IH | exact IHjs].
  - apply Hdict. induction kvs as [|[k j] kvs IHkvs]; constructor;
      [apply IH | exact IHkvs].
Qed.

Lemma decode_list js h :
  decode (JList js) h =
  let '(vs, h1) := decode_items js h in (VRef (length h1), h1 ++ [OList vs]).
Proof. reflexivity. Qed.

Lemma decode_dict kvs h :
  decode (JDict kvs) h =
  let '(d, h1) := decode_pairs kvs [] h in (VRef (length h1), h1 ++ [ODict d]).
Proof. reflexivity. Qed.

(** Decoding only adds objects. *)
Lemma decode_extends j : forall h, exists ext, snd (decode j h) = h ++ ext.
Proof.
  induction j as [| b | n | s | js IH | kvs IH] using json_ind'; intros h;
    try (exists []; simpl; now rewrite app_nil_r).
  - rewrite decode_list.
    assert (Hitems : exists ext, snd (decode_items js h) = h ++ ext).
    { revert h. induction IH as [|j js Hj _ IHjs]; intros h.
      - exists []. simpl. now rewrite app_nil_r.
      - simpl. destruct (Hj h) as [e1 He1]. destruct (decode j h) as [v h1].
        simpl in He1. subst h1. destruct (IHjs (h ++ e1)) as [e2 He2].
        destruct (decode_items js (h ++ e1)) as [vs h2]. simpl in *. subst h2.
        exists (e1 ++ e2). now rewrite app_assoc. }
    destruct Hitems as [e He]. destruct (decode_items js h) as [vs h1].
    simpl in *. subst h1. exists (e ++ [OList vs]). now rewrite app_assoc.
  - rewrite decode_dict.
    assert (Hpairs : forall d, exists ext, snd (decode_pairs kvs d h) = h ++ ext).
    { revert h. induction IH as [|[k j] kvs Hj _ IHkvs]; intros h d.
      - exists []. simpl. now rewrite app_nil_r.
      - simpl. simpl in Hj. destruct (Hj h) as [e1 He1]. destruct (decode j h) as [v h1].
        simpl in He1. subst h1. destruct (IHkvs (h ++ e1) (dict_set k v d)) as [e2 He2].
        exists (e1 ++ e2). rewrite He2, <- app_assoc. reflexivity. }
    destruct (Hpairs []) as [e He]. destruct (decode_pairs kvs [] h) as [d h1].
    simpl in *. subst h1. exists (e ++ [ODict d]). now rewrite app_assoc.
Qed.

Lemma Forall2_Forall_r_impl {A B} (R R' : A -> B -> Prop) (xs : list A) (ys : list B) :
  Forall (fun y => forall x, R x y -> R' x y) ys ->
  Forall2 R xs ys -> Forall2 R' xs ys.
Proof.
  intros Hall H. induction H as [|x y xs ys Hxy _ IH]; constructor.
  - apply Forall_cons in Hall as [Hy _]. now apply Hy.
  - apply IH. now apply Forall_cons in Hall as [_ ?].
Qed.

(** What a value stands for does not change when objects are added. *)
Lemma represents_extends h ext j : forall v,
  represents h v j -> represents (h ++ ext) v j.
Proof.
  induction j as [| b | n | s | js IH | kvs IH] using json_ind'; intros v Hv;
    inversion Hv; subst; try constructor.
  - econstructor; [apply lookup_app_l_Some; eassumption|].
    eapply Forall2_Forall_r_impl; [exact IH | assumption].
  - econstructor; [apply lookup_app_l_Some; eassumption|].
    assert (Hall : Forall (fun kv : string * json =>
                    forall v, represents h v (snd kv) -> represents (h ++ ext) v (snd kv))
                   (dict_of_pairs kvs)).
    { unfold dict_of_pairs.
      apply (dict_update_Forall
               (fun j => forall v, represents h v j -> represents (h ++ ext) v j));
        [constructor | exact IH]. }
    eapply Forall2_Forall_r_impl; [|eassumption].
    eapply Forall_impl; [exact Hall|]. intros [k j] Hj [k' v'] [Hk Hr]. split; auto.
Qed.

Lemma dict_rel_represents_extends h ext d e :
  dict_rel (represents h) d e -> dict_rel (represents (h ++ ext)) d e.
Proof.
  induction 1 as [|? ? ? ? [Hk Hr] _ IH]; constructor; [|exact IH].
  split; [exact Hk | now apply represents_extends].
Qed.

Lemma decode_items_extends js : forall h,
  exists ext, snd (decode_items js h) = h ++ ext.
Proof.
  induction js as [|j js IH]; intros h.
  - exists []. simpl. now rewrite app_nil_r.
  - simpl. destruct (decode_extends j h) as [e1 He1]. destruct (decode j h) as [v h1].
    simpl in He1. subst h1. destruct (IH (h ++ e1)) as [e2 He2].
    destruct (decode_items js (h ++ e1)) as [vs h2]. simpl in *. subst h2.
    exists (e1 ++ e2). now rewrite app_assoc.
Qed.

(** The decoded value stands for the body. *)
Lemma decode_represents j : forall h,
  represents (snd (decode j h)) (fst (decode j h)) j.
Proof.
  induction j as [| b | n | s | js IH | kvs IH] using json_ind'; intros h;
    try (simpl; constructor).
  - rewrite decode_list.
    assert (Hitems : Forall2 (represents (snd (decode_items js h)))
                             (fst (decode_items js h)) js).
    { revert h. induction IH as [|j js Hj _ IHjs]; intros h; [constructor|].
      simpl. specialize (Hj h). destruct (decode j h) as [v h1]. simpl in Hj.
      specialize (IHjs h1). destruct (decode_items_extends js h1) as [e He].
      destruct (decode_items js h1) as [vs h2]. simpl in *. subst h2.
      constructor; [|exact IHjs]. now apply represents_extends. }
    destruct (decode_items js h) as [vs h1]. simpl in *.
    econstructor; [apply list_lookup_middle; reflexivity|].
    eapply Forall2_impl; [exact Hitems|]. intros. now apply represents_extends.
  - rewrite decode_dict.
    assert (Hpairs : forall d e,
               dict_rel (represents h) d e ->
               dict_rel (represents (snd (decode_pairs kvs d h)))
                        (fst (decode_pairs kvs d h)) (dict_update e kvs)).
    { revert h. induction IH as [|[k j] kvs Hj _ IHkvs]; intros h d e Hde; [exact Hde|].
      simpl. simpl in Hj. specialize (Hj h).
      pose proof (decode_extends j h) as [e1 He1].
      destruct (decode j h) as [v h1]. simpl in *. subst h1.
      apply IHkvs. apply dict_rel_set; [|exact Hj].
      now apply dict_rel_represents_extends. }
    specialize (Hpairs [] [] ltac:(constructor)).
    destruct (decode_pairs kvs [] h) as [d h1]. simpl in *.
    econstructor; [apply list_lookup_middle; reflexivity|].
    now apply dict_rel_represents_extends.
Qed.

(** ** The built-in operations on a value that stands for a tree *)

Section Represents.
Context (h : heap).

Lemma represents_contains v j needle :
  represents h v j -> py_contains h needle v = json_contains needle j.
Proof.
  intros Hv. inversion Hv as [| | | | l vs js Hl Hvs | l d kvs Hl Hd]; subst;
    simpl; try reflexivity.
  - rewrite Hl. f_equal. clear Hl Hv.
    induction Hvs as [|x y vs js Hxy _ IH]; simpl; [reflexivity|].
    rewrite IH. f_equal. now inversion Hxy.
  - rewrite Hl. f_equal. now apply dict_rel_has with (Q := represents h).
Qed.

Lemma represents_getitem v j k :
  represents h v j ->
  match json_getitem j k with
  | Ok j' => exists v', py_getitem h v k = Ok v' /\ represents h v' j'
  | Raise e => py_getitem h v k = Raise e
  end.
Proof.
  intros Hv. inversion Hv as [| | | | l vs js Hl Hvs | l d kvs Hl Hd]; subst;
    simpl; try reflexivity.
  - now rewrite Hl.
  - rewrite Hl. pose proof (dict_rel_get (represents h) k _ _ Hd) as Hg.
    destruct (dict_get k (dict_of_pairs kvs)) as [j'|].
    + destruct Hg as (v' & -> & Hr). eauto.
    + now rewrite Hg.
Qed.

Lemma represents_getitem_Ok v j k j' :
  represents h v j -> json_getitem j k = Ok j' ->
  exists v', py_getitem h v k = Ok v' /\ represents h v' j'.
Proof.
  intros Hv Hj. pose proof (represents_getitem v j k Hv) as H.
  now rewrite Hj in H.
Qed.

Lemma represents_getitem_Raise v j k e :
  represents h v j -> json_getitem j k = Raise e -> py_getitem h v k = Raise e.
Proof.
  intros Hv Hj. pose proof (represents_getitem v j k Hv) as H.
  now rewrite Hj in H.
Qed.

Lemma represents_eq_int v j n :
  represents h v j -> py_eq_int v n = json_eq_int j n.
Proof. now inversion 1. Qed.

Lemma represents_JStr v s : represents h v (JStr s) -> v = VStr s.
Proof. now inversion 1. Qed.
End Represents.

(** ** The envelope *)

Section Envelope.
Context (self : Api.t) (w : world) (v : val) (body : json).
Hypothesis Hv : represents (store w) v body.

Lemma field_Ok name j :
  json_field body name = Ok j ->
  exists x, Response.field v name w = (Ok x, w) /\ represents (store w) x j.
Proof.
  unfold json_field. destruct (json_getitem body "response") as [r|e] eqn:Hr;
    [|discriminate].
  intros Hj. destruct (represents_getitem_Ok _ _ _ _ _ Hv Hr) as (vr & Hgr & Hvr).
  destruct (represents_getitem_Ok _ _ _ _ _ Hvr Hj) as (x & Hgx & Hx).
  exists x. split; [|exact Hx].
  unfold Response.field, bind, read. now rewrite Hgr, Hgx.
Qed.

Lemma field_Raise name e :
  json_field body name = Raise e -> Response.field v name w = (Raise e, w).
Proof.
  unfold json_field, Response.field, bind, read.
  destruct (json_getitem body "response") as [r|e'] eqn:Hr.
  - intros Hj. destruct (represents_getitem_Ok _ _ _ _ _ Hv Hr) as (vr & -> & Hvr).
    now rewrite (represents_getitem_Raise _ _ _ _ _ Hvr Hj).
  - intros [= ->]. now rewrite (represents_getitem_Raise _ _ _ _ _ Hv Hr).
Qed.

Lemma failed_envelope_lacks_shape :
  lacks_shape body -> Api.failed_envelope v w = (Ok true, w).
Proof.
  unfold Api.failed_envelope, py_or, bind, read, ret.
  rewrite (represents_contains _ _ _ "response" Hv).
  intros [-> | (-> & r & Hr & Hs)]; [reflexivity|]. simpl.
  destruct (represents_getitem_Ok _ _ _ _ _ Hv Hr) as (vr & -> & Hvr).
  now rewrite (represents_contains _ _ _ "status" Hvr), Hs.
Qed.

Lemma failed_envelope_has_shape status :
  has_shape body -> json_field body "status" = Ok status ->
  Api.failed_envelope v w = (Ok (negb (json_eq_int status 1)), w).
Proof.
  intros (Hc & r & Hr & Hs) Hst.
  destruct (field_Ok _ _ Hst) as (x & Hx & Hrx).
  unfold Api.failed_envelope, py_or, bind, read, ret.
  rewrite (represents_contains _ _ _ "response" Hv), Hc. simpl.
  destruct (represents_getitem_Ok _ _ _ _ _ Hv Hr) as (vr & Hgr & Hvr).
  rewrite Hgr, (represents_contains _ _ _ "status" Hvr), Hs. simpl.
  rewrite Hx. now rewrite (represents_eq_int _ _ _ 1 Hrx).
Qed.

Lemma no_shape_lacks_shape :
  lacks_shape body -> Api.no_shape v w = (Ok true, w).
Proof.
  unfold Api.no_shape, py_or, bind, read, ret.
  rewrite (represents_contains _ _ _ "response" Hv).
  intros [-> | (-> & r & Hr & Hs)]; [reflexivity|]. simpl.
  destruct (represents_getitem_Ok _ _ _ _ _ Hv Hr) as (vr & -> & Hvr).
  now rewrite (represents_contains _ _ _ "status" Hvr), Hs.
Qed.

Lemma no_shape_has_shape :
  has_shape body -> Api.no_shape v w = (Ok false, w).
Proof.
  intros (Hc & r & Hr & Hs).
  unfold Api.no_shape, py_or, bind, read, ret.
  rewrite (represents_contains _ _ _ "response" Hv), Hc. simpl.
  destruct (represents_getitem_Ok _ _ _ _ _ Hv Hr) as (vr & -> & Hvr).
  now rewrite (represents_contains _ _ _ "status" Hvr), Hs.
Qed.

Lemma cast_error_lacks_shape :
  lacks_shape body ->
  Api.cast_error self v w =
  (Ok (Error (VStr ("Unexpected error: " +:+ py_repr (store w) v))), w).
Proof.
  intros H. unfold Api.cast_error.
  now rewrite (bind_ok _ _ _ _ _ (no_shape_lacks_shape H)).
Qed.

Lemma cast_error_has_shape message limited :
  has_shape body ->
  json_field body "errorMessage" = Ok message ->
  json_contains "API usage exceeded rate limit" message = Ok limited ->
  exists x,
    represents (store w) x message /\
    Api.cast_error self v w =
    (Ok (if limited then APIUsageExceededRateLimit x else Error x), w).
Proof.
  intros Hs Hm Hl.
  destruct (field_Ok _ _ Hm) as (x & Hx & Hrx).
  exists x. split; [exact Hrx|].
  unfold Api.cast_error.
  rewrite (bind_ok _ _ _ _ _ (no_shape_has_shape Hs)).
  rewrite (bind_ok _ _ _ _ _ Hx).
  assert (Hlim : read (fun h => py_contains h "API usage exceeded rate limit" x) w
                 = (Ok limited, w)).
  { unfold read. now rewrite (represents_contains _ _ _ _ Hrx), Hl. }
  rewrite (bind_ok _ _ _ _ _ Hlim).
  destruct limited; now rewrite (bind_ok _ _ _ _ _ Hx).
Qed.

Lemma cast_error_no_message e :
  has_shape body ->
  json_field body "errorMessage" = Raise e ->
  Api.cast_error self v w = (Raise e, w).
Proof.
  intros Hs Hm. unfold Api.cast_error.
  rewrite (bind_ok _ _ _ _ _ (no_shape_has_shape Hs)).
  now rewrite (bind_raise _ _ _ _ _ (field_Raise _ _ Hm)).
Qed.
End Envelope.

(** ** One attempt of [send_request] *)

Lemma wire_app t1 t2 : wire (t1 ++ t2) = wire t1 ++ wire t2.
Proof. apply List.filter_app. Qed.

Section Attempt.
Context (ext : externals) (self : Api.t) (request : Request.t).

Lemma send_request_aux_eq fuel :
  Api.send_request_aux fuel ext self request =
  (r <- Request.get request ;;
   Request.set_attempts request (attempts r + 1) ;;;
   r <- Request.get request ;;
   Api.log self (Executing (url r)) ;;;
   http_response <- Api.requests_get ext (url r) ;;
   Api.log self (Received (fst http_response)) ;;;
   json_response <- Api.response_json (snd http_response) ;;
   after_receipt fuel ext self request json_response).
Proof. destruct fuel; reflexivity. Qed.

Lemma get_ok w r :
  requests w !! request = Some r -> Request.get request w = (Ok r, w).
Proof. intros H. unfold Request.get. now rewrite H. Qed.

Lemma set_attempts_ok w r n :
  requests w !! request = Some r ->
  Request.set_attempts request n w =
  (Ok tt, World (store w)
                (<[request := RequestObj (target r) (method r) (params r) n (url r)]>
                   (requests w))
                (sent w) (trace w)).
Proof.
  intros H. unfold Request.set_attempts. now rewrite (bind_ok _ _ _ _ _ (get_ok w r H)).
Qed.

Lemma log_ok msg w :
  Api.log self msg w =
  (Ok tt, World (store w) (requests w) (sent w)
                (trace w ++ [EvLog (Api.level self) msg])).
Proof. reflexivity. Qed.

Lemma requests_get_reply w u status_code body :
  net ext (sent w) u = Reply status_code body ->
  Api.requests_get ext u w =
  (Ok (status_code, body),
   World (store w) (requests w) (S (sent w)) (trace w ++ [EvGet u])).
Proof. intros H. unfold Api.requests_get. now rewrite H. Qed.

Lemma requests_get_no_reply w u what :
  net ext (sent w) u = NoReply what ->
  Api.requests_get ext u w =
  (Raise (TransportFailure what),
   World (store w) (requests w) (S (sent w)) (trace w ++ [EvGet u])).
Proof. intros H. unfold Api.requests_get. now rewrite H. Qed.

Lemma response_json_ok body w :
  Api.response_json (Some body) w =
  (Ok (fst (decode body (store w))),
   World (snd (decode body (store w))) (requests w) (sent w) (trace w)).
Proof. simpl. now destruct (decode body (store w)). Qed.

Lemma attempt_received fuel w r status_code body :
  requests w !! request = Some r ->
  net ext (sent w) (url r) = Reply status_code (Some body) ->
  Api.send_request_aux fuel ext self request w =
  after_receipt fuel ext self request (fst (decode body (store w)))
                (received self request r status_code body w).
Proof.
  intros Hr Hnet. rewrite send_request_aux_eq.
  rewrite (bind_ok _ _ _ _ _ (get_ok w r Hr)).
  rewrite (bind_ok _ _ _ _ _ (set_attempts_ok w r _ Hr)).
  erewrite bind_ok; cycle 1.
  { apply get_ok. simpl. apply list_lookup_insert_eq.
    eapply lookup_lt_Some; eassumption. }
  erewrite bind_ok by apply log_ok.
  erewrite bind_ok by (apply requests_get_reply; exact Hnet).
  erewrite bind_ok by apply log_ok.
  erewrite bind_ok by apply response_json_ok.
  unfold received. simpl. repeat rewrite <- app_assoc. reflexivity.
Qed.

Lemma attempt_no_answer fuel w r what :
  requests w !! request = Some r ->
  net ext (sent w) (url r) = NoReply what ->
  Api.send_request_aux fuel ext self request w =
  (Raise (TransportFailure what), asked self request r w).
Proof.
  intros Hr Hnet. rewrite send_request_aux_eq.
  rewrite (bind_ok _ _ _ _ _ (get_ok w r Hr)).
  rewrite (bind_ok _ _ _ _ _ (set_attempts_ok w r _ Hr)).
  erewrite bind_ok; cycle 1.
  { apply get_ok. simpl. apply list_lookup_insert_eq.
    eapply lookup_lt_Some; eassumption. }
  erewrite bind_ok by apply log_ok.
  erewrite bind_raise by (apply requests_get_no_reply; exact Hnet).
  unfold asked. simpl. rewrite <- app_assoc. reflexivity.
Qed.

Lemma attempt_not_json fuel w r status_code :
  requests w !! request = Some r ->
  net ext (sent w) (url r) = Reply status_code None ->
  Api.send_request_aux fuel ext self request w =
  (Raise ValueError,
   World (store w) (requests (asked self request r w)) (S (sent w))
         (trace (asked self request r w) ++
          [EvLog (Api.level self) (Received status_code)])).
Proof.
  intros Hr Hnet. rewrite send_request_aux_eq.
  rewrite (bind_ok _ _ _ _ _ (get_ok w r Hr)).
  rewrite (bind_ok _ _ _ _ _ (set_attempts_ok w r _ Hr)).
  erewrite bind_ok; cycle 1.
  { apply get_ok. simpl. apply list_lookup_insert_eq.
    eapply lookup_lt_Some; eassumption. }
  erewrite bind_ok by apply log_ok.
  erewrite bind_ok by (apply requests_get_reply; exact Hnet).
  erewrite bind_ok by apply log_ok.
  unfold bind, raise, asked. simpl. rewrite <- !app_assoc. reflexivity.
Qed.

(** A failed envelope whose classification is not the rate-limit class:
    the error is raised at once. *)
Lemma after_receipt_other fuel v w e :
  Api.failed_envelope v w = (Ok true, w) ->
  Api.cast_error self v w = (Ok e, w) ->
  isinstance_APIUsageExceededRateLimit e = false ->
  after_receipt fuel ext self request v w = (Raise e, w).
Proof.
  intros Hf Hc He. unfold after_receipt.
  rewrite (bind_ok _ _ _ _ _ Hf). unfold try_except.
  rewrite (bind_ok _ _ _ _ _ Hc). unfold raise. now rewrite He.
Qed.

(** A failed envelope of the rate-limit class: one more attempt after
    the delay while attempts are left, else the error. *)
Lemma after_receipt_limited fuel v w r x :
  Api.failed_envelope v w = (Ok true, w) ->
  Api.cast_error self v w = (Ok (APIUsageExceededRateLimit x), w) ->
  requests w !! request = Some r ->
  after_receipt fuel ext self request v w =
  if ((1 <? Api.retry_count self) && (attempts r <? Api.retry_count self))%bool
  then match fuel with
       | S fuel' =>
           Api.send_request_aux fuel' ext self request (slept self (attempts r) w)
       | O => (Raise RecursionError, slept self (attempts r) w)
       end
  else (Raise (APIUsageExceededRateLimit x), w).
Proof.
  intros Hf Hc Hr. unfold after_receipt.
  rewrite (bind_ok _ _ _ _ _ Hf). unfold try_except.
  rewrite (bind_ok _ _ _ _ _ Hc). unfold raise at 1. simpl.
  unfold bind at 1. unfold Request.get at 1. rewrite Hr.
  destruct ((1 <? Api.retry_count self) && (attempts r <? Api.retry_count self))%bool.
  - unfold bind, Api.log, emit, slept. simpl. rewrite <- app_assoc. simpl.
    destruct fuel; reflexivity.
  - now rewrite (bind_ok _ _ _ _ _ Hc).
Qed.

Lemma after_receipt_success fuel v w :
  Api.failed_envelope v w = (Ok false, w) ->
  after_receipt fuel ext self request v w = Response.__init__ request v w.
Proof.
  intros Hf. unfold after_receipt. now rewrite (bind_ok _ _ _ _ _ Hf).
Qed.
End Attempt.

(** ** Kinds of answers *)

Lemma field_has_shape body name j : json_field body name = Ok j ->
  json_contains "response" body = Ok true /\
  exists response, json_getitem body "response" = Ok response.
Proof.
  unfold json_field. destruct body as [| | | | |kvs]; try discriminate.
  simpl. unfold dict_has.
  destruct (dict_get "response" (dict_of_pairs kvs)) as [r|]; [|discriminate].
  eauto.
Qed.

Lemma status_has_shape body status :
  json_field body "status" = Ok status -> has_shape body.
Proof.
  intros H. destruct (field_has_shape _ _ _ H) as (Hc & r & Hr).
  split; [exact Hc|]. exists r. split; [exact Hr|].
  unfold json_field in H. rewrite Hr in H.
  destruct r as [| | | | |kvs]; try discriminate. simpl in *. unfold dict_has.
  now destruct (dict_get "status" (dict_of_pairs kvs)).
Qed.

Section Call.
Context (ext : externals) (self : Api.t).

Lemma call_eq target method params q w :
  http_build_query ext (call_params self method params) = Ok q ->
  Api.call ext self target method params w =
  Api.send_request ext self (length (requests w))
    (World (store w)
           (requests w ++ [RequestObj target method (call_params self method params) 0
                                      (call_url target q)])
           (sent w) (trace w)).
Proof.
  intros Hq. unfold Api.call. erewrite bind_ok; [reflexivity|].
  unfold Api.create_request, Request.__init__, Request.build_url. cbv zeta.
  change (dict_update _ _) with (call_params self method params).
  unfold bind, lift, ret. now rewrite Hq.
Qed.

Lemma call_bad_params target method params e w :
  http_build_query ext (call_params self method params) = Raise e ->
  Api.call ext self target method params w = (Raise e, w).
Proof.
  intros Hq. unfold Api.call. erewrite bind_raise; [reflexivity|].
  unfold Api.create_request, Request.__init__, Request.build_url. cbv zeta.
  change (dict_update _ _) with (call_params self method params).
  unfold bind, lift, ret. now rewrite Hq.
Qed.

(** One attempt answered by a rate-limit envelope. *)
Lemma attempt_limited fuel request w r status_code body message :
  requests w !! request = Some r ->
  net ext (sent w) (url r) = Reply status_code (Some body) ->
  rate_limited body message ->
  exists x,
    represents (store (received self request r status_code body w)) x message /\
    Api.send_request_aux fuel ext self request w =
    if ((1 <? Api.retry_count self) && (attempts r + 1 <? Api.retry_count self))%bool
    then match fuel with
         | S fuel' =>
             Api.send_request_aux fuel' ext self request
               (slept self (attempts r + 1) (received self request r status_code body w))
         | O => (Raise RecursionError,
                 slept self (attempts r + 1) (received self request r status_code body w))
         end
    else (Raise (APIUsageExceededRateLimit x),
          received self request r status_code body w).
Proof.
  intros Hr Hnet ((status & Hst & Hne) & Hm & Hl).
  rewrite (attempt_received ext self request fuel w r status_code body Hr Hnet).
  set (w1 := received self request r status_code body w).
  assert (Hv : represents (store w1) (fst (decode body (store w))) body)
    by apply decode_represents.
  pose proof (status_has_shape _ _ Hst) as Hshape.
  destruct (cast_error_has_shape self w1 _ body Hv message true Hshape Hm Hl)
    as (x & Hx & Hc).
  exists x. split; [exact Hx|].
  rewrite (after_receipt_limited ext self request fuel _ w1 (attempted r) x);
    [reflexivity | | exact Hc |].
  - rewrite (failed_envelope_has_shape w1 _ body Hv status Hshape Hst).
    now rewrite Hne.
  - simpl. apply list_lookup_insert_eq. eapply lookup_lt_Some; eassumption.
Qed.
End Call.

Section RetryFacts.
Context (ext : externals) (self : Api.t) (request : Request.t).

Lemma received_lookup r status_code body w :
  requests w !! request = Some r ->
  requests (received self request r status_code body w) !! request = Some (attempted r).
Proof.
  intros Hr. simpl. apply list_lookup_insert_eq. eapply lookup_lt_Some; eassumption.
Qed.

Lemma received_requests r status_code body w :
  requests (received self request r status_code body w) =
  <[request := attempted r]> (requests w).
Proof. reflexivity. Qed.

Lemma received_wire r status_code body w :
  wire (trace (received self request r status_code body w)) =
  wire (trace w) ++ [EvGet (url r)].
Proof. simpl. rewrite wire_app. reflexivity. Qed.

Lemma slept_wire n w :
  wire (trace (slept self n w)) = wire (trace w) ++ [EvSleep 250].
Proof. simpl. rewrite wire_app. reflexivity. Qed.
End RetryFacts.

(** ** Computations that only read *)

Lemma readonly_ret {A} (a : A) : readonly (ret a).
Proof. now intros w. Qed.

Lemma readonly_raise {A} e : readonly (@raise A e).
Proof. now intros w. Qed.

Lemma readonly_lift {A} (r : result A) : readonly (lift r).
Proof. now intros w. Qed.

Lemma readonly_read {A} (f : heap -> result A) : readonly (read f).
Proof. now intros w. Qed.

Lemma readonly_bind {A B} (m : M A) (k : A -> M B) :
  readonly m -> (forall a, readonly (k a)) -> readonly (bind m k).
Proof.
  intros Hm Hk w. unfold bind. specialize (Hm w).
  destruct (m w) as [[a|e] w1]; simpl in Hm; subst w1; [apply Hk | reflexivity].
Qed.

Lemma readonly_py_or (a b : M bool) : readonly a -> readonly b -> readonly (py_or a b).
Proof.
  intros Ha Hb. apply readonly_bind; [exact Ha|].
  intros [|]; [apply readonly_ret | exact Hb].
Qed.

Lemma readonly_get request : readonly (Request.get request).
Proof. intros w. unfold Request.get. now destruct (requests w !! request). Qed.

Create HintDb readonly.
#[local] Hint Resolve readonly_ret readonly_raise readonly_lift readonly_read
  readonly_py_or readonly_get : readonly.
#[local] Hint Extern 2 (readonly (bind _ _)) =>
  apply readonly_bind; [|intros ?] : readonly.
#[local] Hint Extern 3 (readonly (if ?b then _ else _)) => destruct b : readonly.

Lemma readonly_field v name : readonly (Response.field v name).
Proof. unfold Response.field. auto with readonly. Qed.
#[local] Hint Resolve readonly_field : readonly.

Lemma readonly_no_shape v : readonly (Api.no_shape v).
Proof. unfold Api.no_shape. auto 10 with readonly. Qed.

Lemma readonly_failed_envelope v : readonly (Api.failed_envelope v).
Proof. unfold Api.failed_envelope. auto 10 with readonly. Qed.

Lemma readonly_cast_error self v : readonly (Api.cast_error self v).
Proof.
  unfold Api.cast_error. apply readonly_bind; [apply readonly_no_shape|].
  intros [|]; auto 10 with readonly.
Qed.

Lemma readonly_Response_init request v : readonly (Response.__init__ request v).
Proof. unfold Response.__init__. auto 12 with readonly. Qed.

(** The classification of a body has three outcomes. *)
Lemma no_shape_cases w v body :
  represents (store w) v body ->
  (lacks_shape body /\ Api.no_shape v w = (Ok true, w)) \/
  (has_shape body /\ Api.no_shape v w = (Ok false, w)) \/
  (exists e, Api.no_shape v w = (Raise e, w)).
Proof.
  intros Hv.
  destruct (json_contains "response" body) as [[|]|e] eqn:Hc.
  - destruct (json_getitem body "response") as [r|e] eqn:Hr.
    + destruct (json_contains "status" r) as [[|]|e] eqn:Hs.
      * right. left. assert (Hshape : has_shape body) by (split; eauto).
        split; [exact Hshape | now apply (no_shape_has_shape w v body)].
      * left. assert (Hshape : lacks_shape body) by (right; split; eauto).
        split; [exact Hshape | now apply (no_shape_lacks_shape w v body)].
      * right. right. exists e.
        destruct (represents_getitem_Ok _ _ _ _ _ Hv Hr) as (vr & Hgr & Hvr).
        unfold Api.no_shape, py_or, bind, read, ret.
        rewrite (represents_contains _ _ _ "response" Hv), Hc. simpl.
        now rewrite Hgr, (represents_contains _ _ _ "status" Hvr), Hs.
    + right. right. exists e.
      unfold Api.no_shape, py_or, bind, read, ret.
      rewrite (represents_contains _ _ _ "response" Hv), Hc. simpl.
      now rewrite (represents_getitem_Raise _ _ _ _ _ Hv Hr).
  - left. assert (Hshape : lacks_shape body) by now left.
    split; [exact Hshape | now apply (no_shape_lacks_shape w v body)].
  - right. right. exists e.
    unfold Api.no_shape, py_or, bind, read, ret.
    now rewrite (represents_contains _ _ _ "response" Hv), Hc.
Qed.

(** ** The sample bodies *)

Lemma rate_limit_body_limited :
  rate_limited rate_limit_body
               (JStr "API usage exceeded rate limit. Try again later.").
Proof. split; [exists (JInt (-1))|]; split; reflexivity. Qed.

(** ** The mapper *)

Lemma bind_assoc {A B C} (m : M A) (k : A -> M B) (k' : B -> M C) w :
  bind (bind m k) k' w = bind m (fun a => bind (k a) k') w.
Proof. unfold bind. destruct (m w) as [[a|e] w1]; reflexivity. Qed.

Lemma read_ok {A} (f : heap -> result A) w a :
  f (store w) = Ok a -> read f w = (Ok a, w).
Proof. intros H. unfold read. now rewrite H. Qed.

Lemma write_ok (f : heap -> result heap) w h' :
  f (store w) = Ok h' -> write f w = (Ok tt, set_store h' w).
Proof. intros H. unfold write. now rewrite H. Qed.

Lemma bind_ext {A B} (m : M A) (k1 k2 : A -> M B) w :
  (forall a w', k1 a w' = k2 a w') -> bind m k1 w = bind m k2 w.
Proof. intros H. unfold bind. destruct (m w) as [[a|e] w1]; [apply H | reflexivity]. Qed.

Lemma extract_one_eq data model_name w :
  Mapper.extract_one data model_name w =
  (n <- read (fun h => py_len h data) ;;
   if (n =? 0)%nat then ret None
   else model <- merge_scope data model_name ;; ret (Some model)) w.
Proof.
  unfold Mapper.extract_one, merge_scope, relative_scopes.
  apply bind_ext. intros n w1. destruct (n =? 0)%nat; [reflexivity|].
  rewrite bind_assoc. apply bind_ext. intros items w2.
  rewrite bind_assoc. apply bind_ext. intros scope w3.
  rewrite bind_assoc. reflexivity.
Qed.

Lemma extract_all_loop_eq todo data model_name size pos collection w :
  Mapper.extract_all_loop todo data model_name size pos collection w =
  (next <- Mapper.items_next data size pos ;;
   match next, todo with
   | Some (object_id, object_scope), S todo' =>
       model <- merge_scope object_scope model_name ;;
       Mapper.extract_all_loop todo' data model_name size (S pos) (collection ++ [model])
   | _, _ => ret collection
   end) w.
Proof.
  destruct todo; [reflexivity|]. simpl.
  apply bind_ext. intros [[oid scope]|] w1; [|reflexivity].
  unfold merge_scope, relative_scopes.
  rewrite bind_assoc. apply bind_ext. intros items w2.
  rewrite bind_assoc. apply bind_ext. intros sc w3.
  rewrite bind_assoc. reflexivity.
Qed.

Section MergeScope.
Context (model_name : string) (w : world).

(** The merge on a dictionary that has the primary scope. *)
Lemma merge_scope_dict s ds lm dm :
  store w !! s = Some (ODict ds) ->
  dict_get model_name ds = Some (VRef lm) ->
  store w !! lm = Some (ODict dm) ->
  merge_scope (VRef s) model_name w =
  (Model.fill (dict_update dm (relative_scopes model_name ds)) [],
   set_store (<[lm := ODict (dict_update dm (relative_scopes model_name ds))]> (store w))
             w).
Proof.
  intros Hs Hk Hm. unfold merge_scope.
  erewrite bind_ok by (apply read_ok; simpl; rewrite Hs; reflexivity).
  erewrite bind_ok by (apply read_ok; simpl; rewrite Hs, Hk; reflexivity).
  erewrite bind_ok by (apply write_ok; simpl; rewrite Hm; reflexivity).
  set (merged := dict_update dm (relative_scopes model_name ds)).
  assert (Hlm : <[lm := ODict merged]> (store w) !! lm = Some (ODict merged)).
  { apply list_lookup_insert_eq. eapply lookup_lt_Some; eassumption. }
  unfold Model.__init__.
  erewrite bind_ok; cycle 1.
  { apply read_ok. simpl. rewrite Hlm. reflexivity. }
  cbn [negb]. unfold bind, read, lift. cbn [store set_store py_items].
  rewrite Hlm. reflexivity.
Qed.

(** The merge on a dictionary without the primary scope. *)
Lemma merge_scope_missing s ds :
  store w !! s = Some (ODict ds) ->
  dict_get model_name ds = None ->
  merge_scope (VRef s) model_name w = (Raise (KeyError model_name), w).
Proof.
  intros Hs Hk. unfold merge_scope, bind, read. simpl. now rewrite Hs, Hk.
Qed.
End MergeScope.

Lemma fill_acc items : forall acc model,
  Model.fill items acc = Ok model ->
  NoDup (dict_keys (acc ++ items)) ->
  dict_keys model = dict_keys (acc ++ items) /\
  (forall k v, dict_get k acc = Some v -> dict_get k model = Some v) /\
  (forall k v, dict_get k acc = None -> dict_get k items = Some v ->
     if String.eqb k "id"
     then exists n, py_int v = Ok n /\ dict_get k model = Some (VInt n)
     else dict_get k model = Some v).
Proof.
  induction items as [|[k0 v0] items IH]; intros acc model Hfill Hnd.
  - simpl in Hfill. injection Hfill as <-. rewrite app_nil_r.
    split; [reflexivity|]. split; [auto | discriminate].
  - assert (Hk0 : k0 ∉ dict_keys acc).
    { unfold dict_keys in *. rewrite map_app in Hnd. simpl in Hnd.
      apply NoDup_app in Hnd as (_ & Hd & _). intros Hin.
      apply (Hd k0 Hin). apply list_elem_of_here. }
    assert (Hstep : forall x, Model.fill items (dict_set k0 x acc) = Ok model ->
              dict_keys model = dict_keys (acc ++ (k0, v0) :: items) /\
              (forall k v, dict_get k acc = Some v -> dict_get k model = Some v) /\
              dict_get k0 model = Some x /\
              (forall k v, k <> k0 -> dict_get k acc = None ->
                 dict_get k items = Some v ->
                 if String.eqb k "id"
                 then exists n, py_int v = Ok n /\ dict_get k model = Some (VInt n)
                 else dict_get k model = Some v)).
    { intros x Hx. rewrite dict_set_fresh in Hx by exact Hk0.
      assert (Hnd' : NoDup (dict_keys ((acc ++ [(k0, x)]) ++ items))).
      { unfold dict_keys in *. rewrite <- app_assoc. simpl.
        rewrite map_app in *. exact Hnd. }
      destruct (IH _ _ Hx Hnd') as (Hkeys & Hacc & Hitems).
      assert (Hget : forall k, dict_get k (acc ++ [(k0, x)]) =
                match dict_get k acc with
                | Some v => Some v
                | None => if String.eqb k k0 then Some x else None
                end).
      { intros k. clear. induction acc as [|[k1 v1] acc IHa]; simpl; [reflexivity|].
        destruct (String.eqb k k1); [reflexivity | exact IHa]. }
      split.
      { rewrite Hkeys. unfold dict_keys. rewrite <- app_assoc.
        rewrite !map_app. reflexivity. }
      split.
      { intros k v Hk. apply Hacc. now rewrite Hget, Hk. }
      split.
      { apply Hacc. rewrite Hget. apply dict_get_None_keys in Hk0. rewrite Hk0.
        now rewrite String.eqb_refl. }
      intros k v Hne Hk Hi. apply Hitems; [|exact Hi].
      rewrite Hget, Hk. destruct (String.eqb_spec k k0); [congruence | reflexivity]. }
    simpl in Hfill. destruct (String.eqb_spec k0 "id") as [Hid|Hid].
    + destruct (py_int v0) as [n|e] eqn:Hn; [|discriminate].
      destruct (Hstep _ Hfill) as (Hkeys & Hacc & Hk0m & Hrest).
      split; [exact Hkeys|]. split; [exact Hacc|].
      intros k v Hk Hi. simpl in Hi. destruct (String.eqb_spec k k0) as [->|Hne].
      * injection Hi as <-. subst k0. simpl. eauto.
      * now apply Hrest.
    + destruct (Hstep _ Hfill) as (Hkeys & Hacc & Hk0m & Hrest).
      split; [exact Hkeys|]. split; [exact Hacc|].
      intros k v Hk Hi. simpl in Hi. destruct (String.eqb_spec k k0) as [->|Hne].
      * injection Hi as <-. destruct (String.eqb_spec k0 "id"); [congruence|].
        exact Hk0m.
      * now apply Hrest.
Qed.

Lemma fill_coerced d model :
  NoDup (dict_keys d) -> Model.fill d [] = Ok model -> coerced d model.
Proof.
  intros Hnd Hfill. destruct (fill_acc d [] model Hfill Hnd) as (Hkeys & _ & Hitems).
  split; [exact Hkeys|]. intros k v Hk. now apply Hitems.
Qed.

(** ** The loop of [extract_all] *)

Section Loop.
Context (model_name : string) (l : loc) (d : dict val).

Lemma items_next_at w pos :
  store w !! l = Some (ODict d) ->
  Mapper.items_next (VRef l) (length d) pos w = (Ok (d !! pos), w).
Proof.
  intros Hl. unfold Mapper.items_next. apply read_ok. simpl. rewrite Hl.
  now rewrite Nat.eqb_refl.
Qed.

Lemma entry_shape_insert h x o entry info :
  e_scope info <> x -> e_primary info <> x ->
  entry_shape model_name h entry info ->
  entry_shape model_name (<[x := o]> h) entry info.
Proof.
  intros H1 H2 (He & Hs & Hk & Hp). unfold entry_shape.
  rewrite !list_lookup_insert_ne by congruence. auto.
Qed.

Lemma extract_all_loop_run infos : forall done rest h w collection,
  d = done ++ rest ->
  h !! l = Some (ODict d) ->
  Forall2 (entry_shape model_name h) rest infos ->
  separated l infos ->
  Mapper.extract_all_loop (length rest) (VRef l) model_name (length d) (length done)
                          collection (set_store h w) =
  (fst (run_entries model_name infos h collection),
   set_store (snd (run_entries model_name infos h collection)) w).
Proof.
  induction infos as [|info infos IH]; intros done rest h w collection Hd Hl Hshape Hsep.
  - apply Forall2_nil_inv_r in Hshape. subst rest. rewrite extract_all_loop_eq.
    rewrite (bind_ok _ _ _ _ _ (items_next_at (set_store h w) _ Hl)).
    replace (d !! length done) with (@None (string * val)); [reflexivity|].
    symmetry. apply lookup_ge_None. rewrite Hd, app_nil_r. lia.
  - apply Forall2_cons_inv_r in Hshape as (entry & rest' & Hentry & Hrest & ->).
    destruct Hsep as (Hlp & Hsep1 & Hsep).
    rewrite extract_all_loop_eq.
    rewrite (bind_ok _ _ _ _ _ (items_next_at (set_store h w) _ Hl)).
    replace (d !! length done) with (Some entry)
      by (symmetry; rewrite Hd; apply list_lookup_middle; reflexivity).
    destruct entry as [object_id object_scope].
    destruct Hentry as (He & Hs & Hk & Hp). simpl in He. subst object_scope.
    cbn [length].
    rewrite (bind_ok _ _ _ _ _ (merge_scope_dict model_name (set_store h w) _ _ _ _ Hs Hk Hp))
      || (unfold bind at 1;
          rewrite (merge_scope_dict model_name (set_store h w) _ _ _ _ Hs Hk Hp)).
    all: fold (merged_of model_name info); cbn [run_entries].
    all: destruct (Model.fill (merged_of model_name info) []) as [model|e];
      [|reflexivity].
    all: cbn [store set_store requests sent trace].
    all: set (h1 := <[e_primary info := ODict (merged_of model_name info)]> h).
    all: change (set_store h1 (set_store h w)) with (set_store h1 w).
    all: replace (S (length done)) with (length (done ++ [(object_id, VRef (e_scope info))]))
      by (rewrite length_app; simpl; lia).
    all: apply IH; [rewrite <- app_assoc; exact Hd | | | exact Hsep].
    all: try (unfold h1; rewrite list_lookup_insert_ne by congruence; exact Hl).
    all: unfold h1; clear -Hrest Hsep1.
    all: induction Hrest as [|en i rest'' infos' Hx _ IHr]; constructor.
    all: try (apply Forall_cons in Hsep1 as [[? ?] _]; now apply entry_shape_insert).
    all: apply IHr; now apply Forall_cons in Hsep1 as [_ ?].
Qed.

Lemma extract_all_run w infos :
  store w !! l = Some (ODict d) ->
  d <> [] ->
  Forall2 (entry_shape model_name (store w)) d infos ->
  separated l infos ->
  Mapper.extract_all (VRef l) model_name w =
  (match fst (run_entries model_name infos (store w) []) with
   | Ok models => Ok (Some models)
   | Raise e => Raise e
   end,
   set_store (snd (run_entries model_name infos (store w) [])) w).
Proof.
  intros Hl Hne Hshape Hsep. unfold Mapper.extract_all.
  erewrite bind_ok by (apply read_ok; simpl; rewrite Hl; reflexivity).
  replace (length d =? 0)%nat with false
    by (symmetry; apply Nat.eqb_neq; now destruct d).
  erewrite bind_ok by (apply read_ok; simpl; rewrite Hl; reflexivity).
  assert (Hw : w = set_store (store w) w) by now destruct w.
  pose proof (extract_all_loop_run infos [] d (store w) w [] eq_refl Hl Hshape Hsep)
    as Hrun.
  rewrite <- Hw in Hrun. cbn [length] in Hrun.
  unfold bind at 1. rewrite Hrun.
  destruct (fst (run_entries model_name infos (store w) [])); reflexivity.
Qed.
End Loop.

Section RunEntries.
Context (model_name : string) (l : loc).

Lemma run_entries_frame infos : forall h collection x,
  Forall (fun i => e_primary i <> x) infos ->
  snd (run_entries model_name infos h collection) !! x = h !! x.
Proof.
  induction infos as [|info infos IH]; intros h collection x Hx; [reflexivity|].
  apply Forall_cons in Hx as [Hne Hx]. cbn [run_entries].
  destruct (Model.fill (merged_of model_name info) []) as [model|e]; cbn [snd].
  - rewrite IH by exact Hx. now apply list_lookup_insert_ne.
  - now apply list_lookup_insert_ne.
Qed.

Lemma run_entries_length infos : forall h collection,
  length (snd (run_entries model_name infos h collection)) = length h.
Proof.
  induction infos as [|info infos IH]; intros h collection; [reflexivity|].
  cbn [run_entries].
  destruct (Model.fill (merged_of model_name info) []) as [model|e]; cbn [snd].
  - rewrite IH. apply length_insert.
  - apply length_insert.
Qed.

Lemma run_entries_ok infos : forall h collection models h',
  separated l infos ->
  Forall (fun i => (e_primary i < length h)%nat) infos ->
  run_entries model_name infos h collection = (Ok models, h') ->
  exists ms,
    models = collection ++ ms /\
    Forall2 (fun info model =>
               Model.fill (merged_of model_name info) [] = Ok model /\
               h' !! e_primary info = Some (ODict (merged_of model_name info)))
            infos ms.
Proof.
  induction infos as [|info infos IH]; intros h collection models h' Hsep Hlen Hrun.
  - injection Hrun as <- <-. exists []. rewrite app_nil_r. split; [reflexivity|constructor].
  - destruct Hsep as (_ & Hsep1 & Hsep). apply Forall_cons in Hlen as [Hlt Hlen].
    cbn [run_entries] in Hrun.
    destruct (Model.fill (merged_of model_name info) []) as [model|e] eqn:Hfill;
      [|discriminate].
    set (h1 := <[e_primary info := ODict (merged_of model_name info)]> h) in *.
    assert (Hlen1 : Forall (fun i => (e_primary i < length h1)%nat) infos).
    { unfold h1. now rewrite length_insert. }
    destruct (IH h1 _ _ _ Hsep Hlen1 Hrun) as (ms & -> & Hms).
    exists (model :: ms). split; [now rewrite <- app_assoc|].
    constructor; [|exact Hms]. split; [exact Hfill|].
    replace h' with (snd (run_entries model_name infos h1 (collection ++ [model])))
      by now rewrite Hrun.
    rewrite run_entries_frame.
    + unfold h1. now apply list_lookup_insert_eq.
    + eapply Forall_impl; [exact Hsep1|]. now intros i [_ ?].
Qed.
End RunEntries.

(** After [d.update(relative_scopes)] every sibling entry of the object is
    an entry of the primary scope, whatever the primary scope had under
    that name. *)
Lemma merged_sibling (model_name : string) (items fields : dict val) k sibling :
  NoDup (dict_keys items) ->
  dict_get k items = Some sibling ->
  k <> model_name ->
  dict_get k (dict_update fields (relative_scopes model_name items)) = Some sibling.
Proof.
  intros Hnd Hk Hne. apply dict_get_update_in; [apply dict_of_pairs_NoDup|].
  unfold relative_scopes.
  assert (Hf : NoDup (dict_keys (List.filter
             (fun kv : string * val => negb (String.eqb (fst kv) model_name)) items))).
  { clear -Hnd. induction items as [|[k v] items IH]; simpl; [constructor|].
    simpl in Hnd. apply NoDup_cons in Hnd as [Hk Hnd].
    destruct (negb (String.eqb k model_name)); simpl; [|now apply IH].
    apply NoDup_cons. split; [|now apply IH].
    intros Hin. apply Hk. clear -Hin. unfold dict_keys in *.
    apply list_elem_of_fmap in Hin as ([k' v'] & -> & Hin).
    apply list_elem_of_In, List.filter_In in Hin as [Hin _].
    apply list_elem_of_fmap. exists (k', v'). split; [reflexivity|].
    now apply list_elem_of_In. }
  rewrite (dict_of_pairs_id _ Hf). rewrite dict_get_filter_ne.
  destruct (String.eqb_spec k model_name); [congruence | exact Hk].
Qed.

(** The fields of the primary scope that no sibling is named after keep
    their value. *)
Lemma merged_field (model_name : string) (items fields : dict val) k :
  dict_get k items = None ->
  dict_get k (dict_update fields (relative_scopes model_name items)) = dict_get k fields.
Proof.
  intros Hk. apply dict_get_update_out. unfold relative_scopes.
  intros Hin. apply dict_get_None_keys in Hk. apply Hk. clear Hk.
  assert (Hsub : forall (o acc : dict val),
             k ∈ dict_keys (dict_update acc o) -> k ∈ dict_keys acc \/ k ∈ dict_keys o).
  { induction o as [|[k1 v1] o IH]; intros acc H; [now left|].
    rewrite dict_update_cons in H. destruct (IH _ H) as [H1|H1].
    - destruct (decide (k1 ∈ dict_keys acc)) as [Hi|Ho].
      + rewrite dict_set_keys_in in H1 by exact Hi. now left.
      + rewrite dict_set_fresh in H1 by exact Ho. unfold dict_keys in H1.
        rewrite map_app in H1. apply elem_of_app in H1 as [H1|H1]; [now left|].
        right. simpl in H1. apply list_elem_of_singleton in H1. subst.
        apply list_elem_of_here.
    - right. simpl. now apply list_elem_of_further. }
  destruct (Hsub _ _ Hin) as [H|H]; [now apply elem_of_nil in H|].
  unfold dict_keys in *. apply list_elem_of_fmap in H as ([k' v'] & -> & H).
  apply list_elem_of_In, List.filter_In in H as [H _].
  apply list_elem_of_fmap. exists (k', v'). split; [reflexivity|].
  now apply list_elem_of_In.
Qed.

(** What a successful [extract_one] on a dictionary has done. *)
Lemma extract_one_inv (w w' : world) (l : loc) (d : dict val) (model_name : string)
    (model : Model.t) :
  store w !! l = Some (ODict d) ->
  Mapper.extract_one (VRef l) model_name w = (Ok (Some model), w') ->
  exists lm dm,
    dict_get model_name d = Some (VRef lm) /\
    store w !! lm = Some (ODict dm) /\
    w' = set_store (<[lm := ODict (dict_update dm (relative_scopes model_name d))]>
                      (store w)) w /\
    Model.fill (dict_update dm (relative_scopes model_name d)) [] = Ok model.
Proof.
  intros Hl Hrun. rewrite extract_one_eq in Hrun.
  erewrite bind_ok in Hrun by (apply read_ok; simpl; rewrite Hl; reflexivity).
  destruct (length d =? 0)%nat; [discriminate|].
  destruct (dict_get model_name d) as [v|] eqn:Hk.
  - destruct v as [| | | |lm];
      try (unfold merge_scope, bind, read, write in Hrun; simpl in Hrun;
           rewrite Hl, Hk in Hrun; simpl in Hrun; discriminate).
    destruct (store w !! lm) as [[vs|dm]|] eqn:Hm;
      try (unfold merge_scope, bind, read, write in Hrun; simpl in Hrun;
           rewrite Hl, Hk in Hrun; simpl in Hrun; rewrite Hm in Hrun; discriminate).
    exists lm, dm. split; [reflexivity|]. split; [exact Hm|].
    unfold bind at 1 in Hrun.
    rewrite (merge_scope_dict model_name w l d lm dm Hl Hk Hm) in Hrun.
    destruct (Model.fill _ []) as [m|e]; [|discriminate].
    unfold ret in Hrun. injection Hrun as <- <-. split; reflexivity.
  - unfold bind at 1 in Hrun.
    rewrite (merge_scope_missing model_name w l d Hl Hk) in Hrun. discriminate.
Qed.

(** ** What extraction changes *)

Section Frame.
Context (model_name : string).

Lemma frame_refl h : frame model_name h h.
Proof.
  split; [reflexivity|]. intros x. split; [reflexivity|]. split; [auto|].
  intros d Hd. exists d. auto.
Qed.

Lemma frame_primary h h' x :
  frame model_name h h' -> primary model_name h' x -> primary model_name h x.
Proof.
  intros [Hlen Hf] (p & dp & Hp & Hk).
  destruct (h !! p) as [[vs|d]|] eqn:Hhp.
  - destruct (Hf p) as (_ & Hlist & _). rewrite (Hlist vs Hhp) in Hp. discriminate.
  - destruct (Hf p) as (_ & _ & Hdict). destruct (Hdict d Hhp) as (d' & Hd' & Hn & _).
    rewrite Hp in Hd'. injection Hd' as <-. exists p, d. split; [exact Hhp|].
    now rewrite <- Hn.
  - apply lookup_ge_None in Hhp. apply lookup_lt_Some in Hp. lia.
Qed.

Lemma frame_trans h1 h2 h3 :
  frame model_name h1 h2 -> frame model_name h2 h3 -> frame model_name h1 h3.
Proof.
  intros H12 H23. pose proof H12 as [Hlen12 Hf12]. pose proof H23 as [Hlen23 Hf23].
  split; [congruence|]. intros x.
  destruct (Hf12 x) as (Hn12 & Hl12 & Hd12). destruct (Hf23 x) as (Hn23 & Hl23 & Hd23).
  split; [|split].
  - intros Hnp. rewrite Hn23; [now apply Hn12|].
    intros Hp. apply Hnp. now apply (frame_primary h1 h2).
  - intros vs Hvs. auto.
  - intros d Hd. destruct (Hd12 d Hd) as (d2 & Hd2 & Hk2 & Hs2).
    destruct (Hd23 d2 Hd2) as (d3 & Hd3 & Hk3 & Hs3).
    exists d3. split; [exact Hd3|]. split; [congruence | auto].
Qed.

Lemma relative_scopes_no_name items :
  model_name ∉ dict_keys (relative_scopes model_name items).
Proof.
  unfold relative_scopes, dict_of_pairs.
  assert (Hgen : forall (o acc : dict val),
             model_name ∉ dict_keys acc ->
             Forall (fun kv => fst kv <> model_name) o ->
             model_name ∉ dict_keys (dict_update acc o)).
  { induction o as [|[k v] o IH]; intros acc Hacc Ho; [exact Hacc|].
    apply Forall_cons in Ho as [Hk Ho]. simpl in Hk.
    rewrite dict_update_cons. apply IH; [|exact Ho].
    destruct (decide (k ∈ dict_keys acc)) as [Hi|Hout].
    - now rewrite dict_set_keys_in.
    - rewrite dict_set_fresh by exact Hout. unfold dict_keys. rewrite map_app.
      rewrite elem_of_app. intros [H|H]; [now apply Hacc|].
      simpl in H. apply list_elem_of_singleton in H. congruence. }
  apply Hgen; [apply not_elem_of_nil|].
  apply Forall_forall. intros [k v] Hin.
  apply list_elem_of_In, List.filter_In in Hin as [_ Hne].
  simpl in *. destruct (String.eqb_spec k model_name); [discriminate | assumption].
Qed.

(** The single change the merge makes. *)
Lemma frame_merge h s ds lm dm :
  h !! s = Some (ODict ds) ->
  dict_get model_name ds = Some (VRef lm) ->
  h !! lm = Some (ODict dm) ->
  frame model_name h
        (<[lm := ODict (dict_update dm (relative_scopes model_name ds))]> h).
Proof.
  intros Hs Hk Hm. split; [apply length_insert|]. intros x.
  destruct (decide (x = lm)) as [->|Hne].
  - split; [|split].
    + intros Hnp. exfalso. apply Hnp. now exists s, ds.
    + intros vs Hvs. congruence.
    + intros d Hd. rewrite Hm in Hd. injection Hd as <-.
      eexists. split; [apply list_lookup_insert_eq; eapply lookup_lt_Some; eassumption|].
      split.
      * apply dict_get_update_out, relative_scopes_no_name.
      * intros k. apply dict_update_keys_incl.
  - rewrite list_lookup_insert_ne by congruence.
    split; [reflexivity|]. split; [auto|]. intros d Hd. exists d. auto.
Qed.

(** [Model.__init__] only reads. *)
Lemma readonly_Model_init v : readonly (Model.__init__ v).
Proof.
  unfold Model.__init__. apply readonly_bind; [apply readonly_read|].
  intros [|]; simpl; [|apply readonly_raise].
  apply readonly_bind; [apply readonly_read | intros; apply readonly_lift].
Qed.

Lemma merge_scope_world v w :
  snd (merge_scope v model_name w) = w \/
  exists s ds lm dm,
    v = VRef s /\ store w !! s = Some (ODict ds) /\
    dict_get model_name ds = Some (VRef lm) /\ store w !! lm = Some (ODict dm) /\
    snd (merge_scope v model_name w) =
    set_store (<[lm := ODict (dict_update dm (relative_scopes model_name ds))]> (store w))
              w.
Proof.
  destruct v as [| | | |s];
    try (left; unfold merge_scope, bind, read; reflexivity).
  destruct (store w !! s) as [[vs|ds]|] eqn:Hs;
    try (left; unfold merge_scope, bind, read; simpl; rewrite Hs; reflexivity).
  destruct (dict_get model_name ds) as [v|] eqn:Hk;
    [|left; now rewrite (merge_scope_missing model_name w s ds Hs Hk)].
  assert (Hstuck : forall e,
             py_update (store w) v (relative_scopes model_name ds) = Raise e ->
             snd (merge_scope (VRef s) model_name w) = w).
  { intros e He. unfold merge_scope.
    erewrite bind_ok by (apply read_ok; simpl; rewrite Hs; reflexivity).
    erewrite bind_ok by (apply read_ok; simpl; rewrite Hs, Hk; reflexivity).
    unfold bind, write. now rewrite He. }
  destruct v as [| | | |lm]; try (left; now apply (Hstuck AttributeError)).
  destruct (store w !! lm) as [[vs|dm]|] eqn:Hm.
  - left. apply (Hstuck AttributeError). simpl. now rewrite Hm.
  - right. exists s, ds, lm, dm. repeat (split; [reflexivity || assumption|]).
    now rewrite (merge_scope_dict model_name w s ds lm dm Hs Hk Hm).
  - left. apply (Hstuck SystemError). simpl. now rewrite Hm.
Qed.

Lemma world_frame_refl w : world_frame model_name w w.
Proof. split; [apply frame_refl | auto]. Qed.

Lemma world_frame_trans w1 w2 w3 :
  world_frame model_name w1 w2 -> world_frame model_name w2 w3 ->
  world_frame model_name w1 w3.
Proof.
  intros (Hf12 & ? & ? & ?) (Hf23 & ? & ? & ?).
  split; [now apply frame_trans with (store w2) | repeat split; congruence].
Qed.

Lemma merge_scope_frame v w :
  world_frame model_name w (snd (merge_scope v model_name w)).
Proof.
  destruct (merge_scope_world v w) as [-> | (s & ds & lm & dm & _ & Hs & Hk & Hm & ->)].
  - apply world_frame_refl.
  - split; [|auto]. simpl. now apply frame_merge with s.
Qed.

Lemma readonly_frame {A} (m : M A) w :
  readonly m -> world_frame model_name w (snd (m w)).
Proof. intros H. rewrite H. apply world_frame_refl. Qed.

Lemma bind_frame {A B} (m : M A) (k : A -> M B) w :
  world_frame model_name w (snd (m w)) ->
  (forall a w1, world_frame model_name w1 (snd (k a w1))) ->
  world_frame model_name w (snd (bind m k w)).
Proof.
  intros Hm Hk. unfold bind. destruct (m w) as [[a|e] w1]; simpl in *; [|exact Hm].
  apply world_frame_trans with w1; [exact Hm | apply Hk].
Qed.

Lemma extract_one_frame data w :
  world_frame model_name w (snd (Mapper.extract_one data model_name w)).
Proof.
  rewrite extract_one_eq. apply bind_frame; [apply readonly_frame, readonly_read|].
  intros n w1. destruct (n =? 0)%nat; [apply world_frame_refl|].
  apply bind_frame; [apply merge_scope_frame | intros; apply world_frame_refl].
Qed.

Lemma extract_all_loop_frame todo : forall data size pos collection w,
  world_frame model_name w
    (snd (Mapper.extract_all_loop todo data model_name size pos collection w)).
Proof.
  induction todo as [|todo IH]; intros data size pos collection w;
    rewrite extract_all_loop_eq;
    (apply bind_frame; [apply readonly_frame, readonly_read|]);
    intros [[oid scope]|] w1; try apply world_frame_refl.
  apply bind_frame; [apply merge_scope_frame|]. intros model w2. apply IH.
Qed.

Lemma extract_all_frame data w :
  world_frame model_name w (snd (Mapper.extract_all data model_name w)).
Proof.
  unfold Mapper.extract_all. apply bind_frame; [apply readonly_frame, readonly_read|].
  intros n w1. destruct (n =? 0)%nat; [apply world_frame_refl|].
  apply bind_frame; [apply readonly_frame, readonly_read|]. intros items w2.
  apply bind_frame; [apply extract_all_loop_frame | intros; apply world_frame_refl].
Qed.
End Frame.

(** ** Well-formed stores *)

Lemma wf_store_snoc h o :
  wf_store h -> (forall d, o = ODict d -> NoDup (dict_keys d)) -> wf_store (h ++ [o]).
Proof.
  intros Hh Ho l d Hl. apply lookup_app_Some in Hl as [Hl | [_ Hl]].
  - now apply (Hh l).
  - apply list_lookup_singleton_Some in Hl as [_ ->]. now apply Ho.
Qed.

Lemma wf_store_insert h l d :
  wf_store h -> NoDup (dict_keys d) -> wf_store (<[l := ODict d]> h).
Proof.
  intros Hh Hd x dx Hx. destruct (decide (l = x)) as [->|Hne].
  - destruct (decide (x < length h)%nat) as [Hlt|Hge].
    + rewrite list_lookup_insert_eq in Hx by exact Hlt. now injection Hx as <-.
    + rewrite list_insert_ge in Hx by lia. now apply (Hh x).
  - rewrite list_lookup_insert_ne in Hx by exact Hne. now apply (Hh x).
Qed.

(** Decoding keeps the store well formed. *)
Lemma decode_wf j : forall h, wf_store h -> wf_store (snd (decode j h)).
Proof.
  induction j as [| b | n | s | js IH | kvs IH] using json_ind'; intros h Hh;
    try exact Hh.
  - rewrite decode_list.
    assert (Hitems : wf_store (snd (decode_items js h))).
    { revert h Hh. induction IH as [|j js Hj _ IHjs]; intros h Hh; [exact Hh|].
      simpl. specialize (Hj h Hh). destruct (decode j h) as [v h1]. simpl in Hj.
      specialize (IHjs h1 Hj). now destruct (decode_items js h1). }
    destruct (decode_items js h) as [vs h1]. simpl in *.
    apply wf_store_snoc; [exact Hitems | discriminate].
  - rewrite decode_dict.
    assert (Hpairs : forall d, NoDup (dict_keys d) ->
               wf_store (snd (decode_pairs kvs d h)) /\
               NoDup (dict_keys (fst (decode_pairs kvs d h)))).
    { revert h Hh. induction IH as [|[k j] kvs Hj _ IHkvs]; intros h Hh d Hd;
        [now split|].
      simpl. simpl in Hj. specialize (Hj h Hh). destruct (decode j h) as [v h1].
      simpl in Hj. apply IHkvs; [exact Hj | now apply dict_set_NoDup]. }
    destruct (Hpairs [] (NoDup_nil_2 : NoDup (dict_keys (@nil (string * val))))) as [Hw Hd].
    destruct (decode_pairs kvs [] h) as [d h1]. simpl in *.
    apply wf_store_snoc; [exact Hw|]. now intros d' [= <-].
Qed.

Lemma wf_store_nil : wf_store [].
Proof. intros l d Hl. discriminate. Qed.

(** ** Bodies decoded into an empty store *)

Lemma decoded_represents body :
  represents (store (snd (decoded body))) (fst (decoded body)) body.
Proof.
  unfold decoded. pose proof (decode_represents body []) as H.
  now destruct (decode body []).
Qed.

Lemma decoded_wf body : wf_store (store (snd (decoded body))).
Proof.
  unfold decoded. pose proof (decode_wf body [] wf_store_nil) as H.
  now destruct (decode body []).
Qed.

(** ** Records and merged scopes *)

Lemma extract_one_merged (w w' : world) (l : loc) (d : dict val) (model_name : string)
    (model : Model.t) :
  wf_store (store w) ->
  store w !! l = Some (ODict d) ->
  Mapper.extract_one (VRef l) model_name w = (Ok (Some model), w') ->
  exists lm dm,
    dict_get model_name d = Some (VRef lm) /\
    store w !! lm = Some (ODict dm) /\
    store w' !! lm = Some (ODict (dict_update dm (relative_scopes model_name d))) /\
    coerced (dict_update dm (relative_scopes model_name d)) model.
Proof.
  intros Hwf Hl Hrun.
  destruct (extract_one_inv w w' l d model_name model Hl Hrun)
    as (lm & dm & Hk & Hm & -> & Hfill).
  exists lm, dm. split; [exact Hk|]. split; [exact Hm|]. split.
  - simpl. apply list_lookup_insert_eq. eapply lookup_lt_Some; eassumption.
  - apply fill_coerced; [|exact Hfill]. apply dict_update_NoDup. now apply (Hwf lm).
Qed.

Lemma extract_all_merged (w w' : world) (l : loc) (d : dict val) (model_name : string)
    (infos : list entry_info) (models : list Model.t) :
  wf_store (store w) ->
  store w !! l = Some (ODict d) ->
  Forall2 (entry_shape model_name (store w)) d infos ->
  separated l infos ->
  Mapper.extract_all (VRef l) model_name w = (Ok (Some models), w') ->
  Forall2 (fun info model =>
             store w' !! e_primary info = Some (ODict (merged_of model_name info)) /\
             coerced (merged_of model_name info) model)
          infos models.
Proof.
  intros Hwf Hl Hshape Hsep Hrun.
  assert (Hne : d <> []).
  { intros ->. unfold Mapper.extract_all, bind, read in Hrun. simpl in Hrun.
    rewrite Hl in Hrun. discriminate. }
  rewrite (extract_all_run model_name l d w infos Hl Hne Hshape Hsep) in Hrun.
  destruct (run_entries model_name infos (store w) []) as [[ms|e] h'] eqn:Hr;
    simpl in Hrun; [|discriminate].
  injection Hrun as <- <-.
  assert (Hlen : Forall (fun i => (e_primary i < length (store w))%nat) infos).
  { clear -Hshape. induction Hshape as [|en i d' infos' (_ & _ & _ & Hp) _ IH];
      constructor; [|exact IH]. eapply lookup_lt_Some; eassumption. }
  destruct (run_entries_ok model_name l infos _ _ _ _ Hsep Hlen Hr) as (ms' & -> & Hms).
  simpl. clear -Hms Hshape Hwf. revert d Hshape.
  induction Hms as [|info model infos' ms'' [Hfill Hp] _ IH]; intros d Hshape;
    [constructor|].
  apply Forall2_cons_inv_r in Hshape as (entry & d' & (_ & _ & _ & Hf) & Hrest & ->).
  constructor; [|now apply (IH d')].
  split; [exact Hp|]. apply fill_coerced; [|exact Hfill].
  apply dict_update_NoDup. now apply (Hwf (e_primary info)).
Qed.

Lemma coerced_other_key d model k v :
  coerced d model -> dict_get k d = Some v -> k <> "id" -> dict_get k model = Some v.
Proof.
  intros [_ H] Hk Hne. specialize (H k v Hk).
  destruct (String.eqb_spec k "id"); [congruence | exact H].
Qed.

Lemma coerced_id d model v :
  coerced d model -> dict_get "id" d = Some v ->
  exists n, py_int v = Ok n /\ dict_get "id" model = Some (VInt n).
Proof. intros [_ H] Hk. exact (H "id" v Hk). Qed.

Lemma set_store_same w : set_store (store w) w = w.
Proof. now destruct w. Qed.

Lemma relative_scopes_none (model_name : string) (d : dict val) :
  (forall k, k ∈ dict_keys d -> k = model_name) -> relative_scopes model_name d = [].
Proof.
  intros H. unfold relative_scopes.
  replace (List.filter _ d) with (@nil (string * val)); [reflexivity|].
  symmetry. induction d as [|[k v] d IH]; [reflexivity|]. simpl.
  rewrite (H k) by apply list_elem_of_here. rewrite String.eqb_refl. simpl.
  apply IH. intros k' Hk'. apply H. now apply list_elem_of_further.
Qed.

(** ** The bounds on the recursion are never reached *)

Lemma bind_ext_ok {A B} (m : M A) (k1 k2 : A -> M B) w :
  (forall a w', m w = (Ok a, w') -> k1 a w' = k2 a w') -> bind m k1 w = bind m k2 w.
Proof.
  intros H. unfold bind. destruct (m w) as [[a|e] w1]; [now apply H | reflexivity].
Qed.

(** The loop of [extract_all] stops by itself: entries beyond the size of
    the dictionary do not exist, so a larger [todo] changes nothing. *)
Lemma extract_all_loop_todo todo : forall extra data model_name size pos collection w,
  (size <= pos + todo)%nat ->
  Mapper.extract_all_loop (todo + extra) data model_name size pos collection w =
  Mapper.extract_all_loop todo data model_name size pos collection w.
Proof.
  induction todo as [|todo IH]; intros extra data model_name size pos collection w Hle;
    rewrite (extract_all_loop_eq (_ + extra)), (extract_all_loop_eq _ data);
    apply bind_ext_ok; intros next w1 Hnext.
  - assert (Hnone : next = None).
    { unfold Mapper.items_next, read in Hnext.
      destruct (py_items (store w) data) as [d|e]; [|discriminate].
      destruct (Nat.eqb_spec (length d) size) as [Hsz|]; [|discriminate].
      injection Hnext as <- _. apply lookup_ge_None. lia. }
    subst next. reflexivity.
  - destruct next as [[oid scope]|]; [|reflexivity]. cbn [Nat.add].
    apply bind_ext. intros model w2. apply IH. lia.
Qed.

Section Fuel.
Context (ext : externals) (self : Api.t) (request : Request.t).

Lemma after_receipt_fuel fuel extra v w r :
  requests w !! request = Some r ->
  (Api.retry_count self - attempts r <= Z.of_nat fuel) ->
  (forall f w1, fuel = S f ->
      requests w1 !! request = Some r ->
      Api.send_request_aux (f + extra) ext self request w1 =
      Api.send_request_aux f ext self request w1) ->
  after_receipt (fuel + extra) ext self request v w =
  after_receipt fuel ext self request v w.
Proof.
  intros Hr Hle IH. unfold after_receipt. apply bind_ext_ok.
  intros failed w1 Hf.
  assert (w1 = w) as -> by (rewrite <- (readonly_failed_envelope v w); now rewrite Hf).
  destruct failed; [|reflexivity]. unfold try_except.
  destruct ((e <- Api.cast_error self v ;; raise e) w) as [[resp|e] w2] eqn:Hc;
    [reflexivity|].
  assert (w2 = w) as ->.
  { assert (Hro : readonly (e <- Api.cast_error self v ;; @raise Response.t e)).
    { apply readonly_bind; [apply readonly_cast_error | intros; apply readonly_raise]. }
    rewrite <- (Hro w). now rewrite Hc. }
  destruct (isinstance_APIUsageExceededRateLimit e); [|reflexivity].
  rewrite !(bind_ok _ _ _ _ _ (get_ok request w r Hr)).
  destruct (Z.ltb_spec 1 (Api.retry_count self)) as [H1|H1]; [|reflexivity].
  destruct (Z.ltb_spec (attempts r) (Api.retry_count self)) as [H2|H2]; [|reflexivity].
  cbn [andb]. destruct fuel as [|f]; [lia|]. cbn [Nat.add].
  rewrite !(bind_ok _ _ _ _ _ (log_ok self _ _)).
  unfold bind at 1 2. unfold emit at 1 2. cbn [fst snd].
  apply IH; [reflexivity | exact Hr].
Qed.

(** [send_request] never runs out of the calls it is allowed: with the
    fuel [send_request] gives, more fuel gives the same run. *)
Lemma send_request_aux_fuel fuel : forall extra w r,
  requests w !! request = Some r ->
  (Api.retry_count self - attempts r - 1 <= Z.of_nat fuel) ->
  Api.send_request_aux (fuel + extra) ext self request w =
  Api.send_request_aux fuel ext self request w.
Proof.
  induction fuel as [|fuel IH]; intros extra w r Hr Hle.
  all: destruct (net ext (sent w) (url r)) as [status_code [body|]|what] eqn:Hnet.
  all: try (rewrite !(attempt_received ext self request _ w r status_code body Hr Hnet);
            apply (after_receipt_fuel _ extra _ _ (attempted r));
            [apply received_lookup; exact Hr | simpl; lia |]).
  all: try (intros f w1 Hf Hr1; try discriminate; injection Hf as <-;
            apply (IH extra w1 (attempted r) Hr1); simpl; lia).
  all: try (now rewrite !(attempt_not_json ext self request _ w r status_code Hr Hnet)).
  all: now rewrite !(attempt_no_answer ext self request _ w r what Hr Hnet).
Qed.

Lemma send_request_fuel extra w r :
  requests w !! request = Some r ->
  Api.send_request ext self request w =
  Api.send_request_aux (Z.to_nat (Api.retry_count self - attempts r - 1) + extra)
                       ext self request w.
Proof.
  intros Hr. unfold Api.send_request. rewrite (bind_ok _ _ _ _ _ (get_ok request w r Hr)).
  symmetry. apply (send_request_aux_fuel _ extra w r Hr). lia.
Qed.
End Fuel.

(** [repr] never runs out of levels: a path of containers that are being
    printed has no container twice, so it is at most as long as the
    store. *)
Lemma stack_bound (h : heap) (stack : list loc) :
  NoDup stack -> (forall x, x ∈ stack -> (x < length h)%nat) ->
  (length stack <= length h)%nat.
Proof.
  intros Hnd Hlt.
  assert (Hsub : stack ⊆+ seq 0%nat (length h)).
  { apply NoDup_submseteq; [exact Hnd|].
    intros x Hx. apply elem_of_seq. specialize (Hlt x Hx). lia. }
  apply submseteq_length in Hsub. now rewrite length_seq in Hsub.
Qed.

Lemma py_repr_aux_fuel (h : heap) fuel : forall extra stack v,
  NoDup stack -> (forall x, x ∈ stack -> (x < length h)%nat) ->
  (length h <= fuel + length stack)%nat ->
  py_repr_aux (fuel + extra) h stack v = py_repr_aux fuel h stack v.
Proof.
  induction fuel as [|fuel IH]; intros extra stack v Hnd Hlt Hle.
  - destruct v as [| | | |l]; try (destruct extra; reflexivity).
    destruct (h !! l) as [o|] eqn:Hl; [|destruct extra; simpl; now rewrite Hl].
    destruct (decide (l ∈ stack)) as [Hin|Hout].
    + destruct extra; simpl; rewrite Hl; now rewrite bool_decide_eq_true_2.
    + exfalso. assert (Hb : (length (l :: stack) <= length h)%nat).
      { apply stack_bound; [now constructor|]. intros x Hx.
        apply elem_of_cons in Hx as [->|Hx]; [eapply lookup_lt_Some; eassumption|auto]. }
      simpl in Hb, Hle. lia.
  - destruct v as [| | | |l]; try reflexivity. cbn [Nat.add py_repr_aux].
    destruct (h !! l) as [o|] eqn:Hl; [|reflexivity].
    destruct (decide (l ∈ stack)) as [Hin|Hout].
    + now rewrite bool_decide_eq_true_2.
    + rewrite bool_decide_eq_false_2 by exact Hout.
      assert (Hrec : forall x, py_repr_aux (fuel + extra) h (l :: stack) x =
                               py_repr_aux fuel h (l :: stack) x).
      { intros x. apply IH; [now constructor | | simpl; lia].
        intros y Hy. apply elem_of_cons in Hy as [->|Hy];
          [eapply lookup_lt_Some; eassumption | auto]. }
      destruct o as [vs|d]; do 3 f_equal.
      * apply map_ext. exact Hrec.
      * apply map_ext. intros [k x]. simpl. now rewrite Hrec.
Qed.

Lemma py_repr_fuel (h : heap) extra v :
  py_repr_aux (length h + extra) h [] v = py_repr h v.
Proof.
  apply py_repr_aux_fuel; [constructor | | lia].
  intros x Hx. now apply elem_of_nil in Hx.
Qed.

(** ** A decoded body is a tree *)

Lemma decode_pairs_extends kvs : forall acc h,
  exists ext, snd (decode_pairs kvs acc h) = h ++ ext.
Proof.
  induction kvs as [|[k j] kvs IH]; intros acc h.
  - exists []. simpl. now rewrite app_nil_r.
  - simpl. destruct (decode_extends j h) as [e He].
    destruct (decode j h) as [v h1]. simpl in He. subst h1.
    destruct (IH (dict_set k v acc) (h ++ e)) as [e2 He2].
    exists (e ++ e2). rewrite He2, <- app_assoc. reflexivity.
Qed.

(** The dictionaries that decoding adds refer to objects added before
    them by the same decoding. *)
Lemma decode_new_refs j : forall h,
  (forall y, fst (decode j h) = VRef y ->
     (length h <= y < length (snd (decode j h)))%nat) /\
  (forall p d k y,
     (length h <= p)%nat ->
     snd (decode j h) !! p = Some (ODict d) ->
     dict_get k d = Some (VRef y) ->
     (length h <= y < p)%nat).
Proof.
  induction j as [| b | n | s | js IH | kvs IH] using json_ind'; intros h;
    try (split; [discriminate|];
         intros p d k y Hp Hl; apply lookup_lt_Some in Hl; simpl in Hl; lia).
  - rewrite decode_list.
    assert (Hitems : forall p d k y,
               (length h <= p)%nat ->
               snd (decode_items js h) !! p = Some (ODict d) ->
               dict_get k d = Some (VRef y) ->
               (length h <= y < p)%nat).
    { revert h. induction IH as [|j js Hj _ IHjs]; intros h p d k y Hp Hl Hk.
      - simpl in Hl. apply lookup_lt_Some in Hl. lia.
      - simpl in Hl. destruct (Hj h) as [_ Hnew].
        destruct (decode_extends j h) as [e1 He1].
        destruct (decode j h) as [v h1]. simpl in He1, Hnew. subst h1.
        destruct (decode_items_extends js (h ++ e1)) as [e2 He2].
        specialize (IHjs (h ++ e1) p d k y).
        destruct (decode_items js (h ++ e1)) as [vs h2]. simpl in *. subst h2.
        destruct (decide (p < length (h ++ e1))%nat) as [Hlt|Hge].
        + rewrite lookup_app_l in Hl by exact Hlt. eapply Hnew; eassumption.
        + rewrite length_app in *. assert (length h + length e1 <= y < p)%nat; [|lia].
          apply IHjs; [lia | exact Hl | exact Hk]. }
    destruct (decode_items_extends js h) as [e He].
    destruct (decode_items js h) as [vs h1]. simpl in *. subst h1. split.
    + intros y [= <-]. rewrite !length_app. simpl. lia.
    + intros p d k y Hp Hl Hk. apply lookup_app_Some in Hl as [Hl | [_ Hl]].
      * eapply Hitems; eassumption.
      * apply list_lookup_singleton_Some in Hl as [_ Hl]. discriminate.
  - rewrite decode_dict.
    assert (Hpairs : forall acc lo,
               (lo <= length h)%nat ->
               (forall k y, dict_get k acc = Some (VRef y) -> (lo <= y < length h)%nat) ->
               (forall k y, dict_get k (fst (decode_pairs kvs acc h)) = Some (VRef y) ->
                  (lo <= y < length (snd (decode_pairs kvs acc h)))%nat) /\
               (forall p d k y,
                  (length h <= p)%nat ->
                  snd (decode_pairs kvs acc h) !! p = Some (ODict d) ->
                  dict_get k d = Some (VRef y) ->
                  (length h <= y < p)%nat)).
    { revert h. induction IH as [|[k0 j] kvs Hj _ IHkvs]; intros h acc lo Hlo Hacc.
      - simpl. split; [exact Hacc|]. intros p d k y Hp Hl.
        apply lookup_lt_Some in Hl. lia.
      - simpl. simpl in Hj. destruct (Hj h) as [Hroot Hnew].
        destruct (decode_extends j h) as [e1 He1].
        destruct (decode j h) as [v h1]. simpl in He1, Hroot, Hnew. subst h1.
        destruct (IHkvs (h ++ e1) (dict_set k0 v acc) lo) as [Hfst Hsnd].
        { rewrite length_app. lia. }
        { intros k y. rewrite dict_get_set. destruct (String.eqb k k0).
          - intros [= ->]. specialize (Hroot y eq_refl). lia.
          - intros Hk. specialize (Hacc k y Hk). rewrite length_app. lia. }
        split; [exact Hfst|]. intros p d k y Hp Hl Hk.
        destruct (decide (p < length (h ++ e1))%nat) as [Hlt|Hge].
        + destruct (decode_pairs_extends kvs (dict_set k0 v acc) (h ++ e1)) as [e2 He2].
          rewrite He2 in Hl.
          rewrite lookup_app_l in Hl by exact Hlt. eapply Hnew; eassumption.
        + rewrite length_app in *.
          assert (length h + length e1 <= y < p)%nat; [|lia].
          eapply Hsnd; [|exact Hl|exact Hk]. lia. }
    destruct (Hpairs [] (length h)) as [Hfst Hsnd]; [lia | discriminate |].
    assert (Hext : (length h <= length (snd (decode_pairs kvs [] h)))%nat).
    { destruct (decode_pairs_extends kvs [] h) as [e ->]. rewrite length_app. lia. }
    destruct (decode_pairs kvs [] h) as [d h1]. simpl in *. split.
    + intros y [= <-]. rewrite length_app. simpl. lia.
    + intros p d' k y Hp Hl Hk. apply lookup_app_Some in Hl as [Hl | [Hge Hl]].
      * eapply Hsnd; eassumption.
      * apply list_lookup_singleton_Some in Hl as [Hp0 [= <-]].
        specialize (Hfst k y Hk). lia.
Qed.

Lemma ordered_weaken lo lo' infos :
  (lo' <= lo)%nat -> ordered lo infos -> ordered lo' infos.
Proof.
  destruct infos as [|i rest]; [trivial|]. simpl. intros Hle [Hb Hrest].
  split; [lia | exact Hrest].
Qed.

Lemma ordered_bounds infos : forall lo,
  ordered lo infos ->
  Forall (fun i => (lo <= e_primary i < e_scope i)%nat) infos.
Proof.
  induction infos as [|i rest IH]; intros lo; [constructor|].
  simpl. intros [Hb Hrest]. constructor; [exact Hb|].
  eapply Forall_impl; [apply (IH _ Hrest)|]. simpl. intros j Hj. lia.
Qed.

Lemma ordered_separated l infos : forall lo,
  ordered lo infos ->
  Forall (fun i => (e_scope i < l)%nat) infos ->
  separated l infos.
Proof.
  induction infos as [|i rest IH]; intros lo Hord Hlt; [exact I|].
  simpl in Hord. destruct Hord as [Hb Hrest]. apply Forall_cons in Hlt as [Hi Hlt].
  simpl. split; [lia|]. split; [|now apply (IH _ Hrest)].
  eapply Forall_impl; [apply (ordered_bounds _ _ Hrest)|]. simpl. intros j Hj. lia.
Qed.

Lemma entry_shape_extends model_name h ext entry info :
  entry_shape model_name h entry info -> entry_shape model_name (h ++ ext) entry info.
Proof.
  intros (He & Hs & Hk & Hp). unfold entry_shape.
  rewrite !(lookup_app_l_Some _ _ _ _ Hs), !(lookup_app_l_Some _ _ _ _ Hp). auto.
Qed.

Lemma decode_pairs_shapes (model_name : string) entries : forall acc h,
  NoDup (dict_keys acc ++ map fst entries) ->
  Forall (object_json model_name) entries ->
  exists added infos,
    fst (decode_pairs entries acc h) = acc ++ added /\
    Forall2 (entry_shape model_name (snd (decode_pairs entries acc h))) added infos /\
    ordered (length h) infos /\
    Forall (fun i => (e_scope i < length (snd (decode_pairs entries acc h)))%nat) infos.
Proof.
  induction entries as [|[k j] entries IH]; intros acc h Hnd Hobj.
  - exists [], []. simpl. rewrite app_nil_r. repeat split; constructor.
  - apply Forall_cons in Hobj as [(scope & fields & Hj & Hname) Hobj].
    simpl in Hj. cbn [decode_pairs].
    pose proof (decode_represents j h) as Hrep.
    pose proof (decode_new_refs j h) as [Hroot Hnew].
    destruct (decode j h) as [v h1]. cbn [fst snd] in Hrep, Hroot, Hnew. subst j.
    inversion Hrep as [| | | | |s ds kvs Hs Hrel]; subst.
    pose proof (dict_rel_get (represents h1) model_name _ _ Hrel) as Hget.
    rewrite Hname in Hget. destruct Hget as (vm & Hvm & Hrm).
    inversion Hrm as [| | | | |lm dm kvs Hm _]; subst.
    assert (Hk : k ∉ dict_keys acc).
    { apply NoDup_app in Hnd as (_ & Hd & _). intros Hin. apply (Hd k Hin).
      apply list_elem_of_here. }
    rewrite dict_set_fresh by exact Hk.
    destruct (IH (acc ++ [(k, VRef s)]) h1) as (added & infos & Hfst & Hshape & Hord & Hlt).
    { unfold dict_keys in *. rewrite map_app, <- app_assoc. exact Hnd. }
    { exact Hobj. }
    destruct (decode_pairs_extends entries (acc ++ [(k, VRef s)]) h1) as [e He].
    exists ((k, VRef s) :: added), (EntryInfo s ds lm dm :: infos).
    split; [rewrite Hfst, <- app_assoc; reflexivity|].
    specialize (Hroot s eq_refl).
    assert (Hlm : (length h <= lm < s)%nat).
    { apply (Hnew s ds model_name lm); [lia | exact Hs | exact Hvm]. }
    split; [|split].
    + constructor; [|exact Hshape]. rewrite He.
      apply entry_shape_extends. repeat split; assumption.
    + simpl. split; [exact Hlm|]. apply (ordered_weaken (length h1)); [lia | exact Hord].
    + constructor; [|exact Hlt]. simpl. rewrite He, length_app. lia.
Qed.

(** The conditions of the statements about [extract_all] hold for a body
    that is a JSON object of objects, each with the primary scope. *)
Lemma decoded_separated (model_name : string) (entries : list (string * json))
    (h : heap) :
  NoDup (map fst entries) ->
  Forall (object_json model_name) entries ->
  exists l d infos,
    fst (decode (JDict entries) h) = VRef l /\
    snd (decode (JDict entries) h) !! l = Some (ODict d) /\
    Forall2 (entry_shape model_name (snd (decode (JDict entries) h))) d infos /\
    separated l infos.
Proof.
  intros Hnd Hobj. rewrite decode_dict.
  destruct (decode_pairs_shapes model_name entries [] h Hnd Hobj)
    as (added & infos & Hfst & Hshape & Hord & Hlt).
  destruct (decode_pairs entries [] h) as [d h1]. simpl in *. subst d.
  exists (length h1), added, infos. split; [reflexivity|].
  split; [apply list_lookup_middle; reflexivity|].
  split.
  - eapply Forall2_impl; [exact Hshape|]. intros. now apply entry_shape_extends.
  - now apply (ordered_separated _ _ (length h)).
Qed.

(** [extract_all] on a decoded JSON object of objects with the primary
    scope: every record is made from the merged primary scope of its
    object, which is in the store afterwards. *)
Lemma extract_all_decoded (model_name : string) (entries : list (string * json))
    (w w' : world) (models : list Model.t) :
  wf_store (store w) ->
  NoDup (map fst entries) ->
  Forall (object_json model_name) entries ->
  Mapper.extract_all (fst (decode (JDict entries) (store w))) model_name
                     (set_store (snd (decode (JDict entries) (store w))) w)
  = (Ok (Some models), w') ->
  exists infos,
    length infos = length entries /\
    Forall2 (fun info model =>
               store w' !! e_primary info = Some (ODict (merged_of model_name info)) /\
               coerced (merged_of model_name info) model /\
               forall k sibling,
                 dict_get k (e_items info) = Some sibling -> k <> model_name ->
                 dict_get k (merged_of model_name info) = Some sibling)
            infos models.
Proof.
  intros Hwf Hnd Hobj Hrun.
  destruct (decoded_separated model_name entries (store w) Hnd Hobj)
    as (l & d & infos & Hv & Hl & Hshape & Hsep).
  pose proof (decode_wf (JDict entries) (store w) Hwf) as Hwf'.
  pose proof (decode_represents (JDict entries) (store w)) as Hrep.
  destruct (decode (JDict entries) (store w)) as [v h1].
  cbn [fst snd] in *. subst v.
  pose proof (extract_all_merged (set_store h1 w) w' l d model_name infos models
                Hwf' Hl Hshape Hsep Hrun) as Hm.
  exists infos. split.
  - apply Forall2_length in Hshape. rewrite <- Hshape.
    inversion Hrep as [| | | | |l' d' kvs Hl' Hrel]; subst.
    rewrite Hl in Hl'. injection Hl' as <-.
    apply Forall2_length in Hrel. rewrite Hrel.
    now rewrite (dict_of_pairs_id entries Hnd).
  - clear -Hm Hshape Hwf'. revert d Hshape.
    induction Hm as [|info model infos' ms [Hp Hc] _ IH]; intros d Hshape; [constructor|].
    apply Forall2_cons_inv_r in Hshape as (entry & d' & (_ & Hs & _ & _) & Hrest & ->).
    constructor; [|now apply (IH d')].
    split; [exact Hp|]. split; [exact Hc|].
    intros k sibling Hk Hne. apply merged_sibling; [|exact Hk|exact Hne].
    now apply (Hwf' (e_scope info)).
Qed.

(** * More facts *)

Lemma raises_builtin_ret {A} (a : A) : raises_builtin (ret a).
Proof. intros w e w' H. discriminate. Qed.

Lemma raises_builtin_bind {A B} (m : M A) (k : A -> M B) :
  raises_builtin m -> (forall a, raises_builtin (k a)) -> raises_builtin (bind m k).
Proof.
  intros Hm Hk w e w' H. unfold bind in H.
  destruct (m w) as [[a|e0] w1] eqn:E.
  - eapply Hk; eassumption.
  - injection H as <- <-. eapply Hm; eassumption.
Qed.

Lemma raises_builtin_py_or (a b : M bool) :
  raises_builtin a -> raises_builtin b -> raises_builtin (py_or a b).
Proof.
  intros Ha Hb. apply raises_builtin_bind; [exact Ha|].
  intros [|]; [apply raises_builtin_ret | exact Hb].
Qed.

Lemma raises_builtin_contains needle v :
  raises_builtin (read (fun h => py_contains h needle v)).
Proof.
  intros w e w' H. unfold read, py_contains in H.
  destruct v as [| | | |l]; try (injection H as <- <-; reflexivity); try discriminate.
  destruct (store w !! l) as [[|]|]; try discriminate.
  now injection H as <- <-.
Qed.

Lemma raises_builtin_getitem v k :
  raises_builtin (read (fun h => py_getitem h v k)).
Proof.
  intros w e w' H. unfold read, py_getitem in H.
  destruct v as [| | | |l]; try (injection H as <- <-; reflexivity).
  destruct (store w !! l) as [[|d]|]; try (injection H as <- <-; reflexivity).
  destruct (dict_get k d); [discriminate|]. now injection H as <- <-.
Qed.

Lemma raises_builtin_field v name : raises_builtin (Response.field v name).
Proof.
  apply raises_builtin_bind; [apply raises_builtin_getitem|].
  intros a. apply raises_builtin_getitem.
Qed.

Lemma raises_builtin_failed_envelope v : raises_builtin (Api.failed_envelope v).
Proof.
  unfold Api.failed_envelope.
  repeat first
    [ apply raises_builtin_py_or
    | apply raises_builtin_bind; [|intros ?]
    | apply raises_builtin_ret
    | apply raises_builtin_contains
    | apply raises_builtin_getitem
    | apply raises_builtin_field ].
Qed.

Lemma raises_builtin_no_shape v : raises_builtin (Api.no_shape v).
Proof.
  unfold Api.no_shape.
  repeat first
    [ apply raises_builtin_py_or
    | apply raises_builtin_bind; [|intros ?]
    | apply raises_builtin_ret
    | apply raises_builtin_contains
    | apply raises_builtin_getitem ].
Qed.

Lemma raises_builtin_cast_error self v : raises_builtin (Api.cast_error self v).
Proof.
  unfold Api.cast_error.
  apply raises_builtin_bind; [apply raises_builtin_no_shape|].
  intros [|].
  - intros w e w' H. discriminate.
  - apply raises_builtin_bind; [apply raises_builtin_field|]. intros m.
    apply raises_builtin_bind; [apply raises_builtin_contains|]. intros [|];
      (apply raises_builtin_bind; [apply raises_builtin_field|]; intros ?;
       apply raises_builtin_ret).
Qed.

Lemma raises_builtin_Response_init request v :
  raises_builtin (Response.__init__ request v).
Proof.
  unfold Response.__init__.
  repeat (apply raises_builtin_bind; [apply raises_builtin_field|]; intros ?).
  apply raises_builtin_ret.
Qed.

Lemma Response_init_inv request v w resp w' :
  Response.__init__ request v w = (Ok resp, w') ->
  Response.request resp = request /\ Response.json_response resp = v.
Proof.
  unfold Response.__init__, bind, ret.
  repeat (match goal with
          | |- context [Response.field ?a ?b ?c] =>
              destruct (Response.field a b c) as [[?|?] ?]
          end; [|discriminate]).
  intros [= <- _]. split; reflexivity.
Qed.

Section EnvelopeInv.
Context (self : Api.t) (w : world) (v : val) (body : json).
Hypothesis Hv : represents (store w) v body.

Lemma failed_envelope_status_raise e :
  has_shape body -> json_field body "status" = Raise e ->
  Api.failed_envelope v w = (Raise e, w).
Proof.
  intros (Hc & r & Hr & Hs) Hst.
  pose proof (field_Raise w v body Hv _ _ Hst) as Hf.
  unfold Api.failed_envelope, py_or.
  erewrite bind_ok; cycle 1.
  { unfold bind, read, ret. rewrite (represents_contains _ _ _ "response" Hv), Hc.
    reflexivity. }
  simpl. erewrite bind_ok; cycle 1.
  { destruct (represents_getitem_Ok _ _ _ _ _ Hv Hr) as (vr & Hgr & Hvr).
    unfold bind, read, ret. rewrite Hgr, (represents_contains _ _ _ "status" Hvr), Hs.
    reflexivity. }
  simpl. now rewrite (bind_raise _ _ _ _ _ Hf).
Qed.

(** The envelope is taken for a success only when its status is 1. *)
Lemma failed_envelope_false w' :
  Api.failed_envelope v w = (Ok false, w') ->
  exists status, json_field body "status" = Ok status /\ json_eq_int status 1 = true.
Proof.
  intros H.
  destruct (no_shape_cases w v body Hv) as [[Hl _] | [[Hs _] | [e Hn]]].
  - rewrite (failed_envelope_lacks_shape w v body Hv Hl) in H. discriminate.
  - destruct (json_field body "status") as [status|e] eqn:Hst.
    + rewrite (failed_envelope_has_shape w v body Hv status Hs Hst) in H.
      exists status. split; [reflexivity|].
      injection H as H _. now destruct (json_eq_int status 1).
    + rewrite (failed_envelope_status_raise e Hs Hst) in H. discriminate.
  - exfalso. revert H Hn.
    unfold Api.failed_envelope, Api.no_shape, py_or, Response.field, bind, read, ret.
    destruct (py_contains (store w) "response" v) as [[|]|e1]; simpl; try discriminate.
    destruct (py_getitem (store w) v "response") as [vr|e2]; simpl; try discriminate.
    destruct (py_contains (store w) "status" vr) as [[|]|e3]; simpl; discriminate.
Qed.

(** An envelope with a status that is taken for a failure: the status is
    not 1. *)
Lemma failed_envelope_true w' :
  Api.failed_envelope v w = (Ok true, w') -> has_shape body -> failed_status body.
Proof.
  intros H Hs.
  destruct (json_field body "status") as [status|e] eqn:Hst.
  - rewrite (failed_envelope_has_shape w v body Hv status Hs Hst) in H.
    exists status. split; [exact Hst|].
    injection H as H _. now destruct (json_eq_int status 1).
  - rewrite (failed_envelope_status_raise e Hs Hst) in H. discriminate.
Qed.

(** The rate-limit class is the classification of no other body. *)
Lemma cast_error_limited_inv x w' :
  Api.cast_error self v w = (Ok (APIUsageExceededRateLimit x), w') ->
  has_shape body /\
  exists message,
    json_field body "errorMessage" = Ok message /\
    json_contains RATE_LIMIT message = Ok true /\
    represents (store w) x message.
Proof.
  intros Hx.
  destruct (no_shape_cases w v body Hv) as [[Hl Hn] | [[Hs Hn] | [e Hn]]].
  - rewrite (cast_error_lacks_shape self w v body Hv Hl) in Hx. discriminate.
  - split; [exact Hs|].
    destruct (json_field body "errorMessage") as [message|e] eqn:Hm.
    + exists message. split; [reflexivity|].
      destruct (json_contains RATE_LIMIT message) as [[|]|e] eqn:Hc.
      * destruct (cast_error_has_shape self w v body Hv message true Hs Hm Hc)
          as (y & Hy & Hcy). rewrite Hcy in Hx. injection Hx as <- _. now split.
      * destruct (cast_error_has_shape self w v body Hv message false Hs Hm Hc)
          as (y & _ & Hy). rewrite Hy in Hx. discriminate.
      * exfalso. destruct (field_Ok w v body Hv _ _ Hm) as (y & Hy & Hry).
        unfold Api.cast_error in Hx.
        rewrite (bind_ok _ _ _ _ _ Hn), (bind_ok _ _ _ _ _ Hy) in Hx.
        unfold bind at 1 in Hx. unfold read at 1 in Hx.
        rewrite (represents_contains _ _ _ _ Hry) in Hx.
        unfold RATE_LIMIT in Hc. rewrite Hc in Hx. discriminate.
    + rewrite (cast_error_no_message self w v body Hv e Hs Hm) in Hx. discriminate.
  - unfold Api.cast_error in Hx. rewrite (bind_raise _ _ _ _ _ Hn) in Hx.
    discriminate.
Qed.
End EnvelopeInv.

Section Run.
Context (ext : externals) (self : Api.t) (request : Request.t).

(** After the answer is decoded, [send_request] either stops there or
    goes for one more attempt after a rate-limit answer. *)
Lemma after_receipt_cases fuel v w r body :
  represents (store w) v body ->
  requests w !! request = Some r ->
  (snd (after_receipt fuel ext self request v w) = w /\
   (forall resp, fst (after_receipt fuel ext self request v w) = Ok resp ->
      Response.request resp = request /\ Response.json_response resp = v /\
      exists status, json_field body "status" = Ok status /\
                     json_eq_int status 1 = true) /\
   (forall x, fst (after_receipt fuel ext self request v w)
              = Raise (APIUsageExceededRateLimit x) ->
      ~ (1 < Api.retry_count self /\ attempts r < Api.retry_count self) /\
      exists message, rate_limited body message /\ represents (store w) x message)) \/
  (1 < Api.retry_count self /\ attempts r < Api.retry_count self /\
   (exists message, rate_limited body message) /\
   after_receipt fuel ext self request v w =
   match fuel with
   | S fuel' => Api.send_request_aux fuel' ext self request (slept self (attempts r) w)
   | O => (Raise RecursionError, slept self (attempts r) w)
   end).
Proof.
  intros Hv Hr.
  destruct (Api.failed_envelope v w) as [[failed|e] w0] eqn:Hf.
  2:{ left. pose proof (readonly_failed_envelope v w) as Hw. rewrite Hf in Hw.
      simpl in Hw. subst w0.
      pose proof (raises_builtin_failed_envelope v _ _ _ Hf) as He.
      unfold after_receipt. rewrite (bind_raise _ _ _ _ _ Hf). simpl.
      split; [reflexivity|]. split; [discriminate|].
      intros x [= ->]. discriminate. }
  pose proof (readonly_failed_envelope v w) as Hw. rewrite Hf in Hw.
  simpl in Hw. subst w0. destruct failed.
  - destruct (Api.cast_error self v w) as [[e|e] w0] eqn:Hc;
      pose proof (readonly_cast_error self v w) as Hw; rewrite Hc in Hw;
      simpl in Hw; subst w0.
    + destruct e as [a|x| | | | | | | | |];
        try (left;
             rewrite (after_receipt_other ext self request fuel v w _ Hf Hc eq_refl);
             simpl; split; [reflexivity|]; split; discriminate).
      destruct (cast_error_limited_inv self w v body Hv x w Hc)
        as (Hs & message & Hm & Hl & Hx).
      assert (Hlim : rate_limited body message).
      { split; [|split; assumption]. eapply failed_envelope_true; eassumption. }
      rewrite (after_receipt_limited ext self request fuel v w r x Hf Hc Hr).
      destruct ((1 <? Api.retry_count self) && (attempts r <? Api.retry_count self))%bool
        eqn:Hcond.
      * right. apply andb_true_iff in Hcond as [H1 H2].
        apply Z.ltb_lt in H1, H2. repeat split; eauto.
      * left. simpl. split; [reflexivity|]. split; [discriminate|].
        intros y [= <-]. split; [|eauto].
        intros [H1 H2]. apply Z.ltb_lt in H1, H2. rewrite H1, H2 in Hcond.
        discriminate.
    + left. pose proof (raises_builtin_cast_error self v _ _ _ Hc) as He.
      assert (Hrun : after_receipt fuel ext self request v w = (Raise e, w)).
      { unfold after_receipt. rewrite (bind_ok _ _ _ _ _ Hf). unfold try_except.
        rewrite (bind_raise _ _ _ _ _ Hc).
        destruct e; try reflexivity; discriminate. }
      rewrite Hrun. simpl. split; [reflexivity|]. split; [discriminate|].
      intros x [= ->]. discriminate.
  - left. rewrite (after_receipt_success ext self request fuel v w Hf).
    split; [apply readonly_Response_init|]. split.
    + intros resp Hresp.
      destruct (Response.__init__ request v w) as [res w0] eqn:Hi. simpl in Hresp.
      subst res. destruct (Response_init_inv _ _ _ _ _ Hi) as [H1 H2].
      split; [exact H1|]. split; [exact H2|].
      eapply failed_envelope_false; eassumption.
    + intros x Hx.
      destruct (Response.__init__ request v w) as [res w0] eqn:Hi. simpl in Hx.
      subst res. pose proof (raises_builtin_Response_init _ _ _ _ _ Hi). discriminate.
Qed.

Lemma attempts_wire_S u k :
  (1 <= k)%nat ->
  attempts_wire u (S k) = [EvGet u; EvSleep 250] ++ attempts_wire u k.
Proof. destruct k; [lia|reflexivity]. Qed.

Lemma run_of_one r w w1 t objs :
  requests w !! request = Some r ->
  sent w1 = S (sent w) ->
  requests w1 = <[request := attempted r]> (requests w) ->
  store w1 = store w ++ objs ->
  trace w1 = trace w ++ t ->
  logs_at (Api.level self) t ->
  wire t = [EvGet (url r)] ->
  run_of self request r 1 w w1.
Proof.
  intros Hr Hs Hq Hst Ht Hl Hw. unfold run_of.
  split; [lia|]. split; [rewrite Hq; reflexivity|]. split; [eauto|].
  exists t. auto.
Qed.

Lemma run_of_more r w w2 w' k :
  (1 <= k)%nat ->
  sent w2 = S (sent w) ->
  requests w2 = <[request := attempted r]> (requests w) ->
  (exists objs, store w2 = store w ++ objs) ->
  (exists t, trace w2 = trace w ++ t /\ logs_at (Api.level self) t /\
             wire t = [EvGet (url r); EvSleep 250]) ->
  run_of self request (attempted r) k w2 w' ->
  run_of self request r (S k) w w'.
Proof.
  intros Hk Hs Hq [objs Hst] (t & Ht & Hl & Hw) (Hs' & Hq' & [objs' Hst'] & t' & Ht' & Hl' & Hw').
  unfold run_of. split; [lia|]. split.
  { rewrite Hq', Hq, list_insert_insert_eq. unfold with_attempts, attempted. simpl.
    do 2 f_equal. lia. }
  split.
  { exists (objs ++ objs'). now rewrite Hst', Hst, app_assoc. }
  exists (t ++ t'). split; [now rewrite Ht', Ht, app_assoc|]. split.
  - apply Forall_app. split; assumption.
  - rewrite wire_app, Hw, Hw'. simpl url. now rewrite attempts_wire_S.
Qed.

(** Whatever the server answers. *)
Lemma send_request_aux_run fuel : forall w r,
  requests w !! request = Some r ->
  Api.retry_count self - attempts r - 1 <= Z.of_nat fuel ->
  exists k,
    (1 <= k)%nat /\
    (k = 1%nat \/ attempts r + Z.of_nat k <= Api.retry_count self) /\
    run_of self request r k w (snd (Api.send_request_aux fuel ext self request w)) /\
    retried_of ext r k w /\
    outcome_of ext self request r k
      (fst (Api.send_request_aux fuel ext self request w))
      (snd (Api.send_request_aux fuel ext self request w)).
Proof.
  induction fuel as [|fuel IH]; intros w r Hr Hfuel.
  all: destruct (net ext (sent w) (url r)) as [status_code [body|]|what] eqn:Hnet.
  all: try (rewrite (attempt_no_answer ext self request _ w r what Hr Hnet);
            exists 1%nat; split; [lia|]; split; [now left|]; split;
            [ eapply (run_of_one r w _ _ []); try reflexivity;
              [ exact Hr | simpl; now rewrite app_nil_r
              | repeat constructor ]
            | split; [intros i Hi; lia | split; discriminate] ]).
  all: try (rewrite (attempt_not_json ext self request _ w r status_code Hr Hnet);
            exists 1%nat; split; [lia|]; split; [now left|]; split;
            [ eapply (run_of_one r w _ _ []);
              [ exact Hr | reflexivity | reflexivity | simpl; now rewrite app_nil_r
              | simpl; rewrite <- app_assoc; reflexivity
              | repeat constructor | reflexivity ]
            | split; [intros i Hi; lia | split; discriminate] ]).
  all: rewrite (attempt_received ext self request _ w r status_code body Hr Hnet).
  all: set (w1 := received self request r status_code body w).
  all: set (v := fst (decode body (store w))).
  all: assert (Hv : represents (store w1) v body) by apply decode_represents.
  all: pose proof (received_lookup self request r status_code body w Hr) as Hr1.
  all: fold w1 in Hr1.
  all: assert (Hone : run_of self request r 1 w w1)
         by (destruct (decode_extends body (store w)) as [objs Hobjs];
             eapply (run_of_one r w w1 _ objs);
             [ exact Hr | reflexivity | reflexivity | exact Hobjs | reflexivity
             | repeat constructor | reflexivity ]).
  all: match goal with
       | |- context [after_receipt ?f _ _ _ _ _] =>
           destruct (after_receipt_cases f v w1 (attempted r) body Hv Hr1)
             as [(Hw & Hok & Hlim) | (H1 & H2 & Hmsg & Hrun)]
       end.
  all: try (exists 1%nat; split; [lia|]; split; [now left|]; rewrite Hw; split;
            [ exact Hone
            | split; [intros i Hi; lia|]; split;
              [ intros resp Hresp; destruct (Hok resp Hresp) as (Hq & Hj & status & Hst & He);
                split; [exact Hq|]; exists status_code, body, status;
                simpl; rewrite Nat.sub_0_r, Hj; auto
              | intros x Hx; destruct (Hlim x Hx) as (Hn & message & Hm & Hxm);
                split; [simpl in Hn; lia|]; exists status_code, body, message;
                simpl; rewrite Nat.sub_0_r; auto ] ]).
  - exfalso. simpl in H2, Hfuel. lia.
  - rewrite Hrun. set (w2 := slept self (attempts (attempted r)) w1).
    assert (Hr2 : requests w2 !! request = Some (attempted r)) by exact Hr1.
    destruct (IH w2 (attempted r) Hr2) as (k & Hk & Hbound & Hrunof & Hret & Hout).
    { simpl. simpl in H2. lia. }
    exists (S k). split; [lia|]. split.
    { right. simpl in Hbound, H2. lia. }
    split.
    + eapply (run_of_more r w w2); [exact Hk | reflexivity | reflexivity | | | exact Hrunof].
      * destruct (decode_extends body (store w)) as [objs Hobjs]. now exists objs.
      * eexists. split; [simpl; rewrite <- app_assoc; reflexivity|].
        split; [repeat constructor | reflexivity].
    + split.
      { intros [|i] Hi.
        - destruct Hmsg as [message Hmsg]. exists status_code, body, message.
          rewrite Nat.add_0_r. auto.
        - destruct (Hret i) as (sc & b & m & Hn & Hm); [lia|].
          exists sc, b, m. split; [|exact Hm].
          replace (sent w + S i)%nat with (sent w2 + i)%nat by (simpl; lia).
          exact Hn. }
      destruct Hout as [Hok Hlim]. split.
      * intros resp Hresp. exact (Hok resp Hresp).
      * intros x Hx. destruct (Hlim x Hx) as (Hb & Hrest). split; [|exact Hrest].
        simpl in Hb. lia.
Qed.
End Run.

Section SendRequest.
Context (ext : externals) (self : Api.t) (request : Request.t).

Lemma send_request_unfold w r :
  requests w !! request = Some r ->
  Api.send_request ext self request w =
  Api.send_request_aux (Z.to_nat (Api.retry_count self - attempts r - 1))
                       ext self request w.
Proof.
  intros Hr. unfold Api.send_request.
  now rewrite (bind_ok _ _ _ _ _ (get_ok request w r Hr)).
Qed.

Lemma send_request_run w r :
  requests w !! request = Some r ->
  exists k,
    (1 <= k)%nat /\
    (k = 1%nat \/ attempts r + Z.of_nat k <= Api.retry_count self) /\
    run_of self request r k w (snd (Api.send_request ext self request w)) /\
    retried_of ext r k w /\
    outcome_of ext self request r k
      (fst (Api.send_request ext self request w))
      (snd (Api.send_request ext self request w)).
Proof.
  intros Hr. rewrite (send_request_unfold w r Hr).
  apply send_request_aux_run; [exact Hr | lia].
Qed.

(** Rate-limit answers to every attempt: the attempts are used up. *)
Lemma send_request_aux_all_limited fuel : forall w r,
  requests w !! request = Some r ->
  0 <= attempts r ->
  Api.retry_count self - attempts r - 1 <= Z.of_nat fuel ->
  (forall n, (sent w <= n)%nat ->
     exists status_code body message,
       net ext n (url r) = Reply status_code (Some body) /\ rate_limited body message) ->
  (exists x, fst (Api.send_request_aux fuel ext self request w)
             = Raise (APIUsageExceededRateLimit x)) /\
  run_of self request r (Z.to_nat (Z.max 1 (Api.retry_count self - attempts r)))
         w (snd (Api.send_request_aux fuel ext self request w)).
Proof.
  induction fuel as [|fuel IH]; intros w r Hr Ha Hfuel Hall.
  all: destruct (Hall (sent w) (le_n _)) as (sc & body & message & Hnet & Hlim).
  all: match goal with
       | |- context [Api.send_request_aux ?f _ _ _ _] =>
           destruct (attempt_limited ext self f request w r sc body message Hr Hnet Hlim)
             as (x & Hx & Hrun)
       end.
  all: rewrite Hrun; clear Hrun.
  all: pose proof (received_lookup self request r sc body w Hr) as Hr1.
  all: assert (Hone : run_of self request r 1 w (received self request r sc body w))
         by (destruct (decode_extends body (store w)) as [objs Hobjs];
             eapply (run_of_one self request r w _ _ objs);
             [ exact Hr | reflexivity | reflexivity | exact Hobjs | reflexivity
             | repeat constructor | reflexivity ]).
  all: destruct ((1 <? Api.retry_count self) && (attempts r + 1 <? Api.retry_count self))%bool
         eqn:Hcond.
  all: try (apply andb_true_iff in Hcond as [H1 H2]; apply Z.ltb_lt in H1, H2).
  all: try (apply andb_false_iff in Hcond;
            assert (Hk : Z.to_nat (Z.max 1 (Api.retry_count self - attempts r)) = 1%nat)
              by (destruct Hcond as [Hc|Hc]; apply Z.ltb_ge in Hc; lia);
            rewrite Hk; simpl; split; [eauto | exact Hone]).
  - exfalso. simpl in Hfuel. lia.
  - set (w2 := slept self (attempts r + 1) (received self request r sc body w)).
    destruct (IH w2 (attempted r)) as ([y Hy] & Hrunof).
    + exact Hr1.
    + simpl. lia.
    + simpl. lia.
    + intros n Hn. apply Hall. simpl in Hn. lia.
    + split; [eauto|].
      replace (Z.to_nat (Z.max 1 (Api.retry_count self - attempts r)))
        with (S (Z.to_nat (Z.max 1 (Api.retry_count self - attempts (attempted r)))))
        by (simpl; lia).
      eapply (run_of_more self request r w w2); [simpl; lia | reflexivity | reflexivity | | | exact Hrunof].
      * destruct (decode_extends body (store w)) as [objs Hobjs]. now exists objs.
      * eexists. split; [simpl; rewrite <- app_assoc; reflexivity|].
        split; [repeat constructor | reflexivity].
Qed.
End SendRequest.

Lemma written_app t1 t2 : written (t1 ++ t2) = written t1 ++ written t2.
Proof. apply List.filter_app. Qed.

Lemma logs_at_written level t :
  logs_at level t ->
  written t = if LOGGER_LEVEL <=? level then log_lines t else [].
Proof.
  induction 1 as [|e t He _ IH]; [now destruct (LOGGER_LEVEL <=? level)|].
  unfold written, log_lines in *. simpl. destruct e as [l msg|u|ms].
  - subst l. rewrite IH. now destruct (LOGGER_LEVEL <=? level).
  - exact IH.
  - exact IH.
Qed.

(** ** The keys of an updated dictionary *)

Lemma dict_has_elem {V} k (d : dict V) : dict_has k d = true <-> k ∈ dict_keys d.
Proof.
  unfold dict_has. destruct (dict_get k d) as [v|] eqn:H.
  - split; [intros _|reflexivity].
    apply dict_get_Some_elem in H. unfold dict_keys.
    apply list_elem_of_fmap. now exists (k, v).
  - apply dict_get_None_keys in H. split; [discriminate | contradiction].
Qed.

Lemma dict_has_set {V} k k' (v : V) d :
  dict_has k' (dict_set k v d) = (String.eqb k' k || dict_has k' d)%bool.
Proof.
  unfold dict_has. rewrite dict_get_set. now destruct (String.eqb k' k).
Qed.

Lemma dict_update_keys {V} (o : dict V) : forall d,
  NoDup (dict_keys o) ->
  dict_keys (dict_update d o) = dict_keys d ++ new_keys d o.
Proof.
  unfold new_keys.
  induction o as [|[k v] o IH]; intros d Hnd; [simpl; now rewrite app_nil_r|].
  simpl in Hnd. apply NoDup_cons in Hnd as [Hk Hnd].
  rewrite dict_update_cons, IH by exact Hnd. simpl.
  assert (Hext : List.filter (fun k' => negb (dict_has k' (dict_set k v d))) (dict_keys o)
                 = List.filter (fun k' => negb (dict_has k' d)) (dict_keys o)).
  { apply List.filter_ext_in. intros k' Hin. rewrite dict_has_set.
    destruct (String.eqb_spec k' k) as [->|Hne]; [|reflexivity].
    exfalso. apply Hk. now apply list_elem_of_In. }
  rewrite Hext. destruct (dict_has k d) eqn:Hhas; simpl.
  - apply dict_has_elem in Hhas. now rewrite dict_set_keys_in.
  - assert (Hout : k ∉ dict_keys d).
    { intros Hin. apply dict_has_elem in Hin. congruence. }
    rewrite dict_set_fresh by exact Hout. unfold dict_keys. rewrite map_app. simpl.
    now rewrite <- app_assoc.
Qed.

Lemma dict_get_update {V} k (d o : dict V) :
  NoDup (dict_keys o) ->
  dict_get k (dict_update d o)
  = match dict_get k o with Some v => Some v | None => dict_get k d end.
Proof.
  intros Hnd. destruct (dict_get k o) as [v|] eqn:Hk.
  - now apply dict_get_update_in.
  - apply dict_get_update_out. now apply dict_get_None_keys.
Qed.

(** ** The fields of a response *)

Lemma Response_init_first_missing request w v body done name rest e :
  represents (store w) v body ->
  RESPONSE_FIELDS = done ++ name :: rest ->
  Forall (fun n => exists j, json_field body n = Ok j) done ->
  json_field body name = Raise e ->
  Response.__init__ request v w = (Raise e, w).
Proof.
  intros Hv Heq Hdone Hname.
  pose proof (field_Raise w v body Hv _ _ Hname) as Hr.
  assert (Hok : forall n, n ∈ done -> exists x, Response.field v n w = (Ok x, w)).
  { intros n Hn. apply (proj1 (Forall_forall _ _) Hdone) in Hn as [j Hj].
    destruct (field_Ok w v body Hv _ _ Hj) as (x & Hx & _). eauto. }
  unfold Response.__init__, RESPONSE_FIELDS in *.
  destruct done as [|d1 [|d2 [|d3 [|d4 [|d5 done]]]]]; simpl in Heq;
    injection Heq; intros; subst.
  - now rewrite (bind_raise _ _ _ _ _ Hr).
  - destruct (Hok "data") as [x1 H1]; [repeat first [apply list_elem_of_here | apply list_elem_of_further]|].
    rewrite (bind_ok _ _ _ _ _ H1). now rewrite (bind_raise _ _ _ _ _ Hr).
  - destruct (Hok "data") as [x1 H1]; [repeat first [apply list_elem_of_here | apply list_elem_of_further]|].
    destruct (Hok "status") as [x2 H2]; [repeat first [apply list_elem_of_here | apply list_elem_of_further]|].
    rewrite (bind_ok _ _ _ _ _ H1), (bind_ok _ _ _ _ _ H2).
    now rewrite (bind_raise _ _ _ _ _ Hr).
  - destruct (Hok "data") as [x1 H1]; [repeat first [apply list_elem_of_here | apply list_elem_of_further]|].
    destruct (Hok "status") as [x2 H2]; [repeat first [apply list_elem_of_here | apply list_elem_of_further]|].
    destruct (Hok "httpStatus") as [x3 H3]; [repeat first [apply list_elem_of_here | apply list_elem_of_further]|].
    rewrite (bind_ok _ _ _ _ _ H1), (bind_ok _ _ _ _ _ H2), (bind_ok _ _ _ _ _ H3).
    now rewrite (bind_raise _ _ _ _ _ Hr).
  - destruct (Hok "data") as [x1 H1]; [repeat first [apply list_elem_of_here | apply list_elem_of_further]|].
    destruct (Hok "status") as [x2 H2]; [repeat first [apply list_elem_of_here | apply list_elem_of_further]|].
    destruct (Hok "httpStatus") as [x3 H3]; [repeat first [apply list_elem_of_here | apply list_elem_of_further]|].
    destruct (Hok "errors") as [x4 H4]; [repeat first [apply list_elem_of_here | apply list_elem_of_further]|].
    rewrite (bind_ok _ _ _ _ _ H1), (bind_ok _ _ _ _ _ H2), (bind_ok _ _ _ _ _ H3),
      (bind_ok _ _ _ _ _ H4).
    now rewrite (bind_raise _ _ _ _ _ Hr).
  - destruct done; discriminate.
Qed.

(** ** What the mapper raises *)

Lemma fill_no_exception items : forall acc msg,
  Model.fill items acc <> Raise (PyException msg).
Proof.
  induction items as [|[k v] items IH]; intros acc msg; simpl; [discriminate|].
  destruct (String.eqb k "id"); [|apply IH].
  destruct v as [|b|n|s|l]; simpl; try discriminate; try apply IH.
  destruct (parse_int s); [apply IH | discriminate].
Qed.

Lemma merge_scope_no_exception v model_name w msg :
  fst (merge_scope v model_name w) <> Raise (PyException msg).
Proof.
  destruct v as [| | | |s];
    try (unfold merge_scope, bind, read; simpl; discriminate).
  destruct (store w !! s) as [[vs|ds]|] eqn:Hs;
    try (unfold merge_scope, bind, read; simpl; rewrite Hs; simpl; discriminate).
  destruct (dict_get model_name ds) as [v|] eqn:Hk;
    [|rewrite (merge_scope_missing model_name w s ds Hs Hk); discriminate].
  assert (Hstuck : forall e,
             py_update (store w) v (relative_scopes model_name ds) = Raise e ->
             fst (merge_scope (VRef s) model_name w) = Raise e).
  { intros e He. unfold merge_scope.
    erewrite bind_ok by (apply read_ok; simpl; rewrite Hs; reflexivity).
    erewrite bind_ok by (apply read_ok; simpl; rewrite Hs, Hk; reflexivity).
    unfold bind, write. now rewrite He. }
  destruct v as [| | | |lm]; try (rewrite (Hstuck AttributeError eq_refl); discriminate).
  destruct (store w !! lm) as [[vs|dm]|] eqn:Hm.
  - rewrite (Hstuck AttributeError); [discriminate | simpl; now rewrite Hm].
  - rewrite (merge_scope_dict model_name w s ds lm dm Hs Hk Hm). apply fill_no_exception.
  - rewrite (Hstuck SystemError); [discriminate | simpl; now rewrite Hm].
Qed.

Lemma extract_all_loop_no_exception todo : forall data model_name size pos collection w msg,
  fst (Mapper.extract_all_loop todo data model_name size pos collection w)
  <> Raise (PyException msg).
Proof.
  induction todo as [|todo IH]; intros data model_name size pos collection w msg;
    rewrite extract_all_loop_eq; unfold bind;
    destruct (Mapper.items_next data size pos w) as [[next|e] w1] eqn:Hnext.
  all: try (revert Hnext; unfold Mapper.items_next, read;
            destruct (py_items (store w) data) as [d|e0] eqn:Hitems;
            [ destruct (length d =? size)%nat; intros [= <- <-]; discriminate
            | intros [= <- <-];
              destruct data as [| | | |l]; simpl in Hitems; try (injection Hitems as <-; discriminate);
              destruct (store w !! l) as [[|]|]; try discriminate;
              injection Hitems as <-; discriminate ]).
  - destruct next as [[? ?]|]; discriminate.
  - destruct next as [[object_id object_scope]|]; [|discriminate].
    destruct (merge_scope object_scope model_name w1) as [[model|e] w2] eqn:Hm.
    + apply IH.
    + pose proof (merge_scope_no_exception object_scope model_name w1 msg) as H.
      rewrite Hm in H. simpl in *. intros [= ->]. now apply H.
Qed.

(** ** Updating a dictionary with what it already has *)

Lemma dict_set_same {V} k (v : V) d : dict_get k d = Some v -> dict_set k v d = d.
Proof.
  induction d as [|[k' v'] d IH]; simpl; [discriminate|].
  destruct (String.eqb_spec k k') as [->|Hne].
  - now intros [= ->].
  - intros H. now rewrite IH.
Qed.

Lemma dict_update_same {V} (o : dict V) : forall d,
  NoDup (dict_keys o) ->
  (forall k v, dict_get k o = Some v -> dict_get k d = Some v) ->
  dict_update d o = d.
Proof.
  induction o as [|[k v] o IH]; intros d Hnd Hsub; [reflexivity|].
  simpl in Hnd. apply NoDup_cons in Hnd as [Hk Hnd].
  rewrite dict_update_cons, dict_set_same.
  - apply IH; [exact Hnd|]. intros k' v' Hk'. apply Hsub. simpl.
    destruct (String.eqb_spec k' k) as [->|Hne]; [|exact Hk'].
    exfalso. apply Hk. apply dict_get_Some_elem in Hk'. unfold dict_keys.
    apply list_elem_of_fmap. now exists (k, v').
  - apply Hsub. simpl. now rewrite String.eqb_refl.
Qed.

Lemma filter_ne_NoDup {V} (name : string) (d : dict V) :
  NoDup (dict_keys d) ->
  NoDup (dict_keys (List.filter (fun kv => negb (String.eqb (fst kv) name)) d)).
Proof.
  intros Hnd. induction d as [|[k v] d IH]; simpl; [constructor|].
  simpl in Hnd. apply NoDup_cons in Hnd as [Hk Hnd].
  destruct (negb (String.eqb k name)); simpl; [|now apply IH].
  apply NoDup_cons. split; [|now apply IH].
  intros Hin. apply Hk. clear -Hin. unfold dict_keys in *.
  apply list_elem_of_fmap in Hin as ([k' v'] & -> & Hin).
  apply list_elem_of_In, List.filter_In in Hin as [Hin _].
  apply list_elem_of_fmap. exists (k', v'). split; [reflexivity|].
  now apply list_elem_of_In.
Qed.

Lemma relative_scopes_filter (model_name : string) (d : dict val) :
  NoDup (dict_keys d) ->
  relative_scopes model_name d
  = List.filter (fun kv => negb (String.eqb (fst kv) model_name)) d.
Proof.
  intros Hnd. unfold relative_scopes. apply dict_of_pairs_id.
  now apply filter_ne_NoDup.
Qed.

Lemma relative_scopes_get (model_name : string) (d : dict val) k :
  NoDup (dict_keys d) ->
  dict_get k (relative_scopes model_name d)
  = if String.eqb k model_name then None else dict_get k d.
Proof.
  intros Hnd. rewrite relative_scopes_filter by exact Hnd. apply dict_get_filter_ne.
Qed.

Lemma relative_scopes_keys (model_name : string) (d : dict val) :
  NoDup (dict_keys d) ->
  dict_keys (relative_scopes model_name d)
  = List.filter (fun k => negb (String.eqb k model_name)) (dict_keys d).
Proof.
  intros Hnd. rewrite relative_scopes_filter by exact Hnd. clear Hnd.
  induction d as [|[k v] d IH]; simpl; [reflexivity|].
  destruct (negb (String.eqb k model_name)); simpl; now rewrite IH.
Qed.

Lemma relative_scopes_NoDup (model_name : string) (d : dict val) :
  NoDup (dict_keys (relative_scopes model_name d)).
Proof. apply dict_of_pairs_NoDup. Qed.

(** ** An [id] that [int] rejects *)

Lemma py_int_raises v e : py_int v = Raise e -> e = ValueError \/ e = TypeError.
Proof.
  destruct v as [|b|n|s|l]; simpl; try discriminate;
    try (intros [= <-]; now right).
  destruct (parse_int s); [discriminate|]. intros [= <-]. now left.
Qed.

Lemma fill_id_raise d : forall acc v e,
  dict_get "id" d = Some v -> py_int v = Raise e -> Model.fill d acc = Raise e.
Proof.
  induction d as [|[k v'] d IH]; intros acc v e Hid He; [discriminate|].
  cbn [dict_get Model.fill] in *.
  destruct (String.eqb_spec k "id") as [->|Hne].
  - simpl in Hid. injection Hid as ->. now rewrite He.
  - destruct (String.eqb_spec "id" k); [congruence|]. eapply IH; eassumption.
Qed.

(** ** The loop stopped by a record that cannot be made *)

Lemma merge_all_snoc model_name infos info h :
  merge_all model_name (infos ++ [info]) h
  = <[e_primary info := ODict (merged_of model_name info)]> (merge_all model_name infos h).
Proof. unfold merge_all. now rewrite fold_left_app. Qed.

Lemma merge_all_out model_name infos : forall h x,
  Forall (fun i => e_primary i <> x) infos ->
  merge_all model_name infos h !! x = h !! x.
Proof.
  induction infos as [|info infos IH]; intros h x Hx; [reflexivity|].
  apply Forall_cons in Hx as [Hne Hx]. simpl. rewrite IH by exact Hx.
  now apply list_lookup_insert_ne.
Qed.

Lemma merge_all_length model_name infos : forall h,
  length (merge_all model_name infos h) = length h.
Proof.
  induction infos as [|info infos IH]; intros h; [reflexivity|].
  simpl. rewrite IH. apply length_insert.
Qed.

Lemma run_entries_stops model_name good bad rest e : forall h collection,
  Forall (fun i => exists m, Model.fill (merged_of model_name i) [] = Ok m) good ->
  Model.fill (merged_of model_name bad) [] = Raise e ->
  run_entries model_name (good ++ bad :: rest) h collection
  = (Raise e, merge_all model_name (good ++ [bad]) h).
Proof.
  induction good as [|info good IH]; intros h collection Hgood Hbad.
  - simpl. now rewrite Hbad.
  - apply Forall_cons in Hgood as [[m Hm] Hgood]. simpl. rewrite Hm.
    now apply IH.
Qed.

Lemma separated_app l a : forall b,
  separated l (a ++ b) ->
  separated l a /\ separated l b /\
  Forall (fun j => Forall (fun i => e_primary i <> e_primary j) b) a.
Proof.
  induction a as [|j a IH]; intros b Hsep; [simpl; auto|].
  simpl in Hsep. destruct Hsep as (Hl & Hlater & Hsep).
  destruct (IH b Hsep) as (Ha & Hb & Hcross).
  apply Forall_app in Hlater as [Hlater_a Hlater_b].
  split; [simpl; auto|]. split; [exact Hb|].
  constructor; [|exact Hcross].
  eapply Forall_impl; [exact Hlater_b|]. now intros i [_ ?].
Qed.

Lemma merge_all_in model_name l infos : forall h,
  separated l infos ->
  Forall (fun i => (e_primary i < length h)%nat) infos ->
  Forall (fun i => merge_all model_name infos h !! e_primary i
                   = Some (ODict (merged_of model_name i))) infos.
Proof.
  induction infos as [|info infos IH]; intros h Hsep Hlen; [constructor|].
  destruct Hsep as (_ & Hlater & Hsep). apply Forall_cons in Hlen as [Hlt Hlen].
  constructor.
  - simpl. rewrite merge_all_out.
    + now apply list_lookup_insert_eq.
    + eapply Forall_impl; [exact Hlater|]. now intros i [_ ?].
  - simpl. apply IH; [exact Hsep|].
    eapply Forall_impl; [exact Hlen|]. intros i Hi. now rewrite length_insert.
Qed.

Lemma entry_shapes_primary model_name h d infos :
  Forall2 (entry_shape model_name h) d infos ->
  Forall (fun i => h !! e_primary i = Some (ODict (e_fields i))) infos.
Proof.
  induction 1 as [|entry info d infos (_ & _ & _ & Hp) _ IH]; constructor; assumption.
Qed.

(** ** The attribute proxy *)

Section Proxy.
Context {R : Type} (call : Api.t -> option string -> option string -> dict json -> R).
Context (ambient : list string).




(** A chain changes no proxy but the one of its client. *)
Lemma fluent_other client target method kwargs proxies x :
  x <> Client.method_proxy client ->
  snd (fluent call ambient client target method kwargs proxies) !! x = proxies !! x.
Proof.
  intros Hx. unfold fluent, Client.getattr, Client.__getattr__.
  destruct (existsb (String.eqb target) (Client.attributes ambient)); [reflexivity|].
  destruct (proxies !! Client.method_proxy client) as [p|] eqn:Hp; [|reflexivity].
  unfold call_method, MethodProxy.getattr, MethodProxy.__getattr__.
  destruct (existsb (String.eqb method) (MethodProxy.attributes ambient)); simpl.
  - now apply list_lookup_insert_ne.
  - rewrite list_lookup_insert_eq by (eapply lookup_lt_Some; eassumption). simpl.
    rewrite list_lookup_insert_ne by congruence. now apply list_lookup_insert_ne.
Qed.
End Proxy.

(** ** When a record can be made *)

Lemma fill_ok d : forall acc,
  NoDup (dict_keys d) ->
  (forall v, dict_get "id" d = Some v -> exists n, py_int v = Ok n) ->
  exists model, Model.fill d acc = Ok model.
Proof.
  induction d as [|[k v] d IH]; intros acc Hnd Hid; [simpl; eauto|].
  simpl in Hnd. apply NoDup_cons in Hnd as [Hk Hnd].
  cbn [dict_get Model.fill] in *.
  destruct (String.eqb_spec k "id") as [->|Hne].
  - destruct (Hid v) as [n Hn]; [reflexivity|]. rewrite Hn.
    apply IH; [exact Hnd|]. intros v' Hv'. exfalso. apply Hk.
    apply dict_get_Some_elem in Hv'. unfold dict_keys.
    apply list_elem_of_fmap. now exists ("id", v').
  - apply IH; [exact Hnd|]. intros v' Hv'. apply Hid.
    destruct (String.eqb_spec "id" k); [congruence | exact Hv'].
Qed.

(** ** The integer of an [id] *)

Lemma decimal_digits ds : forall acc n,
  decimal ds acc = Some n -> Forall (fun c => is_space c = false) ds.
Proof.
  induction ds as [|c ds IH]; intros acc n H; [constructor|].
  simpl in H.
  destruct ((48 <=? N_of_ascii c) && (N_of_ascii c <=? 57))%N eqn:Hc; [|discriminate].
  constructor; [|eapply IH; exact H].
  unfold is_space. apply andb_true_iff in Hc as [H1 H2].
  apply N.leb_le in H1, H2.
  destruct (9 <=? N_of_ascii c)%N, (N_of_ascii c <=? 13)%N eqn:H13,
    (N_of_ascii c =? 32)%N eqn:H32; simpl; try reflexivity;
    try (apply N.leb_le in H13; lia); apply N.eqb_eq in H32; lia.
Qed.

Lemma parse_digits_decimal ds : forall acc prev n,
  decimal ds acc = Some n -> ds <> [] \/ prev = true ->
  parse_digits ds acc prev = Some n.
Proof.
  induction ds as [|c ds IH]; intros acc prev n H Hne.
  - destruct Hne as [Hne| ->]; [congruence|]. exact H.
  - simpl in H. cbn [parse_digits]. unfold digit_of.
    destruct ((48 <=? N_of_ascii c) && (N_of_ascii c <=? 57))%N; [|discriminate].
    apply IH; [exact H | now right].
Qed.

Lemma lstrip_no_space l : Forall (fun c => is_space c = false) l -> lstrip l = l.
Proof. intros H. destruct H as [|c l Hc _]; [reflexivity|]. simpl. now rewrite Hc. Qed.

Lemma strip_no_space l : Forall (fun c => is_space c = false) l -> strip l = l.
Proof.
  intros H. unfold strip. rewrite (lstrip_no_space l H).
  rewrite lstrip_no_space by now apply Forall_rev. apply rev_involutive.
Qed.

Lemma py_int_value v n : int_value v n -> py_int v = Ok n.
Proof.
  intros H. destruct H as [n|ds n Hne Hd|ds n Hne Hd]; [reflexivity| |].
  - pose proof (decimal_digits ds 0 n Hd) as Hsp.
    pose proof (parse_digits_decimal ds 0 false n Hd (or_introl Hne)) as Hp.
    unfold py_int, parse_int.
    rewrite list_ascii_of_string_of_list_ascii, (strip_no_space ds Hsp).
    destruct ds as [|c ds]; [congruence|].
    simpl in Hd.
    destruct ((48 <=? N_of_ascii c) && (N_of_ascii c <=? 57))%N eqn:Hc; [|discriminate].
    clear Hd Hsp.
    destruct c as [[] [] [] [] [] [] [] []]; try (vm_compute in Hc; discriminate Hc);
      now rewrite Hp.
  - pose proof (decimal_digits ds 0 n Hd) as Hsp.
    pose proof (parse_digits_decimal ds 0 false n Hd (or_introl Hne)) as Hp.
    unfold py_int, parse_int. cbn [list_ascii_of_string].
    rewrite list_ascii_of_string_of_list_ascii.
    rewrite strip_no_space by (constructor; [reflexivity | exact Hsp]).
    now rewrite Hp.
Qed.

(** ** The record and the scopes before the call *)

Lemma merged_get (model_name : string) (items fields : dict val) k :
  NoDup (dict_keys items) ->
  dict_get k (dict_update fields (relative_scopes model_name items))
  = source_value model_name items fields k.
Proof.
  intros Hnd. rewrite dict_get_update by apply relative_scopes_NoDup.
  rewrite relative_scopes_get by exact Hnd. unfold source_value.
  destruct (String.eqb k model_name), (dict_get k items); reflexivity.
Qed.

Lemma coerced_record_of (model_name : string) (items fields : dict val) model :
  NoDup (dict_keys items) ->
  coerced (dict_update fields (relative_scopes model_name items)) model ->
  record_of model_name items fields model.
Proof.
  intros Hnd [Hkeys Hval].
  assert (Hnone : forall k,
             dict_get k (dict_update fields (relative_scopes model_name items)) = None ->
             dict_get k model = None).
  { intros k Hk. apply dict_get_None_keys. rewrite Hkeys.
    now apply dict_get_None_keys. }
  split; [|split; [|split]].
  - rewrite Hkeys, dict_update_keys by apply relative_scopes_NoDup.
    unfold new_keys. now rewrite relative_scopes_keys.
  - intros k Hk. rewrite <- (merged_get model_name items fields k Hnd).
    destruct (dict_get k (dict_update fields (relative_scopes model_name items)))
      as [v|] eqn:Hv; [|now apply Hnone].
    specialize (Hval k v Hv).
    destruct (String.eqb_spec k "id"); [congruence | exact Hval].
  - intros Hid. apply Hnone. now rewrite merged_get.
  - intros v Hid. rewrite <- (merged_get model_name items fields "id" Hnd) in Hid.
    destruct (Hval "id" v Hid) as (n & Hn & Hm).
    exists n. split; [exact Hn|]. split; [exact Hm|].
    intros m Hv. apply py_int_value in Hv. congruence.
Qed.

Lemma Forall_Forall2_l {A B} (P : A -> Prop) (Q : A -> B -> Prop) xs ys :
  Forall P xs -> Forall2 Q xs ys -> Forall2 (fun x y => P x /\ Q x y) xs ys.
Proof.
  intros HP HQ. induction HQ as [|x y xs ys Hxy _ IH]; [constructor|].
  apply Forall_cons in HP as [Hx HP]. constructor; [now split | now apply IH].
Qed.

Lemma entry_shapes_NoDup model_name h d infos :
  wf_store h ->
  Forall2 (entry_shape model_name h) d infos ->
  Forall (fun i => NoDup (dict_keys (e_items i))) infos.
Proof.
  intros Hwf. induction 1 as [|entry info d infos (_ & Hs & _) _ IH]; constructor.
  - eapply Hwf; exact Hs.
  - exact IH.
Qed.

(** ** The store after a loop that made every record *)

Lemma run_entries_ok_store model_name infos : forall h collection models h',
  run_entries model_name infos h collection = (Ok models, h') ->
  h' = merge_all model_name infos h.
Proof.
  induction infos as [|info infos IH]; intros h collection models h' Hrun.
  - now injection Hrun as _ <-.
  - cbn [run_entries] in Hrun.
    destruct (Model.fill (merged_of model_name info) []) as [model|e]; [|discriminate].
    apply IH in Hrun. exact Hrun.
Qed.

Lemma merge_all_id model_name infos : forall h,
  Forall (fun i => h !! e_primary i = Some (ODict (merged_of model_name i))) infos ->
  merge_all model_name infos h = h.
Proof.
  induction infos as [|info infos IH]; intros h Hall; [reflexivity|].
  apply Forall_cons in Hall as [Hi Hall]. simpl.
  rewrite list_insert_id by exact Hi. now apply IH.
Qed.

Lemma Response_extract_all_eq self model_name w :
  Response.extract_all self model_name w
  = (name <- Response.model_name_or_target self model_name ;;
     data <- data_for_extract_all self ;;
     Mapper.extract_all data name) w.
Proof.
  unfold Response.extract_all, data_for_extract_all, bind.
  destruct (Response.model_name_or_target self model_name w) as [[name|e] w1];
    [|reflexivity].
  destruct (read (fun h => py_contains h "page" (Response.data self)) w1)
    as [[has_page|e] w2]; reflexivity.
Qed.

(** * The claims *)

(** C1.  A client with [retry_count = 3] whose every attempt is answered by a
    failed envelope with the rate-limit text in [errorMessage]: the call
    sends exactly three GET requests, sleeps 250 ms between two consecutive
    ones (twice in all), leaves the attempt counter of its request, created
    at 0, at 3, and raises [APIUsageExceededRateLimit] with the message of
    the last answer. *)
Theorem C1_three_attempts_two_sleeps
    (ext : externals) (self : Api.t) (target method : string)
    (params : option (dict json)) (q : string) (w : world) :
  Api.retry_count self = 3 ->
  http_build_query ext (call_params self method params) = Ok q ->
  (forall n u, exists status_code body message,
      net ext n u = Reply status_code (Some body) /\ rate_limited body message) ->
  exists x message w',
    Api.call ext self target method params w = (Raise (APIUsageExceededRateLimit x), w') /\
    represents (store w') x message /\
    json_contains RATE_LIMIT message = Ok true /\
    sent w' = (sent w + 3)%nat /\
    requests w' =
      requests w ++ [RequestObj target method (call_params self method params) 3
                                (call_url target q)] /\
    wire (trace w') =
      wire (trace w) ++ [EvGet (call_url target q); EvSleep 250;
                         EvGet (call_url target q); EvSleep 250;
                         EvGet (call_url target q)].
Proof.
  intros Hrc Hq Hnet. rewrite (call_eq ext self target method params q w Hq).
  set (u := call_url target q). set (p := call_params self method params).
  set (r0 := RequestObj target method p 0 u).
  set (request := length (requests w)).
  set (wa := World (store w) (requests w ++ [r0]) (sent w) (trace w)).
  assert (Hr0 : requests wa !! request = Some r0)
    by (apply list_lookup_middle; reflexivity).
  unfold Api.send_request. rewrite (bind_ok _ _ _ _ _ (get_ok request wa r0 Hr0)).
  rewrite Hrc. change (Z.to_nat (3 - attempts r0 - 1)) with 2%nat.
  (* first attempt *)
  destruct (Hnet (sent wa) (url r0)) as (sc1 & b1 & m1 & Hn1 & Hl1).
  destruct (attempt_limited ext self 2 request wa r0 sc1 b1 m1 Hr0 Hn1 Hl1)
    as (x1 & _ & ->).
  rewrite Hrc. change (attempts r0 + 1) with 1. cbn [Z.ltb Z.compare Pos.compare
    Pos.compare_cont andb].
  set (w1 := slept self 1 (received self request r0 sc1 b1 wa)).
  assert (Hr1 : requests w1 !! request = Some (attempted r0))
    by (apply (received_lookup self request r0 sc1 b1 wa Hr0)).
  (* second attempt *)
  destruct (Hnet (sent w1) (url (attempted r0))) as (sc2 & b2 & m2 & Hn2 & Hl2).
  destruct (attempt_limited ext self 1 request w1 _ sc2 b2 m2 Hr1 Hn2 Hl2)
    as (x2 & _ & ->).
  rewrite Hrc. change (attempts (attempted r0) + 1) with 2.
  cbn [Z.ltb Z.compare Pos.compare Pos.compare_cont andb].
  set (w2 := slept self 2 (received self request (attempted r0) sc2 b2 w1)).
  assert (Hr2 : requests w2 !! request = Some (attempted (attempted r0)))
    by (apply (received_lookup self request _ sc2 b2 w1 Hr1)).
  (* third attempt *)
  destruct (Hnet (sent w2) (url (attempted (attempted r0)))) as (sc3 & b3 & m3 & Hn3 & Hl3).
  destruct (attempt_limited ext self 0 request w2 _ sc3 b3 m3 Hr2 Hn3 Hl3)
    as (x3 & Hx3 & ->).
  rewrite Hrc. change (attempts (attempted (attempted r0)) + 1) with 3.
  cbn [Z.ltb Z.compare Pos.compare Pos.compare_cont andb].
  exists x3, m3. eexists. split; [reflexivity|].
  split; [exact Hx3|]. split; [apply Hl3|].
  split; [simpl; lia|]. split.
  - rewrite received_requests. unfold w2, slept. cbn [requests].
    rewrite received_requests. unfold w1, slept. cbn [requests].
    rewrite received_requests. unfold wa. cbn [requests].
    rewrite !list_insert_insert_eq.
    subst request. rewrite insert_app_r_alt by lia.
    rewrite Nat.sub_diag. reflexivity.
  - rewrite received_wire. unfold w2. rewrite slept_wire, received_wire.
    unfold w1. rewrite slept_wire, received_wire. unfold wa. cbn [trace].
    rewrite <- !app_assoc. reflexivity.
Qed.

Lemma C1_witness :
  exists x message w',
    Api.call (server_always rate_limit_body) (client 3) "Offer" "findAll" None empty_world
    = (Raise (APIUsageExceededRateLimit x), w') /\
    represents (store w') x message /\
    json_contains RATE_LIMIT message = Ok true /\
    sent w' = (sent empty_world + 3)%nat /\
    requests w' =
      requests empty_world ++
      [RequestObj "Offer" "findAll" (call_params (client 3) "findAll" None) 3
                  (call_url "Offer" "Method=findAll")] /\
    wire (trace w') =
      wire (trace empty_world) ++
      [EvGet (call_url "Offer" "Method=findAll"); EvSleep 250;
       EvGet (call_url "Offer" "Method=findAll"); EvSleep 250;
       EvGet (call_url "Offer" "Method=findAll")].
Proof.
  apply (C1_three_attempts_two_sleeps (server_always rate_limit_body) (client 3)
           "Offer" "findAll" None "Method=findAll" empty_world).
  - reflexivity.
  - reflexivity.
  - intros n u. exists 200, rate_limit_body, rate_limit_message.
    split; [reflexivity | exact rate_limit_body_limited].
Defined.

(** C2, as stated, fails: the server answers with [status] 1 and a null
    [errorMessage]; the call returns a [Response] whose [errorMessage] is
    [None], not the empty string. *)
Lemma C2_counterexample :
  json_field success_body "status" = Ok (JInt 1) /\
  exists resp w',
    Api.call (server_always success_body) (client 1) "Offer" "findById" None empty_world
    = (Ok resp, w') /\
    Response.errorMessage resp = VNone /\
    Response.errorMessage resp <> VStr EmptyString.
Proof.
  split; [reflexivity|]. eexists. eexists.
  split; [vm_compute; reflexivity|]. split; [reflexivity | discriminate].
Qed.

(** C2, amended.  When the answer has a [response] object whose [status]
    equals 1 and which has the keys [data], [httpStatus], [errors] and
    [errorMessage], the call returns, after one GET and no sleep, a
    [Response] that holds the decoded body and whose five fields are the
    values the envelope has under those keys; [errorMessage] is the
    envelope's value, whatever it is. *)
Theorem C2_success_response
    (ext : externals) (self : Api.t) (target method : string)
    (params : option (dict json)) (q : string) (w : world)
    (status_code : Z) (body status data httpStatus errors errorMessage : json) :
  http_build_query ext (call_params self method params) = Ok q ->
  net ext (sent w) (call_url target q) = Reply status_code (Some body) ->
  json_field body "status" = Ok status ->
  json_eq_int status 1 = true ->
  json_field body "data" = Ok data ->
  json_field body "httpStatus" = Ok httpStatus ->
  json_field body "errors" = Ok errors ->
  json_field body "errorMessage" = Ok errorMessage ->
  exists resp w',
    Api.call ext self target method params w = (Ok resp, w') /\
    Response.request resp = length (requests w) /\
    represents (store w') (Response.json_response resp) body /\
    represents (store w') (Response.data resp) data /\
    represents (store w') (Response.status resp) status /\
    represents (store w') (Response.httpStatus resp) httpStatus /\
    represents (store w') (Response.errors resp) errors /\
    represents (store w') (Response.errorMessage resp) errorMessage /\
    sent w' = S (sent w) /\
    wire (trace w') = wire (trace w) ++ [EvGet (call_url target q)].
Proof.
  intros Hq Hnet Hst Hone Hd Hh He Hm.
  rewrite (call_eq ext self target method params q w Hq).
  set (u := call_url target q) in *. set (p := call_params self method params).
  set (r0 := RequestObj target method p 0 u).
  set (request := length (requests w)).
  set (wa := World (store w) (requests w ++ [r0]) (sent w) (trace w)).
  assert (Hr0 : requests wa !! request = Some r0)
    by (apply list_lookup_middle; reflexivity).
  unfold Api.send_request. rewrite (bind_ok _ _ _ _ _ (get_ok request wa r0 Hr0)).
  rewrite (attempt_received ext self request _ wa r0 status_code body Hr0 Hnet).
  set (w1 := received self request r0 status_code body wa).
  set (v := fst (decode body (store w))).
  assert (Hv : represents (store w1) v body) by apply decode_represents.
  rewrite (after_receipt_success ext self request _ v w1); cycle 1.
  { rewrite (failed_envelope_has_shape w1 v body Hv status (status_has_shape _ _ Hst) Hst).
    now rewrite Hone. }
  destruct (field_Ok w1 v body Hv _ _ Hd) as (xd & Hxd & Hrd).
  destruct (field_Ok w1 v body Hv _ _ Hst) as (xs & Hxs & Hrs).
  destruct (field_Ok w1 v body Hv _ _ Hh) as (xh & Hxh & Hrh).
  destruct (field_Ok w1 v body Hv _ _ He) as (xe & Hxe & Hre).
  destruct (field_Ok w1 v body Hv _ _ Hm) as (xm & Hxm & Hrm).
  exists (Response.Build request v xd xs xh xe xm), w1. split.
  { unfold Response.__init__.
    rewrite (bind_ok _ _ _ _ _ Hxd), (bind_ok _ _ _ _ _ Hxs), (bind_ok _ _ _ _ _ Hxh),
      (bind_ok _ _ _ _ _ Hxe), (bind_ok _ _ _ _ _ Hxm). reflexivity. }
  simpl. repeat (split; [assumption || reflexivity|]).
  rewrite wire_app. reflexivity.
Qed.

Lemma C2_witness :
  exists resp w',
    Api.call (server_always success_body) (client 1) "Offer" "findById" None empty_world
    = (Ok resp, w') /\
    Response.request resp = length (requests empty_world) /\
    represents (store w') (Response.json_response resp) success_body /\
    represents (store w') (Response.data resp)
               (JDict [("Offer", JDict [("id", JStr "1")])]) /\
    represents (store w') (Response.status resp) (JInt 1) /\
    represents (store w') (Response.httpStatus resp) (JInt 200) /\
    represents (store w') (Response.errors resp) (JList []) /\
    represents (store w') (Response.errorMessage resp) JNull /\
    sent w' = S (sent empty_world) /\
    wire (trace w') =
      wire (trace empty_world) ++ [EvGet (call_url "Offer" "Method=findAll")].
Proof.
  apply (C2_success_response (server_always success_body) (client 1)
           "Offer" "findById" None "Method=findAll" empty_world 200 success_body);
    reflexivity.
Defined.

(** C3.  On a dictionary that is not empty and has no key [model_name],
    [extract_one] raises [KeyError] for that key (the exception of the
    lookup [data[model_name]]), returns no record and changes nothing; so
    does [extract_all] when the scope of the first object has no such
    key. *)
Theorem C3_missing_primary_scope_raises (w : world) (l : loc) (d : dict val)
    (model_name : string) :
  store w !! l = Some (ODict d) ->
  d <> [] ->
  dict_get model_name d = None ->
  Mapper.extract_one (VRef l) model_name w = (Raise (KeyError model_name), w) /\
  (forall ld object_id rest,
      store w !! ld = Some (ODict ((object_id, VRef l) :: rest)) ->
      Mapper.extract_all (VRef ld) model_name w = (Raise (KeyError model_name), w)).
Proof.
  intros Hl Hne Hk. split.
  - rewrite extract_one_eq.
    erewrite bind_ok by (apply read_ok; simpl; rewrite Hl; reflexivity).
    destruct d as [|kv d]; [congruence|]. simpl.
    erewrite bind_raise; [reflexivity|]. now apply merge_scope_missing with (ds := kv :: d).
  - intros ld object_id rest Hld. unfold Mapper.extract_all.
    erewrite bind_ok by (apply read_ok; simpl; rewrite Hld; reflexivity). simpl.
    erewrite bind_ok by (apply read_ok; simpl; rewrite Hld; reflexivity).
    erewrite bind_raise; [reflexivity|].
    rewrite extract_all_loop_eq.
    erewrite bind_ok; cycle 1.
    { unfold Mapper.items_next. apply read_ok. simpl. rewrite Hld. simpl.
      rewrite Nat.eqb_refl. reflexivity. }
    simpl. erewrite bind_raise; [reflexivity|].
    now apply merge_scope_missing with (ds := d).
Qed.

Lemma C3_witness :
  Mapper.extract_one (fst (decoded conversion_only)) "Offer" (snd (decoded conversion_only))
  = (Raise (KeyError "Offer"), snd (decoded conversion_only)).
Proof.
  refine (proj1 (C3_missing_primary_scope_raises (snd (decoded conversion_only)) 1%nat
                   [("Conversion", VRef 0%nat)] "Offer" _ _ _)).
  - reflexivity.
  - discriminate.
  - reflexivity.
Defined.

(** C4.  A record is made of the scopes as they are before the call.  Its
    keys are the fields of the primary scope followed by the sibling scopes
    that are no field; under every key but [id] it holds the very value the
    call found, a sibling scope of that name or else the field of the
    primary scope; and its [id] is the integer [int] makes of the value
    found for [id]: the number itself when that value is a number, and the
    number the digits stand for when it is a string of decimal digits,
    with or without a minus sign.  The merged primary scope is then in the
    store, and every object that is not stored under the model name in
    some dictionary is as it was, so that a sibling scope the record holds
    is the decoded object, its own [id] included.  This holds for the
    record of [extract_one] and, when the entries of [data] are
    dictionaries with a primary scope and no primary scope is shared (as
    in every decoded body, see [decoded_separated]), for every record of
    [extract_all]; and on the example of the specification [extract_all]
    returns one record with [id] 5, [payout] the string 10 and [Offer] the
    dictionary with the string 2 as [id]. *)
Theorem C4_id_coerced_other_keys_kept
    (w : world) (l : loc) (d : dict val) (model_name : string) :
  wf_store (store w) ->
  store w !! l = Some (ODict d) ->
  (forall model w',
      Mapper.extract_one (VRef l) model_name w = (Ok (Some model), w') ->
      (exists lm dm,
          dict_get model_name d = Some (VRef lm) /\
          store w !! lm = Some (ODict dm) /\
          record_of model_name d dm model /\
          store w' !! lm = Some (ODict (dict_update dm (relative_scopes model_name d))) /\
          coerced (dict_update dm (relative_scopes model_name d)) model) /\
      (forall x, ~ primary model_name (store w) x -> store w' !! x = store w !! x)) /\
  (forall infos models w',
      Forall2 (entry_shape model_name (store w)) d infos ->
      separated l infos ->
      Mapper.extract_all (VRef l) model_name w = (Ok (Some models), w') ->
      Forall2 (fun info model =>
                 record_of model_name (e_items info) (e_fields info) model /\
                 store w' !! e_primary info = Some (ODict (merged_of model_name info)) /\
                 coerced (merged_of model_name info) model)
              infos models /\
      (forall x, ~ primary model_name (store w) x -> store w' !! x = store w !! x)) /\
  (exists offer w',
      Mapper.extract_all (fst (decoded conversions)) "Conversion" (snd (decoded conversions))
      = (Ok (Some [[("id", VInt 5); ("payout", VStr "10"); ("Offer", offer)]]), w') /\
      represents (store w') offer (JDict [("id", JStr "2")])).
Proof.
  intros Hwf Hl. split; [|split].
  - intros model w' Hrun. split.
    + destruct (extract_one_merged w w' l d model_name model Hwf Hl Hrun)
        as (lm & dm & Hk & Hdm & Hm & Hc).
      exists lm, dm. split; [exact Hk|]. split; [exact Hdm|]. split; [|now split].
      apply coerced_record_of; [|exact Hc]. eapply Hwf; exact Hl.
    + intros x Hx.
      pose proof (extract_one_frame model_name (VRef l) w) as [[_ Hframe] _].
      rewrite Hrun in Hframe. now apply (Hframe x).
  - intros infos models w' Hshape Hsep Hrun. split.
    + pose proof (extract_all_merged w w' l d model_name infos models Hwf Hl Hshape Hsep
                                     Hrun) as Hall.
      pose proof (entry_shapes_NoDup _ _ _ _ Hwf Hshape) as Hnd.
      eapply Forall2_impl; [exact (Forall_Forall2_l _ _ _ _ Hnd Hall)|].
      intros info model (Hi & Hp & Hc). split; [|now split].
      now apply coerced_record_of.
    + intros x Hx.
      pose proof (extract_all_frame model_name (VRef l) w) as [[_ Hframe] _].
      rewrite Hrun in Hframe. now apply (Hframe x).
  - eexists. eexists. split; [vm_compute; reflexivity|].
    eapply represents_dict; [reflexivity|].
    repeat constructor.
Qed.

Lemma C4_witness :
  (exists lm dm,
      dict_get "Conversion" [("Conversion", VRef 0%nat); ("Offer", VRef 1%nat)]
      = Some (VRef lm) /\
      store (snd (decoded collision)) !! lm = Some (ODict dm) /\
      record_of "Conversion" [("Conversion", VRef 0%nat); ("Offer", VRef 1%nat)] dm
                [("id", VInt 5); ("Offer", VRef 1%nat)] /\
      store (snd (Mapper.extract_one (VRef 2%nat) "Conversion" (snd (decoded collision))))
        !! lm
      = Some (ODict (dict_update dm
                       (relative_scopes "Conversion"
                          [("Conversion", VRef 0%nat); ("Offer", VRef 1%nat)]))) /\
      coerced (dict_update dm
                 (relative_scopes "Conversion"
                    [("Conversion", VRef 0%nat); ("Offer", VRef 1%nat)]))
              [("id", VInt 5); ("Offer", VRef 1%nat)]) /\
  Forall2 (fun info model =>
             record_of "Conversion" (e_items info) (e_fields info) model /\
             store (snd (Mapper.extract_all (VRef 3%nat) "Conversion"
                                            (snd (decoded conversions))))
               !! e_primary info = Some (ODict (merged_of "Conversion" info)) /\
             coerced (merged_of "Conversion" info) model)
          [conversions_info]
          [[("id", VInt 5); ("payout", VStr "10"); ("Offer", VRef 1%nat)]].
Proof.
  split.
  - refine (proj1 (proj1 (C4_id_coerced_other_keys_kept (snd (decoded collision)) 2%nat
                            [("Conversion", VRef 0%nat); ("Offer", VRef 1%nat)]
                            "Conversion" _ _)
                         [("id", VInt 5); ("Offer", VRef 1%nat)] _ _)).
    + apply decoded_wf.
    + reflexivity.
    + vm_compute. reflexivity.
  - refine (proj1 (proj1 (proj2 (C4_id_coerced_other_keys_kept
                                   (snd (decoded conversions)) 3%nat
                                   [("1", VRef 2%nat)] "Conversion" _ _))
                         [conversions_info] _ _ _ _ _)).
    + apply decoded_wf.
    + reflexivity.
    + repeat constructor.
    + simpl. split; [lia|]. split; [constructor | exact I].
    + vm_compute. reflexivity.
Defined.

(** C5, as stated, fails: the error for a body without the shape is an
    [Error] like the error for any other failed envelope, and the two
    coincide when the server's message is the text [cast_error] builds; and
    for a failed envelope without [errorMessage] the classifier returns no
    error, it raises [KeyError]. *)
Lemma C5_counterexample :
  lacks_shape malformed_body /\
  has_shape lookalike_body /\
  cast_error_of malformed_body = Ok (Error (VStr "Unexpected error: {}")) /\
  cast_error_of lookalike_body = Ok (Error (VStr "Unexpected error: {}")) /\
  has_shape no_message_body /\
  cast_error_of no_message_body = Raise (KeyError "errorMessage").
Proof.
  split; [now left|]. split; [split; [reflexivity | eexists; split; reflexivity]|].
  split; [vm_compute; reflexivity|]. split; [vm_compute; reflexivity|].
  split; [split; [reflexivity | eexists; split; reflexivity]|].
  vm_compute; reflexivity.
Qed.

(** C5, amended.  [cast_error] changes nothing, and on a value that stands
    for the body: without the [response]/[status] shape it returns
    [Error('Unexpected error: ' + repr(body))]; with the shape and an
    [errorMessage] on which the test ['API usage exceeded rate limit' in
    errorMessage] is defined it returns [APIUsageExceededRateLimit] of the
    message when the test holds and [Error] of the message when it does not;
    and it returns an [APIUsageExceededRateLimit] exactly when the body has
    the shape and the test holds. *)
Theorem C5_cast_error_classifies
    (self : Api.t) (w : world) (v : val) (body : json) :
  represents (store w) v body ->
  snd (Api.cast_error self v w) = w /\
  (lacks_shape body ->
   fst (Api.cast_error self v w) =
   Ok (Error (VStr ("Unexpected error: " +:+ py_repr (store w) v)))) /\
  (has_shape body ->
   forall message limited,
     json_field body "errorMessage" = Ok message ->
     json_contains RATE_LIMIT message = Ok limited ->
     exists x,
       represents (store w) x message /\
       fst (Api.cast_error self v w) =
       Ok (if limited then APIUsageExceededRateLimit x else Error x)) /\
  ((exists x, fst (Api.cast_error self v w) = Ok (APIUsageExceededRateLimit x)) <->
   (has_shape body /\
    exists message, json_field body "errorMessage" = Ok message /\
                    json_contains RATE_LIMIT message = Ok true)).
Proof.
  intros Hv. split; [apply readonly_cast_error|].
  split; [intros H; now rewrite (cast_error_lacks_shape self w v body Hv H)|].
  split.
  { intros Hs message limited Hm Hl.
    destruct (cast_error_has_shape self w v body Hv message limited Hs Hm Hl)
      as (x & Hx & ->). eauto. }
  split.
  - intros [x Hx].
    destruct (no_shape_cases w v body Hv) as [[Hl Hn] | [[Hs Hn] | [e Hn]]].
    + rewrite (cast_error_lacks_shape self w v body Hv Hl) in Hx. discriminate.
    + split; [exact Hs|].
      destruct (json_field body "errorMessage") as [message|e] eqn:Hm.
      * exists message. split; [reflexivity|].
        destruct (json_contains RATE_LIMIT message) as [[|]|e] eqn:Hc.
        -- reflexivity.
        -- destruct (cast_error_has_shape self w v body Hv message false Hs Hm Hc)
             as (y & _ & Hy). rewrite Hy in Hx. discriminate.
        -- exfalso. destruct (field_Ok w v body Hv _ _ Hm) as (y & Hy & Hry).
           unfold Api.cast_error in Hx.
           rewrite (bind_ok _ _ _ _ _ Hn), (bind_ok _ _ _ _ _ Hy) in Hx.
           unfold bind at 1 in Hx. unfold read at 1 in Hx.
           rewrite (represents_contains _ _ _ _ Hry) in Hx.
           unfold RATE_LIMIT in Hc. rewrite Hc in Hx. discriminate.
      * rewrite (cast_error_no_message self w v body Hv e Hs Hm) in Hx. discriminate.
    + unfold Api.cast_error in Hx. rewrite (bind_raise _ _ _ _ _ Hn) in Hx.
      discriminate.
  - intros (Hs & message & Hm & Hc).
    destruct (cast_error_has_shape self w v body Hv message true Hs Hm Hc)
      as (x & _ & Hx). exists x. now rewrite Hx.
Qed.

Lemma C5_witness :
  snd (Api.cast_error (client 3) (fst (decoded rate_limit_body))
                      (snd (decoded rate_limit_body)))
  = snd (decoded rate_limit_body) /\
  (exists x, fst (Api.cast_error (client 3) (fst (decoded rate_limit_body))
                                 (snd (decoded rate_limit_body)))
             = Ok (APIUsageExceededRateLimit x)).
Proof.
  pose proof (C5_cast_error_classifies (client 3) (snd (decoded rate_limit_body))
                (fst (decoded rate_limit_body)) rate_limit_body
                (decoded_represents rate_limit_body)) as (Hpure & _ & _ & Hiff).
  split; [exact Hpure|]. apply Hiff. split.
  - split; [reflexivity|]. eexists. split; reflexivity.
  - exists rate_limit_message. split; reflexivity.
Defined.

(** C6.  On an empty dictionary [extract_one] and [extract_all] both return
    [None] and change nothing; [extract_all] does not return the empty
    list. *)
Theorem C6_empty_mapping_gives_none (w : world) (l : loc) (model_name : string) :
  store w !! l = Some (ODict []) ->
  Mapper.extract_one (VRef l) model_name w = (Ok None, w) /\
  Mapper.extract_all (VRef l) model_name w = (Ok None, w) /\
  fst (Mapper.extract_all (VRef l) model_name w) <> Ok (Some []).
Proof.
  intros Hl.
  assert (Hone : Mapper.extract_one (VRef l) model_name w = (Ok None, w)).
  { unfold Mapper.extract_one, bind, read. simpl. now rewrite Hl. }
  assert (Hall : Mapper.extract_all (VRef l) model_name w = (Ok None, w)).
  { unfold Mapper.extract_all, bind, read. simpl. now rewrite Hl. }
  split; [exact Hone|]. split; [exact Hall|]. rewrite Hall. discriminate.
Qed.

Lemma C6_witness :
  Mapper.extract_one (fst (decoded (JDict []))) "Offer" (snd (decoded (JDict [])))
  = (Ok None, snd (decoded (JDict []))) /\
  Mapper.extract_all (fst (decoded (JDict []))) "Offer" (snd (decoded (JDict [])))
  = (Ok None, snd (decoded (JDict []))) /\
  fst (Mapper.extract_all (fst (decoded (JDict []))) "Offer" (snd (decoded (JDict []))))
  <> Ok (Some []).
Proof.
  apply (C6_empty_mapping_gives_none (snd (decoded (JDict []))) 0%nat "Offer").
  reflexivity.
Defined.

(** C7.  A client with [retry_count = 1] whose first attempt is answered by
    a rate-limit envelope: the call raises the error after that one GET,
    with no retry and no sleep. *)
Theorem C7_single_attempt_no_delay
    (ext : externals) (self : Api.t) (target method : string)
    (params : option (dict json)) (q : string) (w : world)
    (status_code : Z) (body message : json) :
  Api.retry_count self = 1 ->
  http_build_query ext (call_params self method params) = Ok q ->
  net ext (sent w) (call_url target q) = Reply status_code (Some body) ->
  rate_limited body message ->
  exists x w',
    Api.call ext self target method params w = (Raise (APIUsageExceededRateLimit x), w') /\
    represents (store w') x message /\
    sent w' = S (sent w) /\
    requests w' =
      requests w ++ [RequestObj target method (call_params self method params) 1
                                (call_url target q)] /\
    wire (trace w') = wire (trace w) ++ [EvGet (call_url target q)].
Proof.
  intros Hrc Hq Hnet Hl. rewrite (call_eq ext self target method params q w Hq).
  set (u := call_url target q) in *. set (p := call_params self method params).
  set (r0 := RequestObj target method p 0 u).
  set (request := length (requests w)).
  set (wa := World (store w) (requests w ++ [r0]) (sent w) (trace w)).
  assert (Hr0 : requests wa !! request = Some r0)
    by (apply list_lookup_middle; reflexivity).
  unfold Api.send_request. rewrite (bind_ok _ _ _ _ _ (get_ok request wa r0 Hr0)).
  destruct (attempt_limited ext self (Z.to_nat (Api.retry_count self - attempts r0 - 1))
              request wa r0 status_code body message Hr0 Hnet Hl) as (x & Hx & ->).
  rewrite Hrc. cbn [Z.ltb Z.compare Pos.compare Pos.compare_cont andb].
  exists x. eexists. split; [reflexivity|]. split; [exact Hx|].
  split; [reflexivity|]. split.
  - rewrite received_requests. unfold wa. cbn [requests]. subst request.
    rewrite insert_app_r_alt by lia. rewrite Nat.sub_diag. reflexivity.
  - rewrite received_wire. reflexivity.
Qed.

Lemma C7_witness :
  exists x w',
    Api.call (server_always rate_limit_body) (client 1) "Offer" "findAll" None empty_world
    = (Raise (APIUsageExceededRateLimit x), w') /\
    represents (store w') x rate_limit_message /\
    sent w' = S (sent empty_world) /\
    requests w' =
      requests empty_world ++
      [RequestObj "Offer" "findAll" (call_params (client 1) "findAll" None) 1
                  (call_url "Offer" "Method=findAll")] /\
    wire (trace w') =
      wire (trace empty_world) ++ [EvGet (call_url "Offer" "Method=findAll")].
Proof.
  apply (C7_single_attempt_no_delay (server_always rate_limit_body) (client 1)
           "Offer" "findAll" None "Method=findAll" empty_world 200 rate_limit_body).
  - reflexivity.
  - reflexivity.
  - reflexivity.
  - exact rate_limit_body_limited.
Defined.

(** C8.  A failed envelope that [cast_error] does not put in the rate-limit
    class (the body lacks the [response]/[status] shape, or its status is
    not 1 and its [errorMessage] does not contain the rate-limit text) is
    not retried: whatever [retry_count] is, the call sends one GET, does
    not sleep, and raises the error [cast_error] returns for that body. *)
Theorem C8_other_errors_not_retried
    (ext : externals) (self : Api.t) (target method : string)
    (params : option (dict json)) (q : string) (w : world)
    (status_code : Z) (body : json) :
  http_build_query ext (call_params self method params) = Ok q ->
  net ext (sent w) (call_url target q) = Reply status_code (Some body) ->
  (lacks_shape body \/
   (failed_status body /\
    exists message, json_field body "errorMessage" = Ok message /\
                    json_contains RATE_LIMIT message = Ok false)) ->
  exists e w',
    Api.call ext self target method params w = (Raise e, w') /\
    Api.cast_error self (fst (decode body (store w))) w' = (Ok e, w') /\
    isinstance_Error e = true /\
    isinstance_APIUsageExceededRateLimit e = false /\
    sent w' = S (sent w) /\
    requests w' =
      requests w ++ [RequestObj target method (call_params self method params) 1
                                (call_url target q)] /\
    wire (trace w') = wire (trace w) ++ [EvGet (call_url target q)].
Proof.
  intros Hq Hnet Hkind. rewrite (call_eq ext self target method params q w Hq).
  set (u := call_url target q) in *. set (p := call_params self method params).
  set (r0 := RequestObj target method p 0 u).
  set (request := length (requests w)).
  set (wa := World (store w) (requests w ++ [r0]) (sent w) (trace w)).
  assert (Hr0 : requests wa !! request = Some r0)
    by (apply list_lookup_middle; reflexivity).
  unfold Api.send_request. rewrite (bind_ok _ _ _ _ _ (get_ok request wa r0 Hr0)).
  rewrite (attempt_received ext self request _ wa r0 status_code body Hr0 Hnet).
  set (w1 := received self request r0 status_code body wa).
  assert (Hv : represents (store w1) (fst (decode body (store w))) body)
    by apply decode_represents.
  assert (Hclass : exists e,
             Api.failed_envelope (fst (decode body (store w))) w1 = (Ok true, w1) /\
             Api.cast_error self (fst (decode body (store w))) w1 = (Ok e, w1) /\
             isinstance_Error e = true /\
             isinstance_APIUsageExceededRateLimit e = false).
  { destruct Hkind as [Hlacks | ((status & Hst & Hne) & message & Hm & Hc)].
    - eexists. split; [now apply (failed_envelope_lacks_shape w1 _ body)|].
      split; [now apply (cast_error_lacks_shape self w1 _ body)|]. now split.
    - pose proof (status_has_shape _ _ Hst) as Hshape.
      destruct (cast_error_has_shape self w1 _ body Hv message false Hshape Hm Hc)
        as (x & _ & Hx).
      exists (Error x). split.
      + rewrite (failed_envelope_has_shape w1 _ body Hv status Hshape Hst).
        now rewrite Hne.
      + now split. }
  destruct Hclass as (e & Hf & Hc & He1 & He2).
  exists e, w1. split; [now apply after_receipt_other|].
  split; [exact Hc|]. split; [exact He1|]. split; [exact He2|].
  split; [reflexivity|]. split.
  - unfold w1. rewrite received_requests. unfold wa. cbn [requests]. subst request.
    rewrite insert_app_r_alt by lia. rewrite Nat.sub_diag. reflexivity.
  - unfold w1. rewrite received_wire. reflexivity.
Qed.

Lemma C8_witness :
  exists e w',
    Api.call (server_always api_error_body) (client 3) "Offer" "findAll" None empty_world
    = (Raise e, w') /\
    Api.cast_error (client 3) (fst (decode api_error_body (store empty_world))) w'
    = (Ok e, w') /\
    isinstance_Error e = true /\
    isinstance_APIUsageExceededRateLimit e = false /\
    sent w' = S (sent empty_world) /\
    requests w' =
      requests empty_world ++
      [RequestObj "Offer" "findAll" (call_params (client 3) "findAll" None) 1
                  (call_url "Offer" "Method=findAll")] /\
    wire (trace w') =
      wire (trace empty_world) ++ [EvGet (call_url "Offer" "Method=findAll")].
Proof.
  apply (C8_other_errors_not_retried (server_always api_error_body) (client 3)
           "Offer" "findAll" None "Method=findAll" empty_world 200 api_error_body).
  - reflexivity.
  - reflexivity.
  - right. split.
    + exists (JInt (-1)). split; reflexivity.
    + exists (JStr "Invalid NetworkToken"). split; reflexivity.
Defined.

(** C9, as stated, fails: after [extract_one] on the response to a call
    whose data holds a [Conversion] and an [Offer] scope, the [data] of the
    response prints with the [Offer] scope inside the [Conversion] scope;
    before, it did not. *)
Lemma C9_counterexample :
  exists resp w1 model w2,
    Api.call (server_always conversion_with_offer) (client 1)
             "Conversion" "findById" None empty_world = (Ok resp, w1) /\
    Response.extract_one resp None w1 = (Ok (Some model), w2) /\
    py_repr (store w1) (Response.data resp)
    = "{'Conversion': {'id': '5'}, 'Offer': {'id': '2'}}" /\
    py_repr (store w2) (Response.data resp)
    = "{'Conversion': {'id': '5', 'Offer': {'id': '2'}}, 'Offer': {'id': '2'}}".
Proof.
  do 4 eexists. split; [vm_compute; reflexivity|].
  split; [vm_compute; reflexivity|]. split; vm_compute; reflexivity.
Qed.

(** C9, amended.  [extract_one] and [extract_all] on a response add and
    remove no object and leave the requests, the count of GETs and the
    trace as they are; whatever the outcome, every object that is not a
    primary scope (an object stored under the model name in some
    dictionary) is unchanged, a list is unchanged, and a dictionary that is
    a primary scope keeps its keys and its own entry for the model name.
    When [extract_one] returns a record, one object has changed, the
    primary scope of [data]; when [extract_all] returns records (of
    objects with a primary scope, no primary scope being shared, as in
    every decoded body), the primary scopes of the objects have changed
    and nothing else.  Each of these primary scopes has become the merged
    scope: under the name of every sibling scope of its object it holds
    that sibling scope, and under every other key the field it had.  The
    record holds under every key but [id] the very value the merged scope
    holds.  When no object has a sibling scope nothing changes. *)
Theorem C9_extraction_changes_primary_scopes_only
    (self : Response.t) (model_name : option string) (name : string) (w : world) :
  Response.model_name_or_target self model_name w = (Ok name, w) ->
  world_frame name w (snd (Response.extract_one self model_name w)) /\
  world_frame name w (snd (Response.extract_all self model_name w)) /\
  (forall l d model w',
      Response.data self = VRef l ->
      store w !! l = Some (ODict d) ->
      Response.extract_one self model_name w = (Ok (Some model), w') ->
      exists lm dm,
        dict_get name d = Some (VRef lm) /\
        store w !! lm = Some (ODict dm) /\
        w' = set_store (<[lm := ODict (dict_update dm (relative_scopes name d))]> (store w))
                       w /\
        ((forall k, k ∈ dict_keys d -> k = name) -> w' = w) /\
        (wf_store (store w) ->
         (forall k, dict_get k (dict_update dm (relative_scopes name d))
                    = source_value name d dm k) /\
         (forall k, k <> "id" ->
                    dict_get k model
                    = dict_get k (dict_update dm (relative_scopes name d))))) /\
  (forall l d infos models w',
      wf_store (store w) ->
      data_for_extract_all self w = (Ok (VRef l), w) ->
      store w !! l = Some (ODict d) ->
      Forall2 (entry_shape name (store w)) d infos ->
      separated l infos ->
      Response.extract_all self model_name w = (Ok (Some models), w') ->
      w' = set_store (merge_all name infos (store w)) w /\
      (forall x, Forall (fun i => e_primary i <> x) infos ->
                 store w' !! x = store w !! x) /\
      Forall2 (fun info model =>
                 store w' !! e_primary info = Some (ODict (merged_of name info)) /\
                 (forall k, dict_get k (merged_of name info)
                            = source_value name (e_items info) (e_fields info) k) /\
                 (forall k, k <> "id" ->
                            dict_get k model = dict_get k (merged_of name info)))
              infos models /\
      (Forall (fun i => forall k, k ∈ dict_keys (e_items i) -> k = name) infos ->
       w' = w)).
Proof.
  intros Hname. split; [|split; [|split]].
  - unfold Response.extract_one. rewrite (bind_ok _ _ _ _ _ Hname).
    apply extract_one_frame.
  - unfold Response.extract_all. rewrite (bind_ok _ _ _ _ _ Hname).
    apply bind_frame; [apply readonly_frame, readonly_read|]. intros has_page w1.
    apply bind_frame.
    + apply readonly_frame. destruct has_page; [apply readonly_read | apply readonly_ret].
    + intros data w2. apply extract_all_frame.
  - intros l d model w' Hdata Hl Hrun.
    unfold Response.extract_one in Hrun. rewrite (bind_ok _ _ _ _ _ Hname) in Hrun.
    rewrite Hdata in Hrun.
    destruct (extract_one_inv w w' l d name model Hl Hrun)
      as (lm & dm & Hk & Hm & Hw & Hfill).
    exists lm, dm. split; [exact Hk|]. split; [exact Hm|]. split; [exact Hw|]. split.
    + intros Hnone. rewrite Hw, (relative_scopes_none name d Hnone). simpl.
      rewrite list_insert_id by exact Hm. apply set_store_same.
    + intros Hwf.
      assert (Hd : NoDup (dict_keys d)) by (eapply Hwf; exact Hl).
      split; [intros k; now apply merged_get|].
      intros k Hk'.
      assert (Hc : coerced (dict_update dm (relative_scopes name d)) model).
      { apply fill_coerced; [|exact Hfill]. apply dict_update_NoDup.
        eapply Hwf; exact Hm. }
      destruct (coerced_record_of name d dm model Hd Hc) as (_ & Hval & _).
      rewrite (Hval k Hk'). symmetry. now apply merged_get.
  - intros l d infos models w' Hwf Hdata Hl Hshape Hsep Hrun.
    rewrite Response_extract_all_eq in Hrun.
    rewrite (bind_ok _ _ _ _ _ Hname), (bind_ok _ _ _ _ _ Hdata) in Hrun.
    assert (Hd : d <> []).
    { intros ->. unfold Mapper.extract_all, bind, read in Hrun. simpl in Hrun.
      rewrite Hl in Hrun. simpl in Hrun. discriminate. }
    pose proof (extract_all_merged w w' l d name infos models Hwf Hl Hshape Hsep Hrun)
      as Hall.
    pose proof (entry_shapes_NoDup _ _ _ _ Hwf Hshape) as Hnd.
    rewrite (extract_all_run name l d w infos Hl Hd Hshape Hsep) in Hrun.
    destruct (run_entries name infos (store w) []) as [[ms|e] h'] eqn:Hre;
      simpl in Hrun; [|discriminate].
    injection Hrun as _ <-.
    apply run_entries_ok_store in Hre. subst h'.
    split; [reflexivity|]. split; [|split].
    + intros x Hx. simpl. now apply merge_all_out.
    + eapply Forall2_impl; [exact (Forall_Forall2_l _ _ _ _ Hnd Hall)|].
      intros info model (Hi & Hp & Hc). split; [exact Hp|].
      split; [intros k; now apply merged_get|].
      intros k Hk.
      destruct (coerced_record_of name (e_items info) (e_fields info) model Hi Hc)
        as (_ & Hval & _).
      rewrite (Hval k Hk). symmetry. now apply merged_get.
    + intros Hnone. rewrite merge_all_id; [apply set_store_same|].
      pose proof (entry_shapes_primary _ _ _ _ Hshape) as Hprim.
      apply Forall_forall. intros i Hi.
      rewrite (proj1 (Forall_forall _ _) Hprim i Hi). unfold merged_of.
      now rewrite (relative_scopes_none name (e_items i)
                     (proj1 (Forall_forall _ _) Hnone i Hi)).
Qed.

Lemma C9_witness :
  (world_frame "Conversion" (snd sample_response)
     (snd (Response.extract_one (fst sample_response) None (snd sample_response))) /\
   world_frame "Conversion" (snd sample_response)
     (snd (Response.extract_all (fst sample_response) None (snd sample_response)))) /\
  (snd (Response.extract_all (fst page_response) None (snd page_response))
   = set_store (merge_all "Offer" page_infos (store (snd page_response)))
               (snd page_response) /\
   (forall x, Forall (fun i => e_primary i <> x) page_infos ->
              store (snd (Response.extract_all (fst page_response) None
                                               (snd page_response))) !! x
              = store (snd page_response) !! x) /\
   Forall2 (fun info model =>
              store (snd (Response.extract_all (fst page_response) None
                                               (snd page_response)))
                !! e_primary info = Some (ODict (merged_of "Offer" info)) /\
              (forall k, dict_get k (merged_of "Offer" info)
                         = source_value "Offer" (e_items info) (e_fields info) k) /\
              (forall k, k <> "id" ->
                         dict_get k model = dict_get k (merged_of "Offer" info)))
           page_infos [[("id", VInt 7)]] /\
   (Forall (fun i => forall k, k ∈ dict_keys (e_items i) -> k = "Offer") page_infos ->
    snd (Response.extract_all (fst page_response) None (snd page_response))
    = snd page_response)).
Proof.
  split.
  - pose proof (C9_extraction_changes_primary_scopes_only
                  (fst sample_response) None "Conversion" (snd sample_response)) as H.
    destruct H as (H1 & H2 & _); [vm_compute; reflexivity|]. split; assumption.
  - refine (proj2 (proj2 (proj2 (C9_extraction_changes_primary_scopes_only
                                   (fst page_response) None "Offer" (snd page_response)
                                   _)))
                  2%nat [("7", VRef 1%nat)] page_infos [[("id", VInt 7)]] _
                  _ _ _ _ _ _).
    + vm_compute. reflexivity.
    + replace (store (snd page_response)) with (store (snd (decoded page_body)))
        by (vm_compute; reflexivity).
      apply decoded_wf.
    + vm_compute. reflexivity.
    + reflexivity.
    + repeat constructor.
    + simpl. split; [lia|]. split; [constructor | exact I].
    + vm_compute. reflexivity.
Defined.

(** C10.  After the merge the primary scope has, under the name of every
    sibling scope, that sibling scope, whatever field it had under the
    name; and so has the record (a sibling named [id] apart, which [int]
    is applied to).  This holds for [extract_one] and, under the conditions
    of C4, for every object of [extract_all]; on an object whose primary
    scope has a field [Offer] next to a sibling scope [Offer], the record's
    [Offer] is the sibling scope. *)
Theorem C10_sibling_overwrites_primary_field
    (w : world) (l : loc) (d : dict val) (model_name : string) :
  wf_store (store w) ->
  store w !! l = Some (ODict d) ->
  (forall model w' k sibling,
      Mapper.extract_one (VRef l) model_name w = (Ok (Some model), w') ->
      dict_get k d = Some sibling ->
      k <> model_name ->
      exists lm merged,
        dict_get model_name d = Some (VRef lm) /\
        store w' !! lm = Some (ODict merged) /\
        dict_get k merged = Some sibling /\
        (k <> "id" -> dict_get k model = Some sibling)) /\
  (forall infos models w',
      Forall2 (entry_shape model_name (store w)) d infos ->
      separated l infos ->
      Mapper.extract_all (VRef l) model_name w = (Ok (Some models), w') ->
      Forall2 (fun info model =>
                 forall k sibling,
                   dict_get k (e_items info) = Some sibling ->
                   k <> model_name ->
                   exists merged,
                     store w' !! e_primary info = Some (ODict merged) /\
                     dict_get k merged = Some sibling /\
                     (k <> "id" -> dict_get k model = Some sibling))
              infos models) /\
  (exists primary_scope offer w',
      py_getitem (store (snd (decoded collision))) (fst (decoded collision)) "Conversion"
      = Ok primary_scope /\
      py_getitem (store (snd (decoded collision))) primary_scope "Offer"
      = Ok (VStr "a field") /\
      Mapper.extract_one (fst (decoded collision)) "Conversion" (snd (decoded collision))
      = (Ok (Some [("id", VInt 5); ("Offer", offer)]), w') /\
      py_getitem (store w') primary_scope "Offer" = Ok offer /\
      represents (store w') offer (JDict [("id", JStr "2")])).
Proof.
  intros Hwf Hl. split; [|split].
  - intros model w' k sibling Hrun Hk Hne.
    destruct (extract_one_merged w w' l d model_name model Hwf Hl Hrun)
      as (lm & dm & Hn & _ & Hm & Hc).
    assert (Hs : dict_get k (dict_update dm (relative_scopes model_name d)) = Some sibling)
      by (apply merged_sibling; [now apply (Hwf l) | exact Hk | exact Hne]).
    exists lm. eexists. split; [exact Hn|]. split; [exact Hm|]. split; [exact Hs|].
    intros Hid. now apply (coerced_other_key _ _ _ _ Hc Hs).
  - intros infos models w' Hshape Hsep Hrun.
    pose proof (extract_all_merged w w' l d model_name infos models Hwf Hl Hshape Hsep Hrun)
      as Hm.
    clear -Hm Hshape Hwf. revert d Hshape.
    induction Hm as [|info model infos' ms [Hp Hc] _ IH]; intros d Hshape; [constructor|].
    apply Forall2_cons_inv_r in Hshape as (entry & d' & (_ & Hs & _ & _) & Hrest & ->).
    constructor; [|now apply (IH d')].
    intros k sibling Hk Hne.
    assert (Hsib : dict_get k (merged_of model_name info) = Some sibling)
      by (apply merged_sibling; [now apply (Hwf (e_scope info)) | exact Hk | exact Hne]).
    eexists. split; [exact Hp|]. split; [exact Hsib|].
    intros Hid. now apply (coerced_other_key _ _ _ _ Hc Hsib).
  - do 3 eexists. split; [reflexivity|]. split; [reflexivity|].
    split; [vm_compute; reflexivity|].
    split; [reflexivity|]. eapply represents_dict; [reflexivity|]. repeat constructor.
Qed.

Lemma C10_witness :
  (exists lm merged,
      dict_get "Conversion" [("Conversion", VRef 0%nat); ("Offer", VRef 1%nat)]
      = Some (VRef lm) /\
      store (snd (Mapper.extract_one (VRef 2%nat) "Conversion" (snd (decoded collision))))
        !! lm = Some (ODict merged) /\
      dict_get "Offer" merged = Some (VRef 1%nat) /\
      ("Offer" <> "id" ->
       dict_get "Offer" [("id", VInt 5); ("Offer", VRef 1%nat)] = Some (VRef 1%nat))) /\
  Forall2 (fun info model =>
             forall k sibling,
               dict_get k (e_items info) = Some sibling ->
               k <> "Conversion" ->
               exists merged,
                 store (snd (Mapper.extract_all (VRef 3%nat) "Conversion"
                                                (snd (decoded conversions))))
                   !! e_primary info = Some (ODict merged) /\
                 dict_get k merged = Some sibling /\
                 (k <> "id" -> dict_get k model = Some sibling))
          [conversions_info]
          [[("id", VInt 5); ("payout", VStr "10"); ("Offer", VRef 1%nat)]].
Proof.
  split.
  - refine (proj1 (C10_sibling_overwrites_primary_field (snd (decoded collision)) 2%nat
                     [("Conversion", VRef 0%nat); ("Offer", VRef 1%nat)] "Conversion" _ _)
                  [("id", VInt 5); ("Offer", VRef 1%nat)] _ "Offer" (VRef 1%nat) _ _ _).
    + apply decoded_wf.
    + reflexivity.
    + vm_compute. reflexivity.
    + reflexivity.
    + discriminate.
  - refine (proj1 (proj2 (C10_sibling_overwrites_primary_field
                            (snd (decoded conversions)) 3%nat
                            [("1", VRef 2%nat)] "Conversion" _ _))
                  [conversions_info] _ _ _ _ _).
    + apply decoded_wf.
    + reflexivity.
    + repeat constructor.
    + simpl. split; [lia|]. split; [constructor | exact I].
    + vm_compute. reflexivity.
Defined.

(** * Further properties of the client *)

(** ** [send_request], whatever the server answers *)

(** X1.  Whatever the server answers, [send_request] issues at least one
    GET and at most [max 1 (retry_count - attempts)] GETs, all at the URL
    of the request, with one delay of 250 ms between two consecutive GETs
    and none before the first or after the last; the attempts of the
    request grow by the number of GETs, no other request is changed, and
    the store only gets new objects. *)
Theorem X1_send_request_attempts_bounded
    (ext : externals) (self : Api.t) (request : Request.t) (w : world)
    (r : request_obj) :
  requests w !! request = Some r ->
  exists k,
    (1 <= k)%nat /\
    Z.of_nat k <= Z.max 1 (Api.retry_count self - attempts r) /\
    sent (snd (Api.send_request ext self request w)) = (sent w + k)%nat /\
    wire (trace (snd (Api.send_request ext self request w)))
    = wire (trace w) ++ attempts_wire (url r) k /\
    requests (snd (Api.send_request ext self request w))
    = <[request := with_attempts r (attempts r + Z.of_nat k)]> (requests w) /\
    exists objs, store (snd (Api.send_request ext self request w)) = store w ++ objs.
Proof.
  intros Hr.
  destruct (send_request_run ext self request w r Hr)
    as (k & Hk & Hbound & (Hs & Hq & Hst & t & Ht & _ & Hw) & _ & _).
  exists k. split; [exact Hk|]. split; [lia|]. split; [exact Hs|].
  split; [now rewrite Ht, wire_app, Hw|]. split; assumption.
Qed.

Lemma X1_witness :
  requests one_request !! 0%nat = Some fresh_request /\
  exists k,
    (1 <= k)%nat /\
    Z.of_nat k <= Z.max 1 (Api.retry_count (client 3) - attempts fresh_request) /\
    sent (snd (Api.send_request (server_always rate_limit_body) (client 3) 0%nat
                                one_request))
    = (sent one_request + k)%nat /\
    wire (trace (snd (Api.send_request (server_always rate_limit_body) (client 3) 0%nat
                                       one_request)))
    = wire (trace one_request) ++ attempts_wire (url fresh_request) k /\
    requests (snd (Api.send_request (server_always rate_limit_body) (client 3) 0%nat
                                    one_request))
    = <[0%nat := with_attempts fresh_request (attempts fresh_request + Z.of_nat k)]>
        (requests one_request) /\
    exists objs,
      store (snd (Api.send_request (server_always rate_limit_body) (client 3) 0%nat
                                   one_request))
      = store one_request ++ objs.
Proof.
  split; [reflexivity|].
  apply (X1_send_request_attempts_bounded
           (server_always rate_limit_body) (client 3) 0%nat one_request fresh_request).
  reflexivity.
Defined.

(** X2.  [send_request] returns a [Response] only for an answer whose
    envelope has a status equal to 1: the response holds the request and
    the decoded body of the last GET, and that body has
    [body['response']['status'] == 1]. *)
Theorem X2_response_only_for_status_1
    (ext : externals) (self : Api.t) (request : Request.t) (w w' : world)
    (r : request_obj) (resp : Response.t) :
  requests w !! request = Some r ->
  Api.send_request ext self request w = (Ok resp, w') ->
  Response.request resp = request /\
  exists status_code body status,
    net ext (sent w' - 1) (url r) = Reply status_code (Some body) /\
    json_field body "status" = Ok status /\
    json_eq_int status 1 = true /\
    represents (store w') (Response.json_response resp) body.
Proof.
  intros Hr Hrun.
  destruct (send_request_run ext self request w r Hr) as (k & _ & _ & _ & _ & Hok & _).
  rewrite Hrun in Hok. exact (Hok resp eq_refl).
Qed.

Lemma X2_witness :
  requests one_request !! 0%nat = Some fresh_request /\
  Api.send_request (server_after 1 success_body) (client 2) 0%nat one_request
  = (Ok (response_of retried_run), snd retried_run) /\
  Response.request (response_of retried_run) = 0%nat /\
  exists status_code body status,
    net (server_after 1 success_body) (sent (snd retried_run) - 1) (url fresh_request)
    = Reply status_code (Some body) /\
    json_field body "status" = Ok status /\
    json_eq_int status 1 = true /\
    represents (store (snd retried_run))
               (Response.json_response (response_of retried_run)) body.
Proof.
  assert (Hrun :
    Api.send_request (server_after 1 success_body) (client 2) 0%nat one_request
    = (Ok (response_of retried_run), snd retried_run))
    by (vm_compute; reflexivity).
  split; [reflexivity|]. split; [exact Hrun|].
  exact (X2_response_only_for_status_1
           (server_after 1 success_body) (client 2) 0%nat one_request _
           fresh_request _ eq_refl Hrun).
Defined.

(** X3.  [send_request] raises [APIUsageExceededRateLimit] only when no
    attempt is left: [retry_count] is at most 1 or the attempts of the
    request have reached it; the last GET was answered by a rate-limit
    envelope, and the exception carries its [errorMessage]. *)
Theorem X3_rate_limit_raised_only_when_exhausted
    (ext : externals) (self : Api.t) (request : Request.t) (w w' : world)
    (r : request_obj) (x : val) :
  requests w !! request = Some r ->
  Api.send_request ext self request w = (Raise (APIUsageExceededRateLimit x), w') ->
  (exists r',
     requests w' !! request = Some r' /\
     (Api.retry_count self <= 1 \/ Api.retry_count self <= attempts r')) /\
  exists status_code body message,
    net ext (sent w' - 1) (url r) = Reply status_code (Some body) /\
    rate_limited body message /\
    represents (store w') x message.
Proof.
  intros Hr Hrun.
  destruct (send_request_run ext self request w r Hr)
    as (k & _ & _ & (_ & Hq & _) & _ & _ & Hlim).
  rewrite Hrun in Hlim, Hq. simpl in Hq.
  destruct (Hlim x eq_refl) as [Hb Hrest]. split; [|exact Hrest].
  exists (with_attempts r (attempts r + Z.of_nat k)). split; [|exact Hb].
  rewrite Hq. apply list_lookup_insert_eq. eapply lookup_lt_Some; eassumption.
Qed.

Lemma X3_witness :
  requests one_request !! 0%nat = Some fresh_request /\
  Api.send_request (server_always rate_limit_body) (client 3) 0%nat one_request
  = (Raise (APIUsageExceededRateLimit
              (VStr "API usage exceeded rate limit. Try again later.")),
     snd exhausted_run) /\
  (exists r',
     requests (snd exhausted_run) !! 0%nat = Some r' /\
     (Api.retry_count (client 3) <= 1 \/ Api.retry_count (client 3) <= attempts r')) /\
  exists status_code body message,
    net (server_always rate_limit_body) (sent (snd exhausted_run) - 1)
        (url fresh_request) = Reply status_code (Some body) /\
    rate_limited body message /\
    represents (store (snd exhausted_run))
               (VStr "API usage exceeded rate limit. Try again later.") message.
Proof.
  assert (Hrun :
    Api.send_request (server_always rate_limit_body) (client 3) 0%nat one_request
    = (Raise (APIUsageExceededRateLimit
                (VStr "API usage exceeded rate limit. Try again later.")),
       snd exhausted_run))
    by (vm_compute; reflexivity).
  split; [reflexivity|]. split; [exact Hrun|].
  exact (X3_rate_limit_raised_only_when_exhausted
           (server_always rate_limit_body) (client 3) 0%nat one_request _
           fresh_request _ eq_refl Hrun).
Defined.

(** X4.  [send_request] goes for another attempt only after a rate-limit
    answer: every GET of a run but the last one was answered by an
    envelope with a status other than 1 whose [errorMessage] contains the
    rate-limit text. *)
Theorem X4_retry_only_after_rate_limit
    (ext : externals) (self : Api.t) (request : Request.t) (w : world)
    (r : request_obj) (i : nat) :
  requests w !! request = Some r ->
  (sent w + S i < sent (snd (Api.send_request ext self request w)))%nat ->
  exists status_code body message,
    net ext (sent w + i) (url r) = Reply status_code (Some body) /\
    rate_limited body message.
Proof.
  intros Hr Hi.
  destruct (send_request_run ext self request w r Hr)
    as (k & _ & _ & (Hs & _) & Hret & _).
  apply Hret. lia.
Qed.

Lemma X4_witness :
  requests one_request !! 0%nat = Some fresh_request /\
  (sent one_request + 1 < sent (snd retried_run))%nat /\
  exists status_code body message,
    net (server_after 1 success_body) (sent one_request + 0) (url fresh_request)
    = Reply status_code (Some body) /\
    rate_limited body message.
Proof.
  split; [reflexivity|]. split; [vm_compute; lia|].
  apply (X4_retry_only_after_rate_limit
           (server_after 1 success_body) (client 2) 0%nat one_request fresh_request 0).
  - reflexivity.
  - vm_compute. lia.
Defined.

(** X5.  Every line [send_request] logs is at the level of the client:
    [INFO] for a client made with [debug], [DEBUG] otherwise.  The logger
    of the module is set to [INFO], so the run of a client made without
    [debug] writes no line and the run of a client made with [debug]
    writes all of them. *)
Theorem X5_debug_decides_what_is_written
    (ext : externals) (network_token network_id : json) (debug : bool)
    (retry_count : Z) (request : Request.t) (w : world) (r : request_obj) :
  requests w !! request = Some r ->
  exists t,
    trace (snd (Api.send_request ext
                  (Api.__init__ network_token network_id debug retry_count)
                  request w)) = trace w ++ t /\
    logs_at (if debug then INFO else DEBUG) t /\
    written t = if debug then log_lines t else [].
Proof.
  intros Hr.
  destruct (send_request_run ext (Api.__init__ network_token network_id debug retry_count)
                             request w r Hr)
    as (k & _ & _ & (_ & _ & _ & t & Ht & Hl & _) & _ & _).
  exists t. split; [exact Ht|]. split; [exact Hl|].
  rewrite (logs_at_written _ _ Hl). simpl. now destruct debug.
Qed.

Lemma X5_witness :
  requests one_request !! 0%nat = Some fresh_request /\
  exists t,
    trace (snd (Api.send_request (server_always rate_limit_body)
                  (Api.__init__ (JStr "token") (JStr "id") true 2) 0%nat one_request))
    = trace one_request ++ t /\
    logs_at (if true then INFO else DEBUG) t /\
    written t = if true then log_lines t else [].
Proof.
  split; [reflexivity|].
  apply (X5_debug_decides_what_is_written
           (server_always rate_limit_body) (JStr "token") (JStr "id") true 2 0%nat
           one_request fresh_request).
  reflexivity.
Defined.

(** X6.  After a rate-limit answer with attempts left, [send_request]
    goes on as a call of [send_request] on the same request would, once
    the retry is logged and the delay has passed: the attempts made so far
    are kept in the request and count against [retry_count]. *)
Theorem X6_retry_is_send_request_again
    (ext : externals) (self : Api.t) (request : Request.t) (w : world)
    (r : request_obj) (status_code : Z) (body message : json) :
  requests w !! request = Some r ->
  net ext (sent w) (url r) = Reply status_code (Some body) ->
  rate_limited body message ->
  1 < Api.retry_count self ->
  attempts r + 1 < Api.retry_count self ->
  Api.send_request ext self request w =
  Api.send_request ext self request
    (slept self (attempts r + 1) (received self request r status_code body w)).
Proof.
  intros Hr Hnet Hlim H1 H2.
  rewrite (send_request_unfold ext self request w r Hr).
  destruct (attempt_limited ext self
              (Z.to_nat (Api.retry_count self - attempts r - 1))
              request w r status_code body message Hr Hnet Hlim) as (x & _ & ->).
  apply Z.ltb_lt in H1 as H1'. apply Z.ltb_lt in H2 as H2'. rewrite H1', H2'. simpl.
  pose proof (received_lookup self request r status_code body w Hr) as Hr1.
  rewrite (send_request_unfold ext self request
             (slept self (attempts r + 1) (received self request r status_code body w))
             (attempted r) Hr1).
  simpl attempts.
  replace (Z.to_nat (Api.retry_count self - attempts r - 1))
    with (S (Z.to_nat (Api.retry_count self - (attempts r + 1) - 1))) by lia.
  reflexivity.
Qed.

Lemma X6_witness :
  requests one_request !! 0%nat = Some fresh_request /\
  net (server_after 1 success_body) (sent one_request) (url fresh_request)
  = Reply 429 (Some rate_limit_body) /\
  rate_limited rate_limit_body rate_limit_message /\
  1 < Api.retry_count (client 2) /\
  attempts fresh_request + 1 < Api.retry_count (client 2) /\
  Api.send_request (server_after 1 success_body) (client 2) 0%nat one_request =
  Api.send_request (server_after 1 success_body) (client 2) 0%nat
    (slept (client 2) (attempts fresh_request + 1)
           (received (client 2) 0%nat fresh_request 429 rate_limit_body one_request)).
Proof.
  split; [reflexivity|]. split; [reflexivity|].
  split; [exact rate_limit_body_limited|].
  split; [reflexivity|]. split; [reflexivity|].
  apply (X6_retry_is_send_request_again
           (server_after 1 success_body) (client 2) 0%nat one_request fresh_request
           429 rate_limit_body rate_limit_message);
    [reflexivity | reflexivity | exact rate_limit_body_limited | reflexivity | reflexivity].
Defined.

(** X7.  A failure of the transport is not retried: when [requests.get]
    raises, or the body of the answer is not JSON, the exception leaves
    [send_request] after this one GET, without a delay, whatever
    [retry_count] is; the attempt is counted in the request. *)
Theorem X7_transport_failure_not_retried
    (ext : externals) (self : Api.t) (request : Request.t) (w : world)
    (r : request_obj) :
  requests w !! request = Some r ->
  (forall what,
     net ext (sent w) (url r) = NoReply what ->
     Api.send_request ext self request w
     = (Raise (TransportFailure what), asked self request r w)) /\
  (forall status_code,
     net ext (sent w) (url r) = Reply status_code None ->
     Api.send_request ext self request w
     = (Raise ValueError,
        World (store w) (requests (asked self request r w)) (S (sent w))
              (trace (asked self request r w)
               ++ [EvLog (Api.level self) (Received status_code)]))).
Proof.
  intros Hr. rewrite (send_request_unfold ext self request w r Hr). split.
  - intros what Hnet. now apply attempt_no_answer.
  - intros status_code Hnet. now apply attempt_not_json.
Qed.

Lemma X7_witness :
  requests one_request !! 0%nat = Some fresh_request /\
  Api.send_request server_down (client 5) 0%nat one_request
  = (Raise (TransportFailure "ConnectionError"),
     asked (client 5) 0%nat fresh_request one_request) /\
  Api.send_request server_html (client 5) 0%nat one_request
  = (Raise ValueError,
     World (store one_request)
           (requests (asked (client 5) 0%nat fresh_request one_request))
           (S (sent one_request))
           (trace (asked (client 5) 0%nat fresh_request one_request)
            ++ [EvLog (Api.level (client 5)) (Received 502)])).
Proof.
  split; [reflexivity|]. split.
  - apply (proj1 (X7_transport_failure_not_retried
                    server_down (client 5) 0%nat one_request fresh_request eq_refl)).
    reflexivity.
  - apply (proj2 (X7_transport_failure_not_retried
                    server_html (client 5) 0%nat one_request fresh_request eq_refl)).
    reflexivity.
Defined.

(** X8.  When every answer is a rate-limit envelope, [send_request] on a
    request with [attempts >= 0] makes exactly
    [max 1 (retry_count - attempts)] GETs, with a delay between two
    consecutive ones, and then raises [APIUsageExceededRateLimit]. *)
Theorem X8_rate_limited_until_exhausted
    (ext : externals) (self : Api.t) (request : Request.t) (w : world)
    (r : request_obj) :
  requests w !! request = Some r ->
  0 <= attempts r ->
  (forall n, (sent w <= n)%nat ->
     exists status_code body message,
       net ext n (url r) = Reply status_code (Some body) /\ rate_limited body message) ->
  (exists x, fst (Api.send_request ext self request w)
             = Raise (APIUsageExceededRateLimit x)) /\
  sent (snd (Api.send_request ext self request w))
  = (sent w + Z.to_nat (Z.max 1 (Api.retry_count self - attempts r)))%nat /\
  wire (trace (snd (Api.send_request ext self request w)))
  = wire (trace w)
    ++ attempts_wire (url r) (Z.to_nat (Z.max 1 (Api.retry_count self - attempts r))).
Proof.
  intros Hr Ha Hall. rewrite (send_request_unfold ext self request w r Hr).
  destruct (send_request_aux_all_limited ext self request
              (Z.to_nat (Api.retry_count self - attempts r - 1)) w r Hr Ha)
    as (Hx & Hs & _ & _ & t & Ht & _ & Hw); [lia | exact Hall |].
  split; [exact Hx|]. split; [exact Hs|]. now rewrite Ht, wire_app, Hw.
Qed.

Lemma X8_witness :
  requests one_request !! 0%nat = Some fresh_request /\
  0 <= attempts fresh_request /\
  (exists x, fst (Api.send_request (server_always rate_limit_body) (client 4) 0%nat
                                   one_request)
             = Raise (APIUsageExceededRateLimit x)) /\
  sent (snd (Api.send_request (server_always rate_limit_body) (client 4) 0%nat
                              one_request))
  = (sent one_request
     + Z.to_nat (Z.max 1 (Api.retry_count (client 4) - attempts fresh_request)))%nat /\
  wire (trace (snd (Api.send_request (server_always rate_limit_body) (client 4) 0%nat
                                     one_request)))
  = wire (trace one_request)
    ++ attempts_wire (url fresh_request)
         (Z.to_nat (Z.max 1 (Api.retry_count (client 4) - attempts fresh_request))).
Proof.
  split; [reflexivity|]. split; [simpl; lia|].
  apply (X8_rate_limited_until_exhausted
           (server_always rate_limit_body) (client 4) 0%nat one_request fresh_request).
  - reflexivity.
  - simpl. lia.
  - intros n _. exists 200, rate_limit_body, rate_limit_message.
    split; [reflexivity | exact rate_limit_body_limited].
Defined.

(** ** [create_request], [Request] and [call] *)

(** X9.  [create_request] sends nothing: it adds one request with no
    attempt, the given target and method, and the URL
    [ROOT + target + '.json?' + http_build_query(params)], or raises what
    [http_build_query] raises and adds nothing.  The parameters of the
    request are [NetworkId], [NetworkToken] and [Method], in this order,
    followed by the other keys of the caller in the caller's order; a key
    the caller gives, one of these three included, has the caller's
    value. *)
Theorem X9_create_request_params
    (ext : externals) (self : Api.t) (tgt meth : string)
    (given : option (dict json)) (w : world) :
  NoDup (dict_keys (default [] given)) ->
  exists sent_params,
    Api.create_request ext self tgt meth given w
    = match http_build_query ext sent_params with
      | Ok q =>
          (Ok (length (requests w)),
           World (store w)
                 (requests w ++ [RequestObj tgt meth sent_params 0 (call_url tgt q)])
                 (sent w) (trace w))
      | Raise e => (Raise e, w)
      end /\
    dict_keys sent_params
    = ["NetworkId"; "NetworkToken"; "Method"]
      ++ new_keys (default_params self meth) (default [] given) /\
    forall k,
      dict_get k sent_params
      = match dict_get k (default [] given) with
        | Some v => Some v
        | None => dict_get k (default_params self meth)
        end.
Proof.
  intros Hnd. exists (call_params self meth given).
  assert (Hp : call_params self meth given
               = dict_update (default_params self meth) (default [] given)).
  { unfold call_params. now destruct given. }
  split; [|split].
  - unfold Api.create_request, Request.__init__, Request.build_url. cbv zeta.
    change (dict_update _ _) with (call_params self meth given).
    unfold bind, lift, ret, call_url.
    now destruct (http_build_query ext (call_params self meth given)).
  - rewrite Hp. now rewrite dict_update_keys.
  - intros k. rewrite Hp. now apply dict_get_update.
Qed.

Lemma X9_witness :
  NoDup (dict_keys (default [] (Some [("limit", JInt 10); ("Method", JStr "findById")]))) /\
  exists sent_params,
    Api.create_request (server_always success_body) (client 1) "Offer" "findAll"
                       (Some [("limit", JInt 10); ("Method", JStr "findById")])
                       empty_world
    = match http_build_query (server_always success_body) sent_params with
      | Ok q =>
          (Ok (length (requests empty_world)),
           World (store empty_world)
                 (requests empty_world
                  ++ [RequestObj "Offer" "findAll" sent_params 0 (call_url "Offer" q)])
                 (sent empty_world) (trace empty_world))
      | Raise e => (Raise e, empty_world)
      end /\
    dict_keys sent_params
    = ["NetworkId"; "NetworkToken"; "Method"]
      ++ new_keys (default_params (client 1) "findAll")
                  (default [] (Some [("limit", JInt 10); ("Method", JStr "findById")])) /\
    forall k,
      dict_get k sent_params
      = match dict_get k (default [] (Some [("limit", JInt 10); ("Method", JStr "findById")])) with
        | Some v => Some v
        | None => dict_get k (default_params (client 1) "findAll")
        end.
Proof.
  assert (Hnd : NoDup (dict_keys
                         (default [] (Some [("limit", JInt 10); ("Method", JStr "findById")]))))
    by (simpl; refine (bool_decide_unpack _ _); vm_compute; exact I).
  split; [exact Hnd|].
  exact (X9_create_request_params (server_always success_body) (client 1) "Offer" "findAll"
           (Some [("limit", JInt 10); ("Method", JStr "findById")]) empty_world Hnd).
Defined.

(** X10.  When [http_build_query] raises on the parameters, [call] raises
    the same exception before anything is sent: no GET, no log line, no
    request, the world is the one before the call. *)
Theorem X10_call_sends_nothing_when_query_fails
    (ext : externals) (self : Api.t) (tgt meth : string)
    (given : option (dict json)) (w : world) (e : exn) :
  http_build_query ext (dict_update (default_params self meth) (default [] given)) = Raise e ->
  Api.call ext self tgt meth given w = (Raise e, w).
Proof.
  intros Hq. apply call_bad_params.
  unfold call_params. now destruct given.
Qed.

Lemma X10_witness :
  http_build_query server_bad_query
    (dict_update (default_params (client 3) "findAll") (default [] None))
  = Raise TypeError /\
  Api.call server_bad_query (client 3) "Offer" "findAll" None empty_world
  = (Raise TypeError, empty_world).
Proof.
  split; [reflexivity|].
  apply (X10_call_sends_nothing_when_query_fails server_bad_query (client 3)
           "Offer" "findAll" None empty_world TypeError).
  reflexivity.
Defined.

(** X11.  Whatever the server answers, [call] makes at least one GET and
    at most [max 1 retry_count] GETs when the query string can be built,
    all of them at [ROOT + target + '.json?' + query], with a delay of
    250 ms between two consecutive GETs only. *)
Theorem X11_call_attempts_bounded
    (ext : externals) (self : Api.t) (tgt meth : string)
    (given : option (dict json)) (w : world) (q : string) :
  http_build_query ext (dict_update (default_params self meth) (default [] given)) = Ok q ->
  exists k,
    (1 <= k)%nat /\
    Z.of_nat k <= Z.max 1 (Api.retry_count self) /\
    sent (snd (Api.call ext self tgt meth given w)) = (sent w + k)%nat /\
    wire (trace (snd (Api.call ext self tgt meth given w)))
    = wire (trace w) ++ attempts_wire (call_url tgt q) k.
Proof.
  intros Hq.
  assert (Hq' : http_build_query ext (call_params self meth given) = Ok q).
  { unfold call_params. now destruct given. }
  rewrite (call_eq ext self tgt meth given q w Hq').
  set (r := RequestObj tgt meth (call_params self meth given) 0 (call_url tgt q)).
  set (w0 := World (store w) (requests w ++ [r]) (sent w) (trace w)).
  assert (Hr : requests w0 !! length (requests w) = Some r).
  { simpl. rewrite lookup_app_r by lia. now rewrite Nat.sub_diag. }
  destruct (send_request_run ext self (length (requests w)) w0 r Hr)
    as (k & Hk & Hbound & (Hs & _ & _ & t & Ht & _ & Hw) & _ & _).
  exists k. split; [exact Hk|]. split; [simpl in Hbound; lia|].
  split; [exact Hs|]. now rewrite Ht, wire_app, Hw.
Qed.

Lemma X11_witness :
  http_build_query (server_after 1 success_body)
    (dict_update (default_params (client 2) "findAll") (default [] None))
  = Ok "Method=findAll" /\
  exists k,
    (1 <= k)%nat /\
    Z.of_nat k <= Z.max 1 (Api.retry_count (client 2)) /\
    sent (snd (Api.call (server_after 1 success_body) (client 2) "Offer" "findAll" None
                        empty_world))
    = (sent empty_world + k)%nat /\
    wire (trace (snd (Api.call (server_after 1 success_body) (client 2) "Offer" "findAll"
                               None empty_world)))
    = wire (trace empty_world) ++ attempts_wire (call_url "Offer" "Method=findAll") k.
Proof.
  split; [reflexivity|].
  apply (X11_call_attempts_bounded (server_after 1 success_body) (client 2)
           "Offer" "findAll" None empty_world "Method=findAll").
  reflexivity.
Defined.

(** ** [Response.__init__] *)

(** X12.  An envelope with status 1 that lacks one of the fields
    [Response.__init__] reads makes [send_request] raise [KeyError] for
    the first field that is missing, in the order [data], [status],
    [httpStatus], [errors], [errorMessage]: no [Response] is returned, and
    the answer is not retried. *)
Theorem X12_success_envelope_missing_field
    (ext : externals) (self : Api.t) (request : Request.t) (w : world)
    (r : request_obj) (status_code : Z) (body status : json)
    (done rest : list string) (name : string) (e : exn) :
  requests w !! request = Some r ->
  net ext (sent w) (url r) = Reply status_code (Some body) ->
  json_field body "status" = Ok status ->
  json_eq_int status 1 = true ->
  RESPONSE_FIELDS = done ++ name :: rest ->
  Forall (fun n => exists j, json_field body n = Ok j) done ->
  json_field body name = Raise e ->
  e = KeyError name /\
  Api.send_request ext self request w
  = (Raise e, received self request r status_code body w).
Proof.
  intros Hr Hnet Hst Heq Hfields Hdone Hname. split.
  - unfold json_field in Hst, Hname.
    destruct (json_getitem body "response") as [response|e0]; [|discriminate].
    destruct response as [| | | | |kvs]; try discriminate. simpl in Hname.
    destruct (dict_get name (dict_of_pairs kvs)); [discriminate|]. now injection Hname.
  - rewrite (send_request_unfold ext self request w r Hr).
    rewrite (attempt_received ext self request _ w r status_code body Hr Hnet).
    set (w1 := received self request r status_code body w).
    assert (Hv : represents (store w1) (fst (decode body (store w))) body)
      by apply decode_represents.
    rewrite (after_receipt_success ext self request _ _ w1).
    + eapply Response_init_first_missing; eassumption.
    + rewrite (failed_envelope_has_shape w1 _ body Hv status
                 (status_has_shape _ _ Hst) Hst).
      now rewrite Heq.
Qed.

Lemma X12_witness :
  requests one_request !! 0%nat = Some fresh_request /\
  net (server_always no_errors_body) (sent one_request) (url fresh_request)
  = Reply 200 (Some no_errors_body) /\
  json_field no_errors_body "status" = Ok (JInt 1) /\
  json_eq_int (JInt 1) 1 = true /\
  RESPONSE_FIELDS = ["data"; "status"; "httpStatus"] ++ "errors" :: ["errorMessage"] /\
  Forall (fun n => exists j, json_field no_errors_body n = Ok j)
         ["data"; "status"; "httpStatus"] /\
  json_field no_errors_body "errors" = Raise (KeyError "errors") /\
  KeyError "errors" = KeyError "errors" /\
  Api.send_request (server_always no_errors_body) (client 3) 0%nat one_request
  = (Raise (KeyError "errors"),
     received (client 3) 0%nat fresh_request 200 no_errors_body one_request).
Proof.
  assert (Hdone : Forall (fun n => exists j, json_field no_errors_body n = Ok j)
                         ["data"; "status"; "httpStatus"])
    by (repeat constructor; eexists; reflexivity).
  split; [reflexivity|]. split; [reflexivity|]. split; [reflexivity|].
  split; [reflexivity|]. split; [reflexivity|]. split; [exact Hdone|].
  split; [reflexivity|].
  exact (X12_success_envelope_missing_field (server_always no_errors_body) (client 3)
           0%nat one_request fresh_request 200 no_errors_body (JInt 1)
           ["data"; "status"; "httpStatus"] ["errorMessage"] "errors"
           (KeyError "errors") eq_refl eq_refl eq_refl eq_refl eq_refl Hdone eq_refl).
Defined.

(** ** The mapper on data that is not a dictionary, and the errors it
    raises *)

(** X13.  On data that is not a dictionary, [extract_one] and
    [extract_all] go by [len(data)]: [None] for an empty list or an empty
    string, [AttributeError] (no [items]) for a list or a string that is
    not empty, and [TypeError] for [None], a number or a boolean, which
    have no length.  The world is not changed. *)
Theorem X13_extract_of_non_mapping (data : val) (model_name : string) (w : world) :
  py_is_dict (store w) data = false ->
  Mapper.extract_one data model_name w
  = (match py_len (store w) data with
     | Ok O => Ok None
     | Ok (S _) => Raise AttributeError
     | Raise e => Raise e
     end, w) /\
  Mapper.extract_all data model_name w
  = (match py_len (store w) data with
     | Ok O => Ok None
     | Ok (S _) => Raise AttributeError
     | Raise e => Raise e
     end, w).
Proof.
  intros Hd. unfold Mapper.extract_one, Mapper.extract_all, bind, read, ret.
  destruct data as [| | |s|l]; simpl in *; try (split; reflexivity).
  - destruct (String.length s); split; reflexivity.
  - destruct (store w !! l) as [[vs|d]|] eqn:Hl; [|discriminate|split; reflexivity].
    destruct vs; simpl; rewrite ?Hl; split; reflexivity.
Qed.

Lemma X13_witness :
  py_is_dict (store (snd (decoded (JList [JInt 1])))) (fst (decoded (JList [JInt 1])))
  = false /\
  Mapper.extract_one (fst (decoded (JList [JInt 1]))) "Offer"
                     (snd (decoded (JList [JInt 1])))
  = (Raise AttributeError, snd (decoded (JList [JInt 1]))) /\
  Mapper.extract_all (fst (decoded (JList [JInt 1]))) "Offer"
                     (snd (decoded (JList [JInt 1])))
  = (Raise AttributeError, snd (decoded (JList [JInt 1]))).
Proof.
  split; [reflexivity|].
  exact (X13_extract_of_non_mapping (fst (decoded (JList [JInt 1]))) "Offer"
           (snd (decoded (JList [JInt 1]))) eq_refl).
Defined.

(** X14.  [Model.__init__] raises its [Exception] exactly when its
    argument is not a dictionary, and the mapper never makes it do so:
    [extract_one] and [extract_all] update the primary scope before they
    make the record, so what is not a dictionary has raised
    [AttributeError] by then.  No call of the mapper raises that
    [Exception]. *)
Theorem X14_model_type_check_never_fires
    (d data : val) (model_name : string) (w : world) (msg : string) :
  ((exists m, fst (Model.__init__ d w) = Raise (PyException m))
   <-> py_is_dict (store w) d = false) /\
  fst (Mapper.extract_one data model_name w) <> Raise (PyException msg) /\
  fst (Mapper.extract_all data model_name w) <> Raise (PyException msg).
Proof.
  split; [|split].
  - unfold Model.__init__, bind, read, raise, lift.
    destruct (py_is_dict (store w) d) eqn:Hd; simpl.
    + split; [|discriminate]. intros [m Hm]. exfalso.
      destruct (py_items (store w) d) as [items|e] eqn:Hi.
      * now apply fill_no_exception in Hm.
      * destruct d as [| | | |l]; simpl in Hd, Hi; try discriminate.
        destruct (store w !! l) as [[|]|]; discriminate.
    + split; [reflexivity|]. intros _. eauto.
  - rewrite extract_one_eq. unfold bind, read, ret.
    destruct (py_len (store w) data) as [n|e] eqn:Hn.
    + destruct (n =? 0)%nat; [discriminate|].
      pose proof (merge_scope_no_exception data model_name w msg) as H.
      destruct (merge_scope data model_name w) as [[model|e] w1]; [discriminate|].
      simpl in *. intros [= ->]. now apply H.
    + destruct data as [| | | |l]; simpl in Hn; try (injection Hn as <-; discriminate);
        try discriminate.
      destruct (store w !! l) as [[|]|]; try discriminate.
      injection Hn as <-. discriminate.
  - unfold Mapper.extract_all, bind, read, ret.
    destruct (py_len (store w) data) as [n|e] eqn:Hn.
    + destruct (n =? 0)%nat; [discriminate|].
      destruct (py_items (store w) data) as [items|e] eqn:Hi.
      * pose proof (extract_all_loop_no_exception (length items) data model_name
                      (length items) 0 [] w msg) as H.
        destruct (Mapper.extract_all_loop (length items) data model_name
                    (length items) 0 [] w) as [[models|e] w1]; [discriminate|].
        simpl in *. intros [= ->]. now apply H.
      * destruct data as [| | | |l]; simpl in Hi; try (injection Hi as <-; discriminate).
        destruct (store w !! l) as [[|]|]; try discriminate;
          injection Hi as <-; discriminate.
    + destruct data as [| | | |l]; simpl in Hn; try (injection Hn as <-; discriminate);
        try discriminate.
      destruct (store w !! l) as [[|]|]; try discriminate.
      injection Hn as <-. discriminate.
Qed.

(** ** The mapper on dictionaries *)

(** X15.  [extract_one] can be repeated: after a call that returned a
    record, the same call returns the same record again and changes
    nothing, because the primary scope already holds its siblings. *)
Theorem X15_extract_one_again
    (w w' : world) (l : loc) (d : dict val) (model_name : string) (model : Model.t) :
  wf_store (store w) ->
  store w !! l = Some (ODict d) ->
  Mapper.extract_one (VRef l) model_name w = (Ok (Some model), w') ->
  Mapper.extract_one (VRef l) model_name w' = (Ok (Some model), w').
Proof.
  intros Hwf Hl Hrun.
  destruct (extract_one_inv w w' l d model_name model Hl Hrun)
    as (lm & dm & Hk & Hm & -> & Hfill).
  set (merged := dict_update dm (relative_scopes model_name d)) in *.
  set (h1 := <[lm := ODict merged]> (store w)).
  assert (Hlm1 : h1 !! lm = Some (ODict merged)).
  { apply list_lookup_insert_eq. eapply lookup_lt_Some; eassumption. }
  assert (Hd2 : exists d2,
             h1 !! l = Some (ODict d2) /\
             dict_get model_name d2 = Some (VRef lm) /\
             dict_update merged (relative_scopes model_name d2) = merged).
  { destruct (decide (l = lm)) as [->|Hne].
    - exists merged. rewrite Hl in Hm. injection Hm as <-.
      split; [exact Hlm1|]. split.
      + unfold merged. rewrite dict_get_update_out by apply relative_scopes_no_name.
        exact Hk.
      + apply dict_update_same; [apply relative_scopes_NoDup|].
        intros k v Hkv. rewrite relative_scopes_get in Hkv.
        * destruct (String.eqb k model_name); [discriminate | exact Hkv].
        * apply dict_update_NoDup. eapply Hwf; eassumption.
    - exists d. split; [unfold h1; now rewrite list_lookup_insert_ne|].
      split; [exact Hk|].
      apply dict_update_same; [apply relative_scopes_NoDup|].
      intros k v Hkv. unfold merged.
      apply dict_get_update_in; [apply relative_scopes_NoDup | exact Hkv]. }
  destruct Hd2 as (d2 & Hl2 & Hk2 & Hsame).
  rewrite extract_one_eq.
  erewrite bind_ok; cycle 1.
  { apply read_ok. simpl. fold h1. rewrite Hl2. reflexivity. }
  destruct d2 as [|kv d2]; [discriminate|].
  change (length (kv :: d2) =? 0)%nat with false. cbv iota.
  unfold bind.
  rewrite (merge_scope_dict model_name (set_store h1 w) l (kv :: d2) lm merged Hl2 Hk2 Hlm1).
  rewrite Hsame, Hfill. unfold ret, set_store. simpl. fold h1.
  do 2 f_equal. unfold h1. apply list_insert_insert_eq.
Qed.

Lemma X15_witness :
  wf_store (store (snd (decoded collision))) /\
  store (snd (decoded collision)) !! 2%nat
  = Some (ODict [("Conversion", VRef 0%nat); ("Offer", VRef 1%nat)]) /\
  Mapper.extract_one (VRef 2%nat) "Conversion" (snd (decoded collision))
  = (Ok (Some [("id", VInt 5); ("Offer", VRef 1%nat)]),
     snd (Mapper.extract_one (VRef 2%nat) "Conversion" (snd (decoded collision)))) /\
  Mapper.extract_one (VRef 2%nat) "Conversion"
    (snd (Mapper.extract_one (VRef 2%nat) "Conversion" (snd (decoded collision))))
  = (Ok (Some [("id", VInt 5); ("Offer", VRef 1%nat)]),
     snd (Mapper.extract_one (VRef 2%nat) "Conversion" (snd (decoded collision)))).
Proof.
  split; [apply decoded_wf|]. split; [reflexivity|]. split; [reflexivity|].
  exact (X15_extract_one_again (snd (decoded collision)) _ 2%nat _ "Conversion" _
           (decoded_wf collision) eq_refl eq_refl).
Defined.

(** X16.  When [int] rejects the [id] of the merged primary scope (a
    string that is not a number: [ValueError]; [None], a list or a
    dictionary, as when a sibling scope is itself called [id]:
    [TypeError]), [extract_one] raises that error and returns no record,
    but the primary scope has been updated in place all the same. *)
Theorem X16_bad_id_raises_after_the_merge
    (w : world) (l lm : loc) (d dm : dict val) (model_name : string)
    (v : val) (e : exn) :
  store w !! l = Some (ODict d) ->
  dict_get model_name d = Some (VRef lm) ->
  store w !! lm = Some (ODict dm) ->
  dict_get "id" (dict_update dm (relative_scopes model_name d)) = Some v ->
  py_int v = Raise e ->
  (e = ValueError \/ e = TypeError) /\
  Mapper.extract_one (VRef l) model_name w
  = (Raise e,
     set_store (<[lm := ODict (dict_update dm (relative_scopes model_name d))]> (store w))
               w).
Proof.
  intros Hl Hk Hm Hid He. split; [eapply py_int_raises; eassumption|].
  rewrite extract_one_eq.
  erewrite bind_ok; cycle 1.
  { apply read_ok. simpl. rewrite Hl. reflexivity. }
  destruct d as [|kv d]; [discriminate|].
  change (length (kv :: d) =? 0)%nat with false. cbv iota.
  unfold bind. rewrite (merge_scope_dict model_name w l (kv :: d) lm dm Hl Hk Hm).
  now rewrite (fill_id_raise _ [] v e Hid He).
Qed.

Lemma X16_witness :
  store (snd (decoded bad_id)) !! 2%nat
  = Some (ODict [("Offer", VRef 0%nat); ("Advertiser", VRef 1%nat)]) /\
  dict_get "Offer" [("Offer", VRef 0%nat); ("Advertiser", VRef 1%nat)]
  = Some (VRef 0%nat) /\
  store (snd (decoded bad_id)) !! 0%nat
  = Some (ODict [("id", VStr "n/a"); ("name", VStr "x")]) /\
  dict_get "id" (dict_update [("id", VStr "n/a"); ("name", VStr "x")]
                   (relative_scopes "Offer"
                      [("Offer", VRef 0%nat); ("Advertiser", VRef 1%nat)]))
  = Some (VStr "n/a") /\
  py_int (VStr "n/a") = Raise ValueError /\
  (ValueError = ValueError \/ ValueError = TypeError) /\
  Mapper.extract_one (VRef 2%nat) "Offer" (snd (decoded bad_id))
  = (Raise ValueError,
     set_store (<[0%nat := ODict (dict_update [("id", VStr "n/a"); ("name", VStr "x")]
                               (relative_scopes "Offer"
                                  [("Offer", VRef 0%nat); ("Advertiser", VRef 1%nat)]))]>
                  (store (snd (decoded bad_id))))
               (snd (decoded bad_id))).
Proof.
  split; [reflexivity|]. split; [reflexivity|]. split; [reflexivity|].
  split; [reflexivity|]. split; [reflexivity|].
  exact (X16_bad_id_raises_after_the_merge (snd (decoded bad_id)) 2%nat 0%nat
           [("Offer", VRef 0%nat); ("Advertiser", VRef 1%nat)]
           [("id", VStr "n/a"); ("name", VStr "x")] "Offer" (VStr "n/a") ValueError
           eq_refl eq_refl eq_refl eq_refl eq_refl).
Defined.

(** X17.  The attributes of a record come in a fixed order: the fields
    of the primary scope in their order, then the sibling scopes whose
    name is not a field of the primary scope, in the order of [data]. *)
Theorem X17_record_keys_in_order
    (w w' : world) (l : loc) (d : dict val) (model_name : string) (model : Model.t) :
  wf_store (store w) ->
  store w !! l = Some (ODict d) ->
  Mapper.extract_one (VRef l) model_name w = (Ok (Some model), w') ->
  exists lm dm,
    dict_get model_name d = Some (VRef lm) /\
    store w !! lm = Some (ODict dm) /\
    dict_keys model
    = dict_keys dm
      ++ List.filter (fun k => negb (dict_has k dm))
                     (List.filter (fun k => negb (String.eqb k model_name)) (dict_keys d)).
Proof.
  intros Hwf Hl Hrun.
  destruct (extract_one_merged w w' l d model_name model Hwf Hl Hrun)
    as (lm & dm & Hk & Hm & _ & Hkeys & _).
  exists lm, dm. split; [exact Hk|]. split; [exact Hm|].
  rewrite Hkeys, dict_update_keys by apply relative_scopes_NoDup.
  unfold new_keys. rewrite relative_scopes_keys; [reflexivity|].
  eapply Hwf; eassumption.
Qed.

Lemma X17_witness :
  wf_store (store (snd (decoded collision))) /\
  store (snd (decoded collision)) !! 2%nat
  = Some (ODict [("Conversion", VRef 0%nat); ("Offer", VRef 1%nat)]) /\
  Mapper.extract_one (VRef 2%nat) "Conversion" (snd (decoded collision))
  = (Ok (Some [("id", VInt 5); ("Offer", VRef 1%nat)]),
     snd (Mapper.extract_one (VRef 2%nat) "Conversion" (snd (decoded collision)))) /\
  exists lm dm,
    dict_get "Conversion" [("Conversion", VRef 0%nat); ("Offer", VRef 1%nat)]
    = Some (VRef lm) /\
    store (snd (decoded collision)) !! lm = Some (ODict dm) /\
    dict_keys [("id", VInt 5); ("Offer", VRef 1%nat)]
    = dict_keys dm
      ++ List.filter (fun k => negb (dict_has k dm))
           (List.filter (fun k => negb (String.eqb k "Conversion"))
                        (dict_keys [("Conversion", VRef 0%nat); ("Offer", VRef 1%nat)])).
Proof.
  split; [apply decoded_wf|]. split; [reflexivity|]. split; [reflexivity|].
  exact (X17_record_keys_in_order (snd (decoded collision)) _ 2%nat _ "Conversion" _
           (decoded_wf collision) eq_refl eq_refl).
Defined.

(** X18.  [extract_all] stops at the first object whose record cannot be
    made (its [id] is rejected by [int]): the error is raised, no record
    is returned, the primary scopes of the objects up to that one have
    been updated in place, and those of the objects after it are as they
    were. *)
Theorem X18_extract_all_stops_at_first_bad_record
    (w : world) (l : loc) (d : dict val) (model_name : string)
    (infos good rest : list entry_info) (bad : entry_info) (e : exn) :
  store w !! l = Some (ODict d) ->
  Forall2 (entry_shape model_name (store w)) d infos ->
  separated l infos ->
  infos = good ++ bad :: rest ->
  Forall (fun i => exists m, Model.fill (merged_of model_name i) [] = Ok m) good ->
  Model.fill (merged_of model_name bad) [] = Raise e ->
  Mapper.extract_all (VRef l) model_name w
  = (Raise e, set_store (merge_all model_name (good ++ [bad]) (store w)) w) /\
  Forall (fun i => merge_all model_name (good ++ [bad]) (store w) !! e_primary i
                   = Some (ODict (merged_of model_name i))) (good ++ [bad]) /\
  Forall (fun i => merge_all model_name (good ++ [bad]) (store w) !! e_primary i
                   = Some (ODict (e_fields i))) rest.
Proof.
  intros Hl Hshape Hsep -> Hgood Hbad.
  assert (Hd : d <> []).
  { intros ->. apply Forall2_length in Hshape. rewrite length_app in Hshape.
    simpl in Hshape. lia. }
  pose proof (entry_shapes_primary _ _ _ _ Hshape) as Hprim.
  replace (good ++ bad :: rest) with ((good ++ [bad]) ++ rest) in Hsep, Hprim
    by now rewrite <- app_assoc.
  destruct (separated_app l (good ++ [bad]) rest Hsep) as (Hsep1 & _ & Hcross).
  apply Forall_app in Hprim as [Hprim1 Hprim2].
  split; [|split].
  - rewrite (extract_all_run model_name l d w _ Hl Hd Hshape);
      [|now rewrite <- app_assoc in Hsep].
    now rewrite (run_entries_stops model_name good bad rest e _ _ Hgood Hbad).
  - apply (merge_all_in model_name l); [exact Hsep1|].
    eapply Forall_impl; [exact Hprim1|]. intros i Hi. eapply lookup_lt_Some; exact Hi.
  - apply Forall_forall. intros i Hi. rewrite merge_all_out.
    + exact (proj1 (Forall_forall _ _) Hprim2 i Hi).
    + apply Forall_forall. intros j Hj.
      pose proof (proj1 (Forall_forall _ _) Hcross j Hj) as Hji.
      intros Heq. exact (proj1 (Forall_forall _ _) Hji i Hi (eq_sym Heq)).
Qed.

Lemma X18_witness :
  store (snd (decoded second_bad)) !! 6%nat
  = Some (ODict [("1", VRef 1%nat); ("2", VRef 3%nat); ("3", VRef 5%nat)]) /\
  Forall2 (entry_shape "Offer" (store (snd (decoded second_bad))))
          [("1", VRef 1%nat); ("2", VRef 3%nat); ("3", VRef 5%nat)] second_bad_infos /\
  separated 6%nat second_bad_infos /\
  second_bad_infos
  = [EntryInfo 1 [("Offer", VRef 0%nat)] 0 [("id", VStr "1")]]
    ++ EntryInfo 3 [("Offer", VRef 2%nat)] 2 [("id", VStr "n/a")]
       :: [EntryInfo 5 [("Offer", VRef 4%nat)] 4 [("id", VStr "3")]] /\
  Forall (fun i => exists m, Model.fill (merged_of "Offer" i) [] = Ok m)
         [EntryInfo 1 [("Offer", VRef 0%nat)] 0 [("id", VStr "1")]] /\
  Model.fill (merged_of "Offer" (EntryInfo 3 [("Offer", VRef 2%nat)] 2 [("id", VStr "n/a")]))
             [] = Raise ValueError /\
  Mapper.extract_all (VRef 6%nat) "Offer" (snd (decoded second_bad))
  = (Raise ValueError,
     set_store
       (merge_all "Offer"
          ([EntryInfo 1 [("Offer", VRef 0%nat)] 0 [("id", VStr "1")]]
           ++ [EntryInfo 3 [("Offer", VRef 2%nat)] 2 [("id", VStr "n/a")]])
          (store (snd (decoded second_bad))))
       (snd (decoded second_bad))).
Proof.
  assert (Hshape : Forall2 (entry_shape "Offer" (store (snd (decoded second_bad))))
                     [("1", VRef 1%nat); ("2", VRef 3%nat); ("3", VRef 5%nat)]
                     second_bad_infos)
    by (repeat constructor).
  assert (Hsep : separated 6%nat second_bad_infos)
    by (simpl; repeat split; try discriminate; repeat constructor; discriminate).
  assert (Hgood : Forall (fun i => exists m, Model.fill (merged_of "Offer" i) [] = Ok m)
                         [EntryInfo 1 [("Offer", VRef 0%nat)] 0 [("id", VStr "1")]])
    by (repeat constructor; eexists; reflexivity).
  split; [reflexivity|]. split; [exact Hshape|]. split; [exact Hsep|].
  split; [reflexivity|]. split; [exact Hgood|]. split; [reflexivity|].
  exact (proj1 (X18_extract_all_stops_at_first_bad_record
                  (snd (decoded second_bad)) 6%nat _ "Offer" second_bad_infos
                  [EntryInfo 1 [("Offer", VRef 0%nat)] 0 [("id", VStr "1")]]
                  [EntryInfo 5 [("Offer", VRef 4%nat)] 4 [("id", VStr "3")]]
                  (EntryInfo 3 [("Offer", VRef 2%nat)] 2 [("id", VStr "n/a")])
                  ValueError eq_refl Hshape Hsep eq_refl Hgood eq_refl)).
Defined.

(** ** [Response.extract_all] and [Response.extract_one] *)

(** X19.  Without a model name the response extracts under the target of
    its request, and the empty string counts as no name:
    [extract_one()], [extract_one('')] and [extract_one(target)] are the
    same call, and so for [extract_all]. *)
Theorem X19_model_name_defaults_to_target
    (self : Response.t) (w : world) (r : request_obj) :
  requests w !! Response.request self = Some r ->
  Response.extract_one self None w = Response.extract_one self (Some (target r)) w /\
  Response.extract_one self (Some EmptyString) w
  = Response.extract_one self (Some (target r)) w /\
  Response.extract_all self None w = Response.extract_all self (Some (target r)) w /\
  Response.extract_all self (Some EmptyString) w
  = Response.extract_all self (Some (target r)) w.
Proof.
  intros Hr.
  assert (Hnone : Response.model_name_or_target self None w = (Ok (target r), w)).
  { unfold Response.model_name_or_target.
    now rewrite (bind_ok _ _ _ _ _ (get_ok _ w r Hr)). }
  assert (Hempty : Response.model_name_or_target self (Some EmptyString) w
                   = (Ok (target r), w)) by exact Hnone.
  assert (Hsome : Response.model_name_or_target self (Some (target r)) w
                  = (Ok (target r), w)).
  { destruct (target r) as [|c s] eqn:Ht; [|reflexivity].
    rewrite Hempty. congruence. }
  unfold Response.extract_one, Response.extract_all.
  rewrite ?(bind_ok _ _ _ _ _ Hnone), ?(bind_ok _ _ _ _ _ Hempty),
    ?(bind_ok _ _ _ _ _ Hsome).
  repeat split; reflexivity.
Qed.

Lemma X19_witness :
  requests (snd sample_response) !! Response.request (fst sample_response)
  = Some (RequestObj "Conversion" "findById" (call_params (client 1) "findById" None) 1
                     (call_url "Conversion" "Method=findAll")) /\
  Response.extract_one (fst sample_response) None (snd sample_response)
  = Response.extract_one (fst sample_response) (Some "Conversion") (snd sample_response) /\
  Response.extract_one (fst sample_response) (Some EmptyString) (snd sample_response)
  = Response.extract_one (fst sample_response) (Some "Conversion") (snd sample_response) /\
  Response.extract_all (fst sample_response) None (snd sample_response)
  = Response.extract_all (fst sample_response) (Some "Conversion") (snd sample_response) /\
  Response.extract_all (fst sample_response) (Some EmptyString) (snd sample_response)
  = Response.extract_all (fst sample_response) (Some "Conversion") (snd sample_response).
Proof.
  split; [reflexivity|].
  exact (X19_model_name_defaults_to_target (fst sample_response) (snd sample_response)
           (RequestObj "Conversion" "findById" (call_params (client 1) "findById" None) 1
                       (call_url "Conversion" "Method=findAll"))
           eq_refl).
Defined.

(** X20.  [Response.extract_all] looks for the objects under
    [data['data']] exactly when the dictionary [data] has a key [page],
    and raises [KeyError] for [data] when such a page has no [data];
    [Response.extract_one] never looks at [page]: it hands [data] itself to
    the mapper. *)
Theorem X20_extract_all_reads_the_page
    (self : Response.t) (w : world) (l : loc) (d : dict val) (model_name : string) :
  Response.data self = VRef l ->
  store w !! l = Some (ODict d) ->
  model_name <> EmptyString ->
  Response.extract_all self (Some model_name) w
  = (if dict_has "page" d
     then match dict_get "data" d with
          | Some inner => Mapper.extract_all inner model_name w
          | None => (Raise (KeyError "data"), w)
          end
     else Mapper.extract_all (VRef l) model_name w) /\
  Response.extract_one self (Some model_name) w
  = Mapper.extract_one (VRef l) model_name w.
Proof.
  intros Hdata Hl Hname.
  assert (Hmn : Response.model_name_or_target self (Some model_name) w
                = (Ok model_name, w)).
  { destruct model_name; [congruence | reflexivity]. }
  unfold Response.extract_one, Response.extract_all.
  rewrite !(bind_ok _ _ _ _ _ Hmn), Hdata. split; [|reflexivity].
  erewrite bind_ok; cycle 1.
  { apply read_ok. simpl. rewrite Hl. reflexivity. }
  destruct (dict_has "page" d).
  - destruct (dict_get "data" d) as [inner|] eqn:Hin.
    + erewrite bind_ok; [reflexivity|]. apply read_ok. simpl. now rewrite Hl, Hin.
    + erewrite bind_raise; [reflexivity|]. unfold read. simpl. now rewrite Hl, Hin.
  - reflexivity.
Qed.

Lemma X20_witness :
  Response.data (fst page_response) = VRef 3%nat /\
  store (snd page_response) !! 3%nat
  = Some (ODict [("page", VInt 1); ("count", VInt 1); ("data", VRef 2%nat)]) /\
  "Offer" <> EmptyString /\
  Response.extract_all (fst page_response) (Some "Offer") (snd page_response)
  = (if dict_has "page" [("page", VInt 1); ("count", VInt 1); ("data", VRef 2%nat)]
     then match dict_get "data" [("page", VInt 1); ("count", VInt 1); ("data", VRef 2%nat)]
          with
          | Some inner => Mapper.extract_all inner "Offer" (snd page_response)
          | None => (Raise (KeyError "data"), snd page_response)
          end
     else Mapper.extract_all (VRef 3%nat) "Offer" (snd page_response)) /\
  Response.extract_one (fst page_response) (Some "Offer") (snd page_response)
  = Mapper.extract_one (VRef 3%nat) "Offer" (snd page_response).
Proof.
  assert (Hne : "Offer" <> EmptyString) by discriminate.
  split; [reflexivity|]. split; [reflexivity|]. split; [exact Hne|].
  exact (X20_extract_all_reads_the_page (fst page_response) (snd page_response) 3%nat
           [("page", VInt 1); ("count", VInt 1); ("data", VRef 2%nat)] "Offer"
           eq_refl eq_refl Hne).
Defined.

(** ** The attribute proxy *)







(** X24.  Two clients do not share a proxy: the proxy [Api.__init__]
    makes is a new object, and a chain on one client, whatever its names,
    leaves the proxy of another client as it is. *)
Theorem X24_clients_have_separate_proxies
    {R : Type} (call : Api.t -> option string -> option string -> dict json -> R)
    (ambient : list string)
    (first : Client.t) (network_token network_id : json) (debug : bool)
    (retry_count : Z) (tgt meth : string) (kwargs : dict json)
    (proxies : list MethodProxy.obj) (p : MethodProxy.obj) :
  proxies !! Client.method_proxy first = Some p ->
  Client.method_proxy
    (fst (Client.__init__ network_token network_id debug retry_count proxies))
  <> Client.method_proxy first /\
  snd (Client.__init__ network_token network_id debug retry_count proxies)
    !! Client.method_proxy first = Some p /\
  snd (fluent call ambient
         (fst (Client.__init__ network_token network_id debug retry_count proxies))
         tgt meth kwargs
         (snd (Client.__init__ network_token network_id debug retry_count proxies)))
    !! Client.method_proxy first = Some p /\
  snd (fluent call ambient first tgt meth kwargs
         (snd (Client.__init__ network_token network_id debug retry_count proxies)))
    !! Client.method_proxy
         (fst (Client.__init__ network_token network_id debug retry_count proxies))
  = snd (Client.__init__ network_token network_id debug retry_count proxies)
      !! Client.method_proxy
           (fst (Client.__init__ network_token network_id debug retry_count proxies)).
Proof.
  intros Hp.
  assert (Hlt : (Client.method_proxy first < length proxies)%nat)
    by (eapply lookup_lt_Some; eassumption).
  set (api := Api.__init__ network_token network_id debug retry_count).
  set (ps := proxies ++ [MethodProxy.Obj api None None]).
  change (Client.__init__ network_token network_id debug retry_count proxies)
    with (Client.Build api (length proxies), ps).
  cbn [fst snd Client.method_proxy].
  assert (Hold : ps !! Client.method_proxy first = Some p).
  { unfold ps. now rewrite lookup_app_l. }
  assert (Hne : length proxies <> Client.method_proxy first)
    by (unfold MethodProxy.t in *; lia).
  split; [exact Hne|]. split; [exact Hold|]. split.
  - rewrite (fluent_other call ambient (Client.Build api (length proxies)));
      [exact Hold | intros Heq; now apply Hne].
  - now apply fluent_other.
Qed.

Lemma X24_witness :
  [MethodProxy.Obj (client 1) None None]
    !! Client.method_proxy (Client.Build (client 1) 0%nat)
  = Some (MethodProxy.Obj (client 1) None None) /\
  Client.method_proxy
    (fst (Client.__init__ (JStr "token") (JStr "id") false 3
            [MethodProxy.Obj (client 1) None None]))
  <> Client.method_proxy (Client.Build (client 1) 0%nat) /\
  snd (Client.__init__ (JStr "token") (JStr "id") false 3
         [MethodProxy.Obj (client 1) None None])
    !! Client.method_proxy (Client.Build (client 1) 0%nat)
  = Some (MethodProxy.Obj (client 1) None None) /\
  snd (fluent recorded ambient_311
         (fst (Client.__init__ (JStr "token") (JStr "id") false 3
                 [MethodProxy.Obj (client 1) None None]))
         "Offer" "findAll" []
         (snd (Client.__init__ (JStr "token") (JStr "id") false 3
                 [MethodProxy.Obj (client 1) None None])))
    !! Client.method_proxy (Client.Build (client 1) 0%nat)
  = Some (MethodProxy.Obj (client 1) None None) /\
  snd (fluent recorded ambient_311 (Client.Build (client 1) 0%nat) "Offer" "findAll" []
         (snd (Client.__init__ (JStr "token") (JStr "id") false 3
                 [MethodProxy.Obj (client 1) None None])))
    !! Client.method_proxy
         (fst (Client.__init__ (JStr "token") (JStr "id") false 3
                 [MethodProxy.Obj (client 1) None None]))
  = snd (Client.__init__ (JStr "token") (JStr "id") false 3
           [MethodProxy.Obj (client 1) None None])
      !! Client.method_proxy
           (fst (Client.__init__ (JStr "token") (JStr "id") false 3
                   [MethodProxy.Obj (client 1) None None])).
Proof.
  split; [reflexivity|].
  exact (X24_clients_have_separate_proxies recorded ambient_311
           (Client.Build (client 1) 0%nat)
           (JStr "token") (JStr "id") false 3 "Offer" "findAll" []
           [MethodProxy.Obj (client 1) None None] _ eq_refl).
Defined.

(** ** When [extract_one] returns a record *)

(** X25.  On a dictionary that holds a dictionary under the model name,
    [extract_one] returns a record exactly when [int] accepts the [id] of
    the merged primary scope, if it has one: nothing else can make the
    call fail. *)
Theorem X25_extract_one_succeeds_iff_id_converts
    (w : world) (l lm : loc) (d dm : dict val) (model_name : string) :
  wf_store (store w) ->
  store w !! l = Some (ODict d) ->
  dict_get model_name d = Some (VRef lm) ->
  store w !! lm = Some (ODict dm) ->
  (exists model, fst (Mapper.extract_one (VRef l) model_name w) = Ok (Some model)) <->
  (forall v, dict_get "id" (dict_update dm (relative_scopes model_name d)) = Some v ->
             exists n, py_int v = Ok n).
Proof.
  intros Hwf Hl Hk Hm.
  assert (Hrun : Mapper.extract_one (VRef l) model_name w
                 = (match Model.fill (dict_update dm (relative_scopes model_name d)) [] with
                    | Ok model => Ok (Some model)
                    | Raise e => Raise e
                    end,
                    set_store (<[lm := ODict (dict_update dm
                                                (relative_scopes model_name d))]>
                                 (store w)) w)).
  { rewrite extract_one_eq.
    erewrite bind_ok; cycle 1.
    { apply read_ok. simpl. rewrite Hl. reflexivity. }
    destruct d as [|kv d]; [discriminate|].
    change (length (kv :: d) =? 0)%nat with false. cbv iota.
    unfold bind. rewrite (merge_scope_dict model_name w l (kv :: d) lm dm Hl Hk Hm).
    now destruct (Model.fill _ _). }
  rewrite Hrun. simpl. split.
  - intros [model Hmodel] v Hv.
    destruct (py_int v) as [n|e] eqn:Hn; [eauto|].
    rewrite (fill_id_raise _ [] v e Hv Hn) in Hmodel. discriminate.
  - intros Hid.
    destruct (fill_ok (dict_update dm (relative_scopes model_name d)) []) as [model Hf].
    + apply dict_update_NoDup. eapply Hwf; eassumption.
    + exact Hid.
    + exists model. now rewrite Hf.
Qed.

Lemma X25_witness :
  wf_store (store (snd (decoded bad_id))) /\
  store (snd (decoded bad_id)) !! 2%nat
  = Some (ODict [("Offer", VRef 0%nat); ("Advertiser", VRef 1%nat)]) /\
  dict_get "Advertiser" [("Offer", VRef 0%nat); ("Advertiser", VRef 1%nat)]
  = Some (VRef 1%nat) /\
  store (snd (decoded bad_id)) !! 1%nat = Some (ODict [("id", VStr "3")]) /\
  ((exists model,
      fst (Mapper.extract_one (VRef 2%nat) "Advertiser" (snd (decoded bad_id)))
      = Ok (Some model)) <->
   (forall v,
      dict_get "id" (dict_update [("id", VStr "3")]
                       (relative_scopes "Advertiser"
                          [("Offer", VRef 0%nat); ("Advertiser", VRef 1%nat)]))
      = Some v ->
      exists n, py_int v = Ok n)).
Proof.
  split; [apply decoded_wf|]. split; [reflexivity|]. split; [reflexivity|].
  split; [reflexivity|].
  exact (X25_extract_one_succeeds_iff_id_converts (snd (decoded bad_id)) 2%nat 1%nat
           [("Offer", VRef 0%nat); ("Advertiser", VRef 1%nat)] [("id", VStr "3")]
           "Advertiser" (decoded_wf bad_id) eq_refl eq_refl eq_refl).
Defined.
